(** * Cruise-speed state machine and curvature lag compensation

    A shallow embedding of [selfdrive/controls/lib/drive_helpers.py]:
    the class [VCruiseHelper] (explicit state passing over a record) and
    the function [get_lag_adjusted_curvature] (an error-returning
    function).

    Numbers.  Python [int]s are [Z]; Python [float]s are modelled as exact
    rationals [Q], so every statement below is about the arithmetic the
    code writes down, not about binary rounding.  [==] is equality of
    rationals as numbers.

    Binary rounding can change a discrete outcome in three places: the
    digit [round(x, 1)] picks when [x] is a product such as
    [vEgo * MS_TO_KPH] next to a tie, the hold gate
    [cur_time - pressed_last >= 1] of the ramping policy when the
    difference is exactly at the threshold, and a sum of floats that is
    exactly zero on rationals.  The theorems keep away from these: a
    rounded value is pinned only for arguments the policy stores (whole
    numbers and tenths), gates are taken strictly inside or outside, and
    the actuator delay is assumed non-negative. *)

From Stdlib Require Import ZArith QArith Qround Qabs Lqa Lia List String Bool.
Import ListNotations.
Open Scope Q_scope.

(** ** Python numeric builtins *)

Definition Qltb (x y : Q) : bool := negb (Qle_bool y x).

(** [max(a, b)]: keeps [a] unless [b > a]. *)
Definition py_max (a b : Q) : Q := if Qltb a b then b else a.

(** [min(a, b)]: keeps [a] unless [b < a]. *)
Definition py_min (a b : Q) : Q := if Qltb b a then b else a.

(** [round(x)]: nearest integer, ties to the even one. *)
Definition py_round (x : Q) : Z :=
  let f := Qfloor x in
  let r := x - inject_Z f in
  if Qltb r (1 # 2) then f
  else if Qltb (1 # 2) r then (f + 1)%Z
  else if Z.even f then f else (f + 1)%Z.

(** [round(x, 1)]: nearest multiple of one tenth. *)
Definition py_round1 (x : Q) : Q := inject_Z (py_round (x * 10)) / 10.

(** [x % d] on numbers: the remainder takes the sign of the divisor. *)
Definition py_mod (x d : Q) : Q := x - d * inject_Z (Qfloor (x / d)).

(** [math.ceil] and [math.floor]. *)
Definition math_ceil (x : Q) : Q := inject_Z (Qceiling x).
Definition math_floor (x : Q) : Q := inject_Z (Qfloor x).

(** Modelled from the spec: [common.numpy_fast.clip] is imported, its
    body is not part of this file; the spec calls it a clamp of the value
    to [[lo, hi]].  It is the composition of the two builtins. *)
Definition clip (x lo hi : Q) : Q := py_max lo (py_min hi x).

(** ** Constants *)

Definition V_CRUISE_MAX : Q := 145.
Definition V_CRUISE_MIN : Q := 8.
Definition V_CRUISE_MIN_HONDA : Q := 5.
Definition V_CRUISE_DELTA_HONDA : Q := 5.
Definition V_CRUISE_ENABLE_MIN_MPH : Q := 32.
Definition V_CRUISE_ENABLE_MIN_KPH : Q := 30.
Definition V_CRUISE_INITIAL : Q := 255.

Definition MIN_SPEED : Q := 1.0.
Definition CONTROL_N : nat := 17.
Definition MAX_LATERAL_JERK : Q := 5.0.
Definition CRUISE_LONG_PRESS : Z := 50.

(** Modelled from the spec: the unit conversion helper and the two periods
    are imported constants ([CV.MS_TO_KPH], [DT_CTRL], [DT_MDL]); the spec
    names them the kph conversion, the fixed control period and the
    duration of one model step. *)
Definition MS_TO_KPH : Q := 3.6.
Definition DT_CTRL : Q := 0.01.
Definition DT_MDL : Q := 0.05.

(** ** Messages *)

(** Modelled from the spec: the button kinds of
    [car.CarState.ButtonEvent.Type]; the schema is imported.  The code
    names four of them: increment, decrement, set and resume. *)
Inductive ButtonType : Set :=
| unknown | leftBlinker | rightBlinker
| accelCruise | decelCruise | cancel
| altButton1 | altButton2 | altButton3
| setCruise | resumeCruise | gapAdjustCruise.

Definition ButtonType_eqb (a b : ButtonType) : bool :=
  match a, b with
  | unknown, unknown | leftBlinker, leftBlinker | rightBlinker, rightBlinker
  | accelCruise, accelCruise | decelCruise, decelCruise | cancel, cancel
  | altButton1, altButton1 | altButton2, altButton2 | altButton3, altButton3
  | setCruise, setCruise | resumeCruise, resumeCruise
  | gapAdjustCruise, gapAdjustCruise => true
  | _, _ => false
  end.

Record ButtonEvent : Set := mkButtonEvent {
  type : ButtonType;
  pressed : bool
}.

Record CruiseState : Set := mkCruiseState {
  available : bool;
  enabled : bool;
  standstill : bool;
  speed : Q;
  speedCluster : Q
}.

Record CarState : Set := mkCarState {
  cruiseState : CruiseState;
  buttonEvents : list ButtonEvent;
  gasPressed : bool;
  vEgo : Q
}.

Record CarParams : Set := mkCarParams {
  pcmCruise : bool;
  pcmCruiseSpeed : bool;
  carName : string;
  steerActuatorDelay : Q
}.

Record SubMaster : Set := mkSubMaster { frame : Z }.

(** The settings store, seen through its only use, [get_bool]. *)
Definition Params : Type := string -> bool.

(** ** Dictionaries keyed by button kind

    [button_timers] and [button_change_states] are Python dicts built
    with the keys [decelCruise], [accelCruise] in this order; the code
    iterates over the keys, so the order is kept: association lists.
    A write to a key that is there overwrites it in place; a write to a
    missing key appends it. *)

Fixpoint dict_get {A : Type} (d : list (ButtonType * A)) (k : ButtonType)
  : option A :=
  match d with
  | [] => None
  | (k', v) :: rest => if ButtonType_eqb k' k then Some v else dict_get rest k
  end.

Fixpoint dict_set {A : Type} (d : list (ButtonType * A)) (k : ButtonType)
  (v : A) : list (ButtonType * A) :=
  match d with
  | [] => [(k, v)]
  | (k', v') :: rest =>
      if ButtonType_eqb k' k then (k', v) :: rest
      else (k', v') :: dict_set rest k v
  end.

Definition dict_mem {A : Type} (d : list (ButtonType * A)) (k : ButtonType)
  : bool :=
  match dict_get d k with Some _ => true | None => false end.

(** ** The helper's state *)

Record VCruiseHelper : Type := mkVCruiseHelper {
  CP : CarParams;
  v_cruise_kph : Q;
  v_cruise_cluster_kph : Q;
  v_cruise_kph_last : Q;
  button_timers : list (ButtonType * Z);
  (* each value is the dict [{"standstill": b}], kept as [b] *)
  button_change_states : list (ButtonType * bool);
  param_s : Params;
  accel_pressed : bool;
  decel_pressed : bool;
  accel_pressed_last : Q;
  decel_pressed_last : Q;
  fastMode : bool;
  reverse_acc_change : bool
}.

Definition set_v_cruise_kph (v : Q) (s : VCruiseHelper) : VCruiseHelper :=
  mkVCruiseHelper (CP s) v (v_cruise_cluster_kph s) (v_cruise_kph_last s)
    (button_timers s) (button_change_states s) (param_s s)
    (accel_pressed s) (decel_pressed s) (accel_pressed_last s)
    (decel_pressed_last s) (fastMode s) (reverse_acc_change s).

Definition set_v_cruise_cluster_kph (v : Q) (s : VCruiseHelper)
  : VCruiseHelper :=
  mkVCruiseHelper (CP s) (v_cruise_kph s) v (v_cruise_kph_last s)
    (button_timers s) (button_change_states s) (param_s s)
    (accel_pressed s) (decel_pressed s) (accel_pressed_last s)
    (decel_pressed_last s) (fastMode s) (reverse_acc_change s).

Definition set_v_cruise_kph_last (v : Q) (s : VCruiseHelper)
  : VCruiseHelper :=
  mkVCruiseHelper (CP s) (v_cruise_kph s) (v_cruise_cluster_kph s) v
    (button_timers s) (button_change_states s) (param_s s)
    (accel_pressed s) (decel_pressed s) (accel_pressed_last s)
    (decel_pressed_last s) (fastMode s) (reverse_acc_change s).

Definition set_button_timers (t : list (ButtonType * Z)) (s : VCruiseHelper)
  : VCruiseHelper :=
  mkVCruiseHelper (CP s) (v_cruise_kph s) (v_cruise_cluster_kph s)
    (v_cruise_kph_last s) t (button_change_states s) (param_s s)
    (accel_pressed s) (decel_pressed s) (accel_pressed_last s)
    (decel_pressed_last s) (fastMode s) (reverse_acc_change s).

Definition set_button_change_states (c : list (ButtonType * bool))
  (s : VCruiseHelper) : VCruiseHelper :=
  mkVCruiseHelper (CP s) (v_cruise_kph s) (v_cruise_cluster_kph s)
    (v_cruise_kph_last s) (button_timers s) c (param_s s)
    (accel_pressed s) (decel_pressed s) (accel_pressed_last s)
    (decel_pressed_last s) (fastMode s) (reverse_acc_change s).

Definition set_accel_pressed (b : bool) (s : VCruiseHelper) : VCruiseHelper :=
  mkVCruiseHelper (CP s) (v_cruise_kph s) (v_cruise_cluster_kph s)
    (v_cruise_kph_last s) (button_timers s) (button_change_states s)
    (param_s s) b (decel_pressed s) (accel_pressed_last s)
    (decel_pressed_last s) (fastMode s) (reverse_acc_change s).

Definition set_decel_pressed (b : bool) (s : VCruiseHelper) : VCruiseHelper :=
  mkVCruiseHelper (CP s) (v_cruise_kph s) (v_cruise_cluster_kph s)
    (v_cruise_kph_last s) (button_timers s) (button_change_states s)
    (param_s s) (accel_pressed s) b (accel_pressed_last s)
    (decel_pressed_last s) (fastMode s) (reverse_acc_change s).

Definition set_accel_pressed_last (t : Q) (s : VCruiseHelper)
  : VCruiseHelper :=
  mkVCruiseHelper (CP s) (v_cruise_kph s) (v_cruise_cluster_kph s)
    (v_cruise_kph_last s) (button_timers s) (button_change_states s)
    (param_s s) (accel_pressed s) (decel_pressed s) t
    (decel_pressed_last s) (fastMode s) (reverse_acc_change s).

Definition set_decel_pressed_last (t : Q) (s : VCruiseHelper)
  : VCruiseHelper :=
  mkVCruiseHelper (CP s) (v_cruise_kph s) (v_cruise_cluster_kph s)
    (v_cruise_kph_last s) (button_timers s) (button_change_states s)
    (param_s s) (accel_pressed s) (decel_pressed s) (accel_pressed_last s)
    t (fastMode s) (reverse_acc_change s).

Definition set_fastMode (b : bool) (s : VCruiseHelper) : VCruiseHelper :=
  mkVCruiseHelper (CP s) (v_cruise_kph s) (v_cruise_cluster_kph s)
    (v_cruise_kph_last s) (button_timers s) (button_change_states s)
    (param_s s) (accel_pressed s) (decel_pressed s) (accel_pressed_last s)
    (decel_pressed_last s) b (reverse_acc_change s).

Definition set_reverse_acc_change (b : bool) (s : VCruiseHelper)
  : VCruiseHelper :=
  mkVCruiseHelper (CP s) (v_cruise_kph s) (v_cruise_cluster_kph s)
    (v_cruise_kph_last s) (button_timers s) (button_change_states s)
    (param_s s) (accel_pressed s) (decel_pressed s) (accel_pressed_last s)
    (decel_pressed_last s) (fastMode s) b.

(** [VCruiseHelper.__init__]; the settings store is the constructor's
    [Params()], passed in. *)
Definition init (cp : CarParams) (ps : Params) : VCruiseHelper :=
  {| CP := cp;
     v_cruise_kph := V_CRUISE_INITIAL;
     v_cruise_cluster_kph := V_CRUISE_INITIAL;
     v_cruise_kph_last := 0;
     button_timers := [(decelCruise, 0%Z); (accelCruise, 0%Z)];
     button_change_states := [(decelCruise, false); (accelCruise, false)];
     param_s := ps;
     accel_pressed := false;
     decel_pressed := false;
     accel_pressed_last := 0;
     decel_pressed_last := 0;
     fastMode := false;
     reverse_acc_change := ps "ReverseAccChange"%string |}.

(** The property [v_cruise_initialized]. *)
Definition v_cruise_initialized (self : VCruiseHelper) : bool :=
  negb (Qeq_bool (v_cruise_kph self) V_CRUISE_INITIAL).

(** ** Exceptions

    The three exceptions the modelled code can raise: a dict lookup at a
    missing key, a list access out of range, a division by zero. *)

Inductive exn : Set := KeyError | IndexError | ZeroDivisionError.

Inductive result (A : Type) : Type :=
| Ok (a : A)
| Raise (e : exn).

Arguments Ok {A} a.
Arguments Raise {A} e.

Definition bind {A B : Type} (m : result A) (k : A -> result B) : result B :=
  match m with
  | Ok a => k a
  | Raise e => Raise e
  end.

Notation "x <- m ;; k" := (bind m (fun x => k))
  (at level 61, m at next level, right associativity).

(** [d[k]] *)
Definition dict_lookup {A : Type} (d : list (ButtonType * A))
  (k : ButtonType) : result A :=
  match dict_get d k with
  | Some v => Ok v
  | None => Raise KeyError
  end.

Definition CRUISE_NEAREST_FUNC : list (ButtonType * (Q -> Q)) :=
  [(accelCruise, math_ceil); (decelCruise, math_floor)].

Definition CRUISE_INTERVAL_SIGN : list (ButtonType * Q) :=
  [(accelCruise, 1); (decelCruise, -1)].

(** ** The simple policy: [_update_v_cruise_non_pcm] *)

(** Outcome of the [for ... else] that picks the button to process. *)
Inductive selection : Set :=
| EndLongPress                                  (* [return  # end long press] *)
| NoButton                                      (* [button_type is None] *)
| Selected (button_type : ButtonType) (long_press : bool).

(** The [else] of the loop: the first key of [button_timers] whose timer
    is a non-zero multiple of [CRUISE_LONG_PRESS]. *)
Fixpoint find_long_press (timers : list (ButtonType * Z)) : selection :=
  match timers with
  | [] => NoButton
  | (k, t) :: rest =>
      if negb (t =? 0)%Z && (t mod CRUISE_LONG_PRESS =? 0)%Z
      then Selected k true
      else find_long_press rest
  end.

(** The loop over [CS.buttonEvents]: the first released event of a tracked
    kind decides; without one, the long-press scan runs. *)
Fixpoint select_button (timers : list (ButtonType * Z))
  (events : list ButtonEvent) : selection :=
  match events with
  | [] => find_long_press timers
  | b :: rest =>
      match dict_get timers (type b) with
      | Some t =>
          if negb (pressed b) then
            if (t >? CRUISE_LONG_PRESS)%Z then EndLongPress
            else Selected (type b) false
          else select_button timers rest
      | None => select_button timers rest
      end
  end.

(** Lines 151-162: the step or the snap, in either direction policy. *)
Definition adjust_speed (reverse long_press : bool) (button_type : ButtonType)
  (v v_cruise_delta v_cruise_delta_multiplier : Q) : result Q :=
  if reverse then
    let v_cruise_delta :=
      v_cruise_delta * (if long_press then 1 else v_cruise_delta_multiplier) in
    if negb long_press && negb (Qeq_bool (py_mod v v_cruise_delta) 0) then
      nearest <- dict_lookup CRUISE_NEAREST_FUNC button_type ;;
      Ok (nearest (v / v_cruise_delta) * v_cruise_delta)
    else
      sign <- dict_lookup CRUISE_INTERVAL_SIGN button_type ;;
      Ok (v + v_cruise_delta * sign)
  else
    let v_cruise_delta :=
      v_cruise_delta * (if long_press then v_cruise_delta_multiplier else 1) in
    if long_press && negb (Qeq_bool (py_mod v v_cruise_delta) 0) then
      nearest <- dict_lookup CRUISE_NEAREST_FUNC button_type ;;
      Ok (nearest (v / v_cruise_delta) * v_cruise_delta)
    else
      sign <- dict_lookup CRUISE_INTERVAL_SIGN button_type ;;
      Ok (v + v_cruise_delta * sign).

Definition _update_v_cruise_non_pcm (self : VCruiseHelper) (CS : CarState)
  (enabled_long is_metric : bool) : result VCruiseHelper :=
  if negb enabled_long then Ok self
  else
    let v_cruise_delta : Q := if is_metric then 1 else 1.6 in
    let v_cruise_delta_multiplier : Q := if is_metric then 10 else 5 in
    match select_button (button_timers self) (buttonEvents CS) with
    | EndLongPress => Ok self
    | NoButton => Ok self
    | Selected button_type long_press =>
        st <- dict_lookup (button_change_states self) button_type ;;
        let cruise_standstill := st || standstill (cruiseState CS) in
        if ButtonType_eqb button_type accelCruise && cruise_standstill
        then Ok self
        else
          v <- adjust_speed (reverse_acc_change self) long_press button_type
                 (v_cruise_kph self) v_cruise_delta v_cruise_delta_multiplier ;;
          let v :=
            if gasPressed CS
               && (ButtonType_eqb button_type decelCruise
                   || ButtonType_eqb button_type setCruise)
            then py_max v (vEgo CS * MS_TO_KPH)
            else v in
          Ok (set_v_cruise_kph
                (clip (py_round1 v) V_CRUISE_MIN V_CRUISE_MAX) self)
    end.

(** ** [update_button_timers] *)

Definition tick_timers (timers : list (ButtonType * Z))
  : list (ButtonType * Z) :=
  map (fun kt => if (snd kt >? 0)%Z then (fst kt, (snd kt + 1)%Z) else kt)
      timers.

Definition record_event (still : bool) (self : VCruiseHelper)
  (b : ButtonEvent) : VCruiseHelper :=
  if dict_mem (button_timers self) (type b) then
    let self :=
      set_button_timers
        (dict_set (button_timers self) (type b)
           (if pressed b then 1%Z else 0%Z)) self in
    set_button_change_states
      (dict_set (button_change_states self) (type b) still) self
  else self.

Definition update_button_timers (self : VCruiseHelper) (CS : CarState)
  : VCruiseHelper :=
  let self := set_button_timers (tick_timers (button_timers self)) self in
  fold_left (record_event (standstill (cruiseState CS))) (buttonEvents CS)
    self.

(** ** The ramping policy: [_update_v_cruise_non_pcm_honda] *)

(** One round of the loop of lines 188-205 over [CS.buttonEvents]. *)
Definition honda_release (fast reverse : bool) (CS : CarState) (v : Q)
  (b : ButtonEvent) : Q :=
  let v :=
    if negb (pressed b) then
      if ButtonType_eqb (type b) accelCruise then
        if negb fast then
          if reverse
          then v + (V_CRUISE_DELTA_HONDA - py_mod v V_CRUISE_DELTA_HONDA)
          else v + 1
        else v
      else if ButtonType_eqb (type b) decelCruise then
        if negb fast then
          if reverse
          then v - (V_CRUISE_DELTA_HONDA
                    - py_mod (V_CRUISE_DELTA_HONDA - v) V_CRUISE_DELTA_HONDA)
          else v - 1
        else v
      else v
    else v in
  if gasPressed CS
     && (ButtonType_eqb (type b) decelCruise
         || ButtonType_eqb (type b) setCruise)
  then py_max v (vEgo CS * MS_TO_KPH)
  else v.

Definition _update_v_cruise_non_pcm_honda (self : VCruiseHelper)
  (CS : CarState) (enabled_long is_metric : bool) (cur_time : Q)
  : VCruiseHelper :=
  let v :=
    if is_metric then v_cruise_kph self
    else inject_Z (py_round (v_cruise_kph self * 0.6233 + 0.0995)) in
  if enabled_long then
    let v :=
      if accel_pressed self then
        if Qle_bool 1 (cur_time - accel_pressed_last self)
           || (fastMode self
               && Qle_bool 0.5 (cur_time - accel_pressed_last self))
        then
          if reverse_acc_change self then v + 1
          else v + (V_CRUISE_DELTA_HONDA - py_mod v V_CRUISE_DELTA_HONDA)
        else v
      else if decel_pressed self then
        if Qle_bool 1 (cur_time - decel_pressed_last self)
           || (fastMode self
               && Qle_bool 0.5 (cur_time - decel_pressed_last self))
        then
          if reverse_acc_change self then v - 1
          else v - (V_CRUISE_DELTA_HONDA
                    - py_mod (V_CRUISE_DELTA_HONDA - v) V_CRUISE_DELTA_HONDA)
        else v
      else
        fold_left (honda_release (fastMode self) (reverse_acc_change self) CS)
          (buttonEvents CS) v in
    set_v_cruise_kph (clip v V_CRUISE_MIN_HONDA V_CRUISE_MAX) self
  else set_v_cruise_kph v self.

(** ** [update_v_cruise] *)

(** One round of the loop of lines 83-95: the press latches. *)
Definition honda_latch (cur_time : Q) (self : VCruiseHelper)
  (b : ButtonEvent) : VCruiseHelper :=
  if pressed b then
    if ButtonType_eqb (type b) accelCruise then
      set_accel_pressed_last cur_time (set_accel_pressed true self)
    else if ButtonType_eqb (type b) decelCruise then
      set_decel_pressed_last cur_time (set_decel_pressed true self)
    else self
  else
    if ButtonType_eqb (type b) accelCruise then set_accel_pressed false self
    else if ButtonType_eqb (type b) decelCruise then
      set_decel_pressed false self
    else self.

(** Lines 83-105: the branch of [update_v_cruise] taken for the brand
    with the ramping policy. *)
Definition honda_branch (self : VCruiseHelper) (CS : CarState)
  (enabled_long is_metric : bool) (cur_time : Q) : VCruiseHelper :=
  let self := fold_left (honda_latch cur_time) (buttonEvents CS) self in
  let self :=
    _update_v_cruise_non_pcm_honda self CS enabled_long is_metric cur_time in
  let self :=
    set_v_cruise_kph
      (if is_metric then v_cruise_kph self
       else inject_Z
              (py_round
                 ((inject_Z (py_round (v_cruise_kph self)) - 0.0995)
                  / 0.6233))) self in
  let self := set_v_cruise_cluster_kph (v_cruise_kph self) self in
  if accel_pressed self || decel_pressed self then
    if negb (Qeq_bool (v_cruise_kph_last self) (v_cruise_kph self)) then
      set_fastMode true
        (set_decel_pressed_last cur_time
           (set_accel_pressed_last cur_time self))
    else self
  else set_fastMode false self.

Definition update_v_cruise (self : VCruiseHelper) (CS : CarState)
  (enabled_long is_metric : bool) (sm : SubMaster) : result VCruiseHelper :=
  let self := set_v_cruise_kph_last (v_cruise_kph self) self in
  let self :=
    set_reverse_acc_change (param_s self "ReverseAccChange"%string) self in
  let cur_time := inject_Z (frame sm) * DT_CTRL in
  if available (cruiseState CS) then
    if negb (pcmCruise (CP self)) || negb (pcmCruiseSpeed (CP self)) then
      if enabled (cruiseState CS) then
        if String.eqb (carName (CP self)) "honda" then
          Ok (honda_branch self CS enabled_long is_metric cur_time)
        else
          self <- _update_v_cruise_non_pcm self CS enabled_long is_metric ;;
          let self := set_v_cruise_cluster_kph (v_cruise_kph self) self in
          Ok (update_button_timers self CS)
      else Ok self
    else
      let self :=
        set_v_cruise_kph (speed (cruiseState CS) * MS_TO_KPH) self in
      Ok (set_v_cruise_cluster_kph
            (speedCluster (cruiseState CS) * MS_TO_KPH) self)
  else
    let self := set_v_cruise_kph V_CRUISE_INITIAL self in
    Ok (set_v_cruise_cluster_kph V_CRUISE_INITIAL self).

(** ** [initialize_v_cruise] *)

Definition initialize_v_cruise (self : VCruiseHelper) (CS : CarState)
  (is_metric : bool) : VCruiseHelper :=
  if pcmCruise (CP self) && pcmCruiseSpeed (CP self) then self
  else
    let self :=
      if existsb
           (fun b => ButtonType_eqb (type b) accelCruise
                     || ButtonType_eqb (type b) resumeCruise)
           (buttonEvents CS)
         && Qltb (v_cruise_kph_last self) 250
      then set_v_cruise_kph (v_cruise_kph_last self) self
      else
        set_v_cruise_kph
          (inject_Z
             (py_round
                (clip (vEgo CS * MS_TO_KPH)
                   (if is_metric then V_CRUISE_ENABLE_MIN_KPH
                    else V_CRUISE_ENABLE_MIN_MPH)
                   V_CRUISE_MAX))) self in
    set_v_cruise_cluster_kph (v_cruise_kph self) self.

(** ** Shared numeric utilities *)

Definition apply_deadzone (error deadzone : Q) : Q :=
  if Qltb deadzone error then error - deadzone
  else if Qltb error (- deadzone) then error + deadzone
  else 0.

Definition rate_limit (new_value last_value dw_step up_step : Q) : Q :=
  clip new_value (last_value + dw_step) (last_value + up_step).

(** ** [get_lag_adjusted_curvature] *)

(** [xs[i]] for an index [i >= 0]. *)
Definition list_at (xs : list Q) (i : nat) : result Q :=
  match nth_error xs i with
  | Some x => Ok x
  | None => Raise IndexError
  end.

(** [xs[-1]] *)
Definition list_last (xs : list Q) : result Q :=
  match xs with
  | [] => Raise IndexError
  | x :: rest => Ok (last rest x)
  end.

(** [a / b] *)
Definition py_div (a b : Q) : result Q :=
  if Qeq_bool b 0 then Raise ZeroDivisionError else Ok (a / b).

(** The loop [while hi < N and xv > xp[hi]: hi += 1], from [hi = 0]. *)
Fixpoint interp_hi (xv : Q) (xp : list Q) : nat :=
  match xp with
  | [] => O
  | x :: rest => if Qltb x xv then S (interp_hi xv rest) else O
  end.

(** Modelled from the spec: [common.numpy_fast.interp] is imported, its
    body is not part of this file; the spec describes it as linear
    interpolation of the samples [fp] at [xv] against the grid [xp],
    clamped to the grid's domain at the ends.  [xp[low]] with [low = -1]
    reads the last grid point, as a negative index does. *)
Definition interp (xv : Q) (xp fp : list Q) : result Q :=
  let N := List.length xp in
  let hi := interp_hi xv xp in
  let xp_low := match hi with O => list_last xp | S low => list_at xp low end in
  let inner :=
    match hi with
    | O => list_at fp 0
    | S low =>
        a <- xp_low ;;
        fh <- list_at fp hi ;;
        fl <- list_at fp low ;;
        xh <- list_at xp hi ;;
        b <- xp_low ;;
        q <- py_div ((xv - a) * (fh - fl)) (xh - b) ;;
        fl' <- list_at fp low ;;
        Ok (q + fl')
    end in
  if (hi =? N)%nat then
    xl <- xp_low ;;
    if Qltb xl xv then list_last fp else inner
  else inner.

Section Curvature.

(** The model's time-index table [selfdrive.modeld.constants.T_IDXS] is
    imported; it is a parameter of this section. *)
Variable T_IDXS : list Q.

Definition zero_trajectory : list Q := repeat 0.0 CONTROL_N.

Definition get_lag_adjusted_curvature (CP : CarParams) (v_ego : Q)
  (psis curvatures curvature_rates : list Q) : result (Q * Q) :=
  let mismatch := negb (List.length psis =? CONTROL_N)%nat in
  let psis := if mismatch then zero_trajectory else psis in
  let curvatures := if mismatch then zero_trajectory else curvatures in
  let curvature_rates :=
    if mismatch then zero_trajectory else curvature_rates in
  let v_ego := py_max MIN_SPEED v_ego in
  let delay := steerActuatorDelay CP + 0.2 in
  current_curvature_desired <- list_at curvatures 0 ;;
  psi <- interp delay (firstn CONTROL_N T_IDXS) psis ;;
  average_curvature_desired <- py_div psi (v_ego * delay) ;;
  let desired_curvature :=
    2 * average_curvature_desired - current_curvature_desired in
  desired_curvature_rate <- list_at curvature_rates 0 ;;
  max_curvature_rate <- py_div MAX_LATERAL_JERK (v_ego ^ 2) ;;
  let safe_desired_curvature_rate :=
    clip desired_curvature_rate (- max_curvature_rate) max_curvature_rate in
  let safe_desired_curvature :=
    clip desired_curvature
      (current_curvature_desired - max_curvature_rate * DT_MDL)
      (current_curvature_desired + max_curvature_rate * DT_MDL) in
  Ok (safe_desired_curvature, safe_desired_curvature_rate).

End Curvature.

(** The time grid of the planner, ten seconds on 33 quadratically spaced
    points; used below as a concrete instance of the table. *)
Definition T_IDXS_model : list Q :=
  map (fun i : nat => 10 * (inject_Z (Z.of_nat i) / 32) ^ 2) (seq 0 33).

(** ** Vocabulary of the properties

    Dispatch predicates, sample inputs, well-formed and reachable
    states, and the spec-side descriptions the theorems compare the
    code with. *)

(** Cruise available, set speed not owned by the PCM, cruise enabled: the
    system runs its own set-speed logic, in one of the two policies. *)
Definition own_set_speed (self : VCruiseHelper) (CS : CarState) : bool :=
  available (cruiseState CS)
  && (negb (pcmCruise (CP self)) || negb (pcmCruiseSpeed (CP self)))
  && enabled (cruiseState CS).

Definition is_honda (self : VCruiseHelper) : bool :=
  String.eqb (carName (CP self)) "honda".

Definition simple_policy_runs (self : VCruiseHelper) (CS : CarState) : bool :=
  own_set_speed self CS && negb (is_honda self).

Definition honda_policy_runs (self : VCruiseHelper) (CS : CarState) : bool :=
  own_set_speed self CS && is_honda self.

(** The two writes every cycle starts with. *)
Definition start_cycle (self : VCruiseHelper) : VCruiseHelper :=
  set_reverse_acc_change (param_s self "ReverseAccChange"%string)
    (set_v_cruise_kph_last (v_cruise_kph self) self).

Definition toyota : CarParams := mkCarParams false false "toyota" 0.1.

Definition honda : CarParams := mkCarParams false false "honda" 0.1.

Definition pcm_car : CarParams := mkCarParams true true "toyota" 0.1.

Definition no_reverse : Params := fun _ => false.

(** A message with cruise available and enabled. *)
Definition cruising (events : list ButtonEvent) (still gas : bool) (v_ego : Q)
  : CarState :=
  mkCarState (mkCruiseState true true still 0 0) events gas v_ego.

(** A helper of the sample car at speed [v], with the given timers and
    stored standstill flags. *)
Definition helper_at (v : Q) (timers : list (ButtonType * Z))
  (states : list (ButtonType * bool)) : VCruiseHelper :=
  mkVCruiseHelper toyota v v v timers states no_reverse
    false false 0 0 false false.

Definition tracked_keys : list ButtonType := [decelCruise; accelCruise].

(** Both dicts keep the two keys of the constructor, in its order. *)
Definition well_formed (self : VCruiseHelper) : Prop :=
  map fst (button_timers self) = tracked_keys
  /\ map fst (button_change_states self) = tracked_keys.

Definition set_param_s (ps : Params) (s : VCruiseHelper) : VCruiseHelper :=
  mkVCruiseHelper (CP s) (v_cruise_kph s) (v_cruise_cluster_kph s)
    (v_cruise_kph_last s) (button_timers s) (button_change_states s)
    ps (accel_pressed s) (decel_pressed s) (accel_pressed_last s)
    (decel_pressed_last s) (fastMode s) (reverse_acc_change s).

(** The states a helper built for the car [cp] can be in: after the
    constructor, after any call of the two public methods that returns,
    and after the settings store, which lives outside, changed. *)
Inductive reachable (cp : CarParams) : VCruiseHelper -> Prop :=
| reach_init ps : reachable cp (init cp ps)
| reach_update self CS enabled_long is_metric sm self' :
    reachable cp self ->
    update_v_cruise self CS enabled_long is_metric sm = Ok self' ->
    reachable cp self'
| reach_initialize self CS is_metric :
    reachable cp self ->
    reachable cp (initialize_v_cruise self CS is_metric)
| reach_store self ps :
    reachable cp self -> reachable cp (set_param_s ps self).

(** An increment or resume event is among this cycle's events. *)
Definition resume_event_present (CS : CarState) : bool :=
  existsb
    (fun b => ButtonType_eqb (type b) accelCruise
              || ButtonType_eqb (type b) resumeCruise)
    (buttonEvents CS).

(** The last event of kind [k] among the cycle's events, if any. *)
Fixpoint last_event_of (k : ButtonType) (events : list ButtonEvent)
  : option ButtonEvent :=
  match events with
  | [] => None
  | b :: rest =>
      match last_event_of k rest with
      | Some b' => Some b'
      | None => if ButtonType_eqb (type b) k then Some b else None
      end
  end.

(** The bookkeeping in the spec's words: a timer is set to 1 on a press
    and to 0 on a release, and otherwise counts on while the button is
    held; the standstill flag is captured on each change. *)
Definition timer_after (t : Z) (change : option ButtonEvent) : Z :=
  match change with
  | Some b => if pressed b then 1%Z else 0%Z
  | None => if (t >? 0)%Z then (t + 1)%Z else t
  end.

Definition standstill_flag_after (flag still : bool)
  (change : option ButtonEvent) : bool :=
  match change with
  | Some _ => still
  | None => flag
  end.

Definition bookkeeping_done (self : VCruiseHelper) (CS : CarState)
  (self' : VCruiseHelper) : Prop :=
  forall k t flag,
    In k tracked_keys ->
    dict_get (button_timers self) k = Some t ->
    dict_get (button_change_states self) k = Some flag ->
    dict_get (button_timers self') k
    = Some (timer_after t (last_event_of k (buttonEvents CS)))
    /\ dict_get (button_change_states self') k
       = Some (standstill_flag_after flag (standstill (cruiseState CS))
                 (last_event_of k (buttonEvents CS))).

Definition brand_min (self : VCruiseHelper) : Q :=
  if is_honda self then V_CRUISE_MIN_HONDA else V_CRUISE_MIN.

(** The property C1 claims of the state [self'] that comes out of a cycle
    fed with [CS]. *)
Definition in_range_or_unavailable (self' : VCruiseHelper) (CS : CarState)
  : Prop :=
  (brand_min self' <= v_cruise_kph self'
   /\ v_cruise_kph self' <= V_CRUISE_MAX)
  \/ (v_cruise_kph self' == V_CRUISE_INITIAL
      /\ available (cruiseState CS) = false).

(** Line 172 and line 97: to the display unit and back. *)
Definition honda_to_display (is_metric : bool) (v : Q) : Q :=
  if is_metric then v else inject_Z (py_round (v * 0.6233 + 0.0995)).

Definition honda_from_display (is_metric : bool) (v : Q) : Q :=
  if is_metric then v
  else inject_Z (py_round ((inject_Z (py_round v) - 0.0995) / 0.6233)).

(** The hold gate of lines 176 and 182. *)
Definition honda_hold_due (pressed_last cur_time : Q) (fast : bool) : bool :=
  Qle_bool 1 (cur_time - pressed_last)
  || (fast && Qle_bool 0.5 (cur_time - pressed_last)).

(** Lines 175-186 on a display-unit speed. *)
Definition honda_ramp (accel decel : bool) (accel_last decel_last : Q)
  (fast reverse : bool) (cur_time v : Q) : Q :=
  if accel then
    if honda_hold_due accel_last cur_time fast then
      if reverse then v + 1
      else v + (V_CRUISE_DELTA_HONDA - py_mod v V_CRUISE_DELTA_HONDA)
    else v
  else if decel then
    if honda_hold_due decel_last cur_time fast then
      if reverse then v - 1
      else v - (V_CRUISE_DELTA_HONDA
                - py_mod (V_CRUISE_DELTA_HONDA - v) V_CRUISE_DELTA_HONDA)
    else v
  else v.

Definition honda_idle_speed (accel decel : bool) (accel_last decel_last : Q)
  (fast reverse enabled_long is_metric : bool) (cur_time v : Q) : Q :=
  let v0 := honda_to_display is_metric v in
  honda_from_display is_metric
    (if enabled_long
     then clip (honda_ramp accel decel accel_last decel_last fast reverse
                  cur_time v0) V_CRUISE_MIN_HONDA V_CRUISE_MAX
     else v0).

(** A run of metric cycles with longitudinal control enabled, one
    message per cycle. *)
Fixpoint run (msgs : list CarState) (self : VCruiseHelper)
  : result VCruiseHelper :=
  match msgs with
  | [] => Ok self
  | CS :: rest =>
      s <- update_v_cruise self CS true true (mkSubMaster 0) ;;
      run rest s
  end.

(** The sample car engaged at 20 m/s: 72 kph. *)
Definition engaged : VCruiseHelper :=
  initialize_v_cruise (init toyota no_reverse)
    (cruising [] false false 20) true.

(** The increment button pressed and then held for 48 more cycles. *)
Definition press_and_hold : list CarState :=
  cruising [mkButtonEvent accelCruise true] false false 20
  :: repeat (cruising [] false false 20) 48.

Definition held_49 : VCruiseHelper :=
  Eval vm_compute in
    match run press_and_hold engaged with
    | Ok s => s
    | Raise _ => engaged
    end.

(** The message [CS] with another list of button events. *)
Definition with_events (CS : CarState) (events : list ButtonEvent)
  : CarState :=
  mkCarState (cruiseState CS) events (gasPressed CS) (vEgo CS).

(** No hold timer is negative. *)
Definition timers_nonneg (self : VCruiseHelper) : Prop :=
  Forall (fun kt : ButtonType * Z => (0 <= snd kt)%Z) (button_timers self).

(** An event the first loop of the simple policy passes over: a press,
    or a button kind without a timer. *)
Definition passed_over (timers : list (ButtonType * Z)) (b : ButtonEvent)
  : Prop :=
  dict_mem timers (type b) = true -> pressed b = true.

(** The increment button pressed while the car stands, then held for 49
    cycles with the car moving: its timer stands at 50, its stored
    standstill flag is set. *)
Definition press_at_standstill_and_hold : list CarState :=
  cruising [mkButtonEvent accelCruise true] true false 0
  :: repeat (cruising [] false false 20) 49.

Definition held_from_standstill_50 : VCruiseHelper :=
  Eval vm_compute in
    match run press_at_standstill_and_hold engaged with
    | Ok s => s
    | Raise _ => engaged
    end.

(** Both buttons pressed in one cycle and held for 49 more: both timers
    stand at 50. *)
Definition press_both_and_hold : list CarState :=
  cruising [mkButtonEvent accelCruise true; mkButtonEvent decelCruise true]
    false false 20
  :: repeat (cruising [] false false 20) 49.

Definition both_held_50 : VCruiseHelper :=
  Eval vm_compute in
    match run press_both_and_hold engaged with
    | Ok s => s
    | Raise _ => engaged
    end.

(** The increment button pressed while the car stands, one cycle ago. *)
Definition pressed_at_standstill : VCruiseHelper :=
  Eval vm_compute in
    match run [cruising [mkButtonEvent accelCruise true] true false 0]
            engaged with
    | Ok s => s
    | Raise _ => engaged
    end.

(** * Properties *)

(** ** Arithmetic of the builtins *)

Lemma Qltb_true (x y : Q) : Qltb x y = true <-> x < y.
Proof.
  unfold Qltb. rewrite negb_true_iff. split; intro H.
  - apply Qnot_le_lt. intro Hle. apply Qle_bool_iff in Hle. congruence.
  - destruct (Qle_bool y x) eqn:E; [|reflexivity].
    apply Qle_bool_iff in E. exfalso. apply (Qlt_not_le _ _ H E).
Qed.

Lemma Qltb_false (x y : Q) : Qltb x y = false <-> y <= x.
Proof.
  unfold Qltb. rewrite negb_false_iff. apply Qle_bool_iff.
Qed.

Lemma Qltb_cases (x y : Q) :
  (Qltb x y = true /\ x < y) \/ (Qltb x y = false /\ y <= x).
Proof.
  destruct (Qltb x y) eqn:E.
  - left. split; [reflexivity | now apply Qltb_true].
  - right. split; [reflexivity | now apply Qltb_false].
Qed.

Lemma Qeq_bool_false (x y : Q) : Qeq_bool x y = false <-> ~ x == y.
Proof.
  split.
  - apply Qeq_bool_neq.
  - intro H. destruct (Qeq_bool x y) eqn:E; [|reflexivity].
    apply Qeq_bool_eq in E. contradiction.
Qed.

#[global] Instance Qltb_Proper : Proper (Qeq ==> Qeq ==> eq) Qltb.
Proof.
  intros x x' Hx y y' Hy. unfold Qltb. now rewrite Hx, Hy.
Qed.

#[global] Instance py_max_Proper : Proper (Qeq ==> Qeq ==> Qeq) py_max.
Proof.
  intros x x' Hx y y' Hy. unfold py_max. rewrite Hx, Hy.
  destruct (Qltb x' y'); assumption.
Qed.

#[global] Instance py_min_Proper : Proper (Qeq ==> Qeq ==> Qeq) py_min.
Proof.
  intros x x' Hx y y' Hy. unfold py_min. rewrite Hx, Hy.
  destruct (Qltb y' x'); assumption.
Qed.

#[global] Instance clip_Proper : Proper (Qeq ==> Qeq ==> Qeq ==> Qeq) clip.
Proof.
  intros x x' Hx lo lo' Hlo hi hi' Hhi. unfold clip.
  now rewrite Hx, Hlo, Hhi.
Qed.

Lemma py_max_ge_l (a b : Q) : a <= py_max a b.
Proof.
  unfold py_max. destruct (Qltb_cases a b) as [[-> H] | [-> H]]; lra.
Qed.


Lemma py_min_le_l (a b : Q) : py_min a b <= a.
Proof.
  unfold py_min. destruct (Qltb_cases b a) as [[-> H] | [-> H]]; lra.
Qed.

Lemma py_min_le_r (a b : Q) : py_min a b <= b.
Proof.
  unfold py_min. destruct (Qltb_cases b a) as [[-> H] | [-> H]]; lra.
Qed.

(** A clamp lands in its interval. *)
Lemma clip_bounds (x lo hi : Q) :
  lo <= hi -> lo <= clip x lo hi /\ clip x lo hi <= hi.
Proof.
  intro Hle. unfold clip, py_max, py_min.
  destruct (Qltb_cases x hi) as [[-> H1] | [-> H1]];
    [destruct (Qltb_cases lo x) as [[-> H2] | [-> H2]]
    |destruct (Qltb_cases lo hi) as [[-> H2] | [-> H2]]];
    split; lra.
Qed.

(** A clamp leaves a value of the interval alone. *)
Lemma clip_inside (x lo hi : Q) : lo <= x -> x <= hi -> clip x lo hi == x.
Proof.
  intros Hlo Hhi. unfold clip, py_max, py_min.
  destruct (Qltb_cases x hi) as [[-> H1] | [-> H1]];
    [destruct (Qltb_cases lo x) as [[-> H2] | [-> H2]]
    |destruct (Qltb_cases lo hi) as [[-> H2] | [-> H2]]]; lra.
Qed.

Lemma clip_below (x lo hi : Q) : lo <= hi -> x <= lo -> clip x lo hi == lo.
Proof.
  intros Hle Hx. unfold clip, py_max, py_min.
  destruct (Qltb_cases x hi) as [[-> H1] | [-> H1]];
    [destruct (Qltb_cases lo x) as [[-> H2] | [-> H2]]
    |destruct (Qltb_cases lo hi) as [[-> H2] | [-> H2]]]; lra.
Qed.

Lemma clip_above (x lo hi : Q) : lo <= hi -> hi <= x -> clip x lo hi == hi.
Proof.
  intros Hle Hx. unfold clip, py_max, py_min.
  destruct (Qltb_cases x hi) as [[-> H1] | [-> H1]];
    [destruct (Qltb_cases lo x) as [[-> H2] | [-> H2]]
    |destruct (Qltb_cases lo hi) as [[-> H2] | [-> H2]]]; lra.
Qed.

(** Integers compared through their images in [Q]. *)
Lemma inject_Z_lt_succ (a b : Z) : inject_Z a < inject_Z b + 1 -> (a <= b)%Z.
Proof.
  intro H. apply Z.lt_succ_r. rewrite Zlt_Qlt.
  unfold Z.succ. rewrite inject_Z_plus. exact H.
Qed.

Lemma floor_sandwich (x : Q) :
  inject_Z (Qfloor x) <= x /\ x < inject_Z (Qfloor x) + 1.
Proof.
  split; [apply Qfloor_le|].
  pose proof (Qlt_floor x) as H. rewrite inject_Z_plus in H. exact H.
Qed.

Lemma ceiling_sandwich (x : Q) :
  x <= inject_Z (Qceiling x) /\ inject_Z (Qceiling x) - 1 < x.
Proof.
  split; [apply Qle_ceiling|].
  pose proof (Qceiling_lt x) as H.
  unfold Z.sub in H. rewrite inject_Z_plus in H. exact H.
Qed.

#[global] Instance py_round_Proper : Proper (Qeq ==> eq) py_round.
Proof.
  intros x y H. unfold py_round.
  rewrite (Qfloor_comp _ _ H). cbv zeta.
  assert (E1 : Qltb (x - inject_Z (Qfloor y)) (1 # 2)
               = Qltb (y - inject_Z (Qfloor y)) (1 # 2)) by now rewrite H.
  assert (E2 : Qltb (1 # 2) (x - inject_Z (Qfloor y))
               = Qltb (1 # 2) (y - inject_Z (Qfloor y))) by now rewrite H.
  now rewrite E1, E2.
Qed.

#[global] Instance py_mod_Proper : Proper (Qeq ==> Qeq ==> Qeq) py_mod.
Proof.
  intros x x' Hx d d' Hd. unfold py_mod.
  assert (E : Qfloor (x / d) = Qfloor (x' / d'))
    by (apply Qfloor_comp; now rewrite Hx, Hd).
  now rewrite E, Hx, Hd.
Qed.

(** [round] stays within one half of its argument. *)
Lemma py_round_near (x : Q) :
  x - (1 # 2) <= inject_Z (py_round x) /\ inject_Z (py_round x) <= x + (1 # 2).
Proof.
  unfold py_round. destruct (floor_sandwich x) as [Hf1 Hf2].
  set (f := Qfloor x) in *.
  destruct (Qltb_cases (x - inject_Z f) (1 # 2)) as [[-> H1] | [-> H1]].
  - split; lra.
  - destruct (Qltb_cases (1 # 2) (x - inject_Z f)) as [[-> H2] | [-> H2]].
    + rewrite inject_Z_plus. change (inject_Z 1) with 1. split; lra.
    + destruct (Z.even f); [|rewrite inject_Z_plus; change (inject_Z 1) with 1];
        split; lra.
Qed.

(** The integer strictly within one half of [x] is [round(x)]. *)
Lemma py_round_unique (x : Q) (n : Z) :
  inject_Z n - (1 # 2) < x -> x < inject_Z n + (1 # 2) -> py_round x = n.
Proof.
  intros Hlo Hhi. destruct (py_round_near x) as [H1 H2].
  apply Z.le_antisymm; apply inject_Z_lt_succ; lra.
Qed.

Lemma py_round_inject_Z (n : Z) : py_round (inject_Z n) = n.
Proof. apply py_round_unique; lra. Qed.

(** [round] never crosses an integer bound. *)
Lemma py_round_le (x : Q) (n : Z) : x <= inject_Z n -> (py_round x <= n)%Z.
Proof.
  intro H. destruct (py_round_near x) as [_ H2].
  apply inject_Z_lt_succ. lra.
Qed.

Lemma py_round_ge (x : Q) (n : Z) : inject_Z n <= x -> (n <= py_round x)%Z.
Proof.
  intro H. destruct (py_round_near x) as [H1 _].
  apply inject_Z_lt_succ. lra.
Qed.

#[global] Instance py_round1_Proper : Proper (Qeq ==> Qeq) py_round1.
Proof.
  intros x y H. unfold py_round1.
  assert (E : py_round (x * 10) = py_round (y * 10))
    by (apply py_round_Proper; now rewrite H).
  now rewrite E.
Qed.

(** Rounding to one decimal fixes the tenths of an integer. *)
Lemma py_round1_tenths (n : Z) : py_round1 (inject_Z n / 10) == inject_Z n / 10.
Proof.
  unfold py_round1.
  assert (E : py_round (inject_Z n / 10 * 10) = n).
  { rewrite <- (py_round_inject_Z n) at 2. apply py_round_Proper. field. }
  now rewrite E.
Qed.

Lemma py_round1_le (x : Q) (n : Z) :
  x <= inject_Z n / 10 -> py_round1 x <= inject_Z n / 10.
Proof.
  intro H. unfold py_round1.
  assert (Hn : inject_Z n / 10 * 10 == inject_Z n) by field.
  assert (Hr : (py_round (x * 10) <= n)%Z) by (apply py_round_le; lra).
  rewrite Zle_Qle in Hr.
  assert (Hq : inject_Z (py_round (x * 10)) / 10 * 10
               == inject_Z (py_round (x * 10))) by field.
  lra.
Qed.

Lemma py_round1_ge (x : Q) (n : Z) :
  inject_Z n / 10 <= x -> inject_Z n / 10 <= py_round1 x.
Proof.
  intro H. unfold py_round1.
  assert (Hn : inject_Z n / 10 * 10 == inject_Z n) by field.
  assert (Hr : (n <= py_round (x * 10))%Z) by (apply py_round_ge; lra).
  rewrite Zle_Qle in Hr.
  assert (Hq : inject_Z (py_round (x * 10)) / 10 * 10
               == inject_Z (py_round (x * 10))) by field.
  lra.
Qed.

(** Clamping to [[8, 145]] and rounding to one decimal commute: both
    bounds are themselves tenths. *)
Lemma clip_py_round1_commute (x : Q) :
  clip (py_round1 x) V_CRUISE_MIN V_CRUISE_MAX
  == py_round1 (clip x V_CRUISE_MIN V_CRUISE_MAX).
Proof.
  unfold V_CRUISE_MIN, V_CRUISE_MAX.
  pose proof (py_round1_le x 80) as Hle8.
  pose proof (py_round1_ge x 80) as Hge8.
  pose proof (py_round1_le x 1450) as Hle145.
  pose proof (py_round1_ge x 1450) as Hge145.
  pose proof (py_round1_tenths 80) as H8.
  pose proof (py_round1_tenths 1450) as H145.
  assert (E8 : inject_Z 80 / 10 == 8) by reflexivity.
  assert (E145 : inject_Z 1450 / 10 == 145) by reflexivity.
  rewrite E8 in *. rewrite E145 in *. clear E8 E145.
  destruct (Qlt_le_dec x 8) as [Hx | Hx].
  - rewrite (clip_below x 8 145) by lra. rewrite H8.
    apply clip_below; lra.
  - destruct (Qlt_le_dec 145 x) as [Hy | Hy].
    + rewrite (clip_above x 8 145) by lra. rewrite H145.
      apply clip_above; lra.
    + rewrite (clip_inside x 8 145) by lra.
      apply clip_inside; lra.
Qed.

(** ** Dispatch of [update_v_cruise] *)

Lemma update_v_cruise_simple self CS enabled_long is_metric sm :
  simple_policy_runs self CS = true ->
  update_v_cruise self CS enabled_long is_metric sm =
  (s <- _update_v_cruise_non_pcm (start_cycle self) CS enabled_long is_metric ;;
   Ok (update_button_timers (set_v_cruise_cluster_kph (v_cruise_kph s) s) CS)).
Proof.
  unfold simple_policy_runs, own_set_speed, is_honda, update_v_cruise.
  intro H.
  apply andb_true_iff in H as [H Hh].
  apply andb_true_iff in H as [H He].
  apply andb_true_iff in H as [Ha Hp].
  apply negb_true_iff in Hh.
  cbn [CP set_reverse_acc_change set_v_cruise_kph_last].
  rewrite Ha, Hp, He, Hh. reflexivity.
Qed.

Lemma record_events_v_cruise_kph still events self :
  v_cruise_kph (fold_left (record_event still) events self)
  = v_cruise_kph self.
Proof.
  revert self. induction events as [|b rest IH]; intro self; [reflexivity|].
  cbn [fold_left]. rewrite IH. unfold record_event.
  destruct (dict_mem (button_timers self) (type b)); reflexivity.
Qed.

Lemma update_button_timers_v_cruise_kph self CS :
  v_cruise_kph (update_button_timers self CS) = v_cruise_kph self.
Proof.
  unfold update_button_timers. now rewrite record_events_v_cruise_kph.
Qed.

(** In the simple policy the speed that comes out of the cycle is the one
    [_update_v_cruise_non_pcm] leaves. *)
Lemma update_v_cruise_simple_speed self CS enabled_long is_metric sm s :
  simple_policy_runs self CS = true ->
  _update_v_cruise_non_pcm (start_cycle self) CS enabled_long is_metric = Ok s ->
  exists self',
    update_v_cruise self CS enabled_long is_metric sm = Ok self'
    /\ v_cruise_kph self' = v_cruise_kph s.
Proof.
  intros Hd Hs. rewrite (update_v_cruise_simple _ _ _ _ _ Hd), Hs.
  eexists. split; [reflexivity|].
  now rewrite update_button_timers_v_cruise_kph.
Qed.

(** ** The simple policy, step by step *)

(** What [_update_v_cruise_non_pcm] does once a button is selected and
    not suppressed: adjust, hold above the current speed if overriding,
    round, clamp. *)
Lemma non_pcm_selected self CS (is_metric : bool) button_type long_press st v :
  select_button (button_timers self) (buttonEvents CS)
  = Selected button_type long_press ->
  dict_get (button_change_states self) button_type = Some st ->
  ButtonType_eqb button_type accelCruise && (st || standstill (cruiseState CS))
  = false ->
  adjust_speed (reverse_acc_change self) long_press button_type
    (v_cruise_kph self) (if is_metric then 1 else 1.6)
    (if is_metric then 10 else 5) = Ok v ->
  _update_v_cruise_non_pcm self CS true is_metric =
  Ok (set_v_cruise_kph
        (clip
           (py_round1
              (if gasPressed CS
                  && (ButtonType_eqb button_type decelCruise
                      || ButtonType_eqb button_type setCruise)
               then py_max v (vEgo CS * MS_TO_KPH) else v))
           V_CRUISE_MIN V_CRUISE_MAX) self).
Proof.
  intros Hsel Hst Hstill Hadj. unfold _update_v_cruise_non_pcm.
  cbn [negb]. rewrite Hsel. unfold dict_lookup. rewrite Hst.
  cbn [bind]. rewrite Hstill, Hadj. reflexivity.
Qed.

(** Suppression: the increment button at standstill is dropped whole. *)
Lemma non_pcm_standstill_ignored self CS enabled_long is_metric long_press st :
  select_button (button_timers self) (buttonEvents CS)
  = Selected accelCruise long_press ->
  dict_get (button_change_states self) accelCruise = Some st ->
  st || standstill (cruiseState CS) = true ->
  _update_v_cruise_non_pcm self CS enabled_long is_metric = Ok self.
Proof.
  intros Hsel Hst Hstill. unfold _update_v_cruise_non_pcm.
  destruct enabled_long; [|reflexivity].
  cbn [negb]. rewrite Hsel. unfold dict_lookup. rewrite Hst.
  cbn [bind ButtonType_eqb andb]. rewrite Hstill. reflexivity.
Qed.

(** Whatever the simple policy does, it either leaves the state alone or
    ends on the clamp. *)
Lemma non_pcm_unchanged_or_clamped self CS enabled_long is_metric s :
  _update_v_cruise_non_pcm self CS enabled_long is_metric = Ok s ->
  s = self
  \/ (exists v, s = set_v_cruise_kph v self
                /\ V_CRUISE_MIN <= v /\ v <= V_CRUISE_MAX).
Proof.
  unfold _update_v_cruise_non_pcm.
  destruct (negb enabled_long); [intro H; injection H as <-; now left|].
  destruct (select_button _ _) as [| |k lp];
    try (intro H; injection H as <-; now left).
  destruct (dict_lookup (button_change_states self) k) as [st|e];
    cbn [bind]; [|discriminate].
  destruct (ButtonType_eqb k accelCruise && _);
    [intro H; injection H as <-; now left|].
  destruct (adjust_speed _ _ _ _ _ _) as [v|e]; cbn [bind]; [|discriminate].
  intro H; injection H as <-. right. eexists. split; [reflexivity|].
  apply clip_bounds. unfold V_CRUISE_MIN, V_CRUISE_MAX. lra.
Qed.

(** Without a released tracked button in this cycle's events, the loop
    falls through to the long-press scan. *)
Lemma select_button_no_release timers events :
  Forall (fun b => dict_mem timers (type b) = true -> pressed b = true)
    events ->
  select_button timers events = find_long_press timers.
Proof.
  induction 1 as [|b rest Hb _ IH]; [reflexivity|].
  cbn [select_button]. unfold dict_mem in Hb.
  destruct (dict_get timers (type b)) as [t|]; [|exact IH].
  rewrite (Hb eq_refl). exact IH.
Qed.

(** The long-press scan picks the increment button when its timer stands
    at a non-zero multiple of the threshold and the decrement timer,
    scanned first, does not. *)
Lemma find_long_press_accel td ta :
  (td = 0 \/ td mod CRUISE_LONG_PRESS <> 0)%Z ->
  (ta <> 0)%Z -> (ta mod CRUISE_LONG_PRESS = 0)%Z ->
  find_long_press [(decelCruise, td); (accelCruise, ta)]
  = Selected accelCruise true.
Proof.
  intros Hd Ha Hm. cbn [find_long_press].
  assert (E : negb (td =? 0)%Z && (td mod CRUISE_LONG_PRESS =? 0)%Z = false).
  { destruct Hd as [-> | Hd]; [reflexivity|].
    apply andb_false_iff. right. now apply Z.eqb_neq. }
  rewrite E.
  apply Z.eqb_neq in Ha. apply Z.eqb_eq in Hm. now rewrite Ha, Hm.
Qed.

(** ** C8 *)

(** C8.  In the simple policy, when the stored standstill flag of the
    increment button is set and the vehicle is at standstill, a cycle of
    [update_v_cruise] whose processed button is the increment button (a
    released edge or a long-press tick) returns with [v_cruise_kph]
    exactly as it was: no adjustment, no rounding, no clamp. *)
Theorem C8_standstill_suppression
  self CS enabled_long is_metric sm long_press :
  simple_policy_runs self CS = true ->
  dict_get (button_change_states self) accelCruise = Some true ->
  standstill (cruiseState CS) = true ->
  select_button (button_timers self) (buttonEvents CS)
  = Selected accelCruise long_press ->
  exists self',
    update_v_cruise self CS enabled_long is_metric sm = Ok self'
    /\ v_cruise_kph self' = v_cruise_kph self.
Proof.
  intros Hd Hst Hstill Hsel.
  destruct (update_v_cruise_simple_speed self CS enabled_long is_metric sm
              (start_cycle self) Hd) as [self' [Hu Hv]].
  - apply (non_pcm_standstill_ignored _ _ _ _ long_press true);
      [exact Hsel | exact Hst | reflexivity].
  - exists self'. split; [exact Hu|]. rewrite Hv. reflexivity.
Qed.

Lemma C8_standstill_suppression_witness :
  exists self',
    update_v_cruise
      (helper_at 72 [(decelCruise, 0%Z); (accelCruise, 7%Z)]
         [(decelCruise, false); (accelCruise, true)])
      (cruising [mkButtonEvent accelCruise false] true false 0)
      true true (mkSubMaster 0) = Ok self'
    /\ v_cruise_kph self' = 72.
Proof.
  apply (C8_standstill_suppression
           (helper_at 72 [(decelCruise, 0%Z); (accelCruise, 7%Z)]
              [(decelCruise, false); (accelCruise, true)])
           (cruising [mkButtonEvent accelCruise false] true false 0)
           true true (mkSubMaster 0) false); reflexivity.
Defined.

(** ** C7 *)

Lemma adjust_speed_short_accel (v : Q) :
  adjust_speed false false accelCruise v 1 10 = Ok (v + 1 * 1 * 1).
Proof. reflexivity. Qed.

(** C7, amended.  Simple policy, metric units, reverse toggle off,
    longitudinal enabled, and neither the stored standstill flag of the
    increment button nor the current standstill flag set: a cycle whose only
    button event is a release of the increment button, with a hold timer
    of at most [CRUISE_LONG_PRESS], ends with [v_cruise_kph] one kph
    higher, rounded to one decimal and clamped to
    [[V_CRUISE_MIN, V_CRUISE_MAX]]; rounding and clamping may be taken in
    either order.  The accelerator plays no part for this button. *)
Theorem C7_increment_release_adds_one self CS sm t :
  simple_policy_runs self CS = true ->
  param_s self "ReverseAccChange"%string = false ->
  standstill (cruiseState CS) = false ->
  dict_get (button_change_states self) accelCruise = Some false ->
  buttonEvents CS = [mkButtonEvent accelCruise false] ->
  dict_get (button_timers self) accelCruise = Some t ->
  (t <= CRUISE_LONG_PRESS)%Z ->
  exists self',
    update_v_cruise self CS true true sm = Ok self'
    /\ v_cruise_kph self'
       == clip (py_round1 (v_cruise_kph self + 1)) V_CRUISE_MIN V_CRUISE_MAX
    /\ v_cruise_kph self'
       == py_round1 (clip (v_cruise_kph self + 1) V_CRUISE_MIN V_CRUISE_MAX).
Proof.
  intros Hd Hrev Hstill Hst Hev Ht Hle.
  assert (Hsel : select_button (button_timers (start_cycle self))
                   (buttonEvents CS) = Selected accelCruise false).
  { rewrite Hev. cbn [select_button start_cycle button_timers
                      set_reverse_acc_change set_v_cruise_kph_last type pressed].
    rewrite Ht. cbn [negb].
    assert (E : (t >? CRUISE_LONG_PRESS)%Z = false)
      by (rewrite Z.gtb_ltb; apply Z.ltb_ge; exact Hle).
    now rewrite E. }
  destruct (update_v_cruise_simple_speed self CS true true sm
              (set_v_cruise_kph
                 (clip (py_round1 (v_cruise_kph self + 1 * 1 * 1))
                    V_CRUISE_MIN V_CRUISE_MAX) (start_cycle self)) Hd)
    as [self' [Hu Hv]].
  - rewrite (non_pcm_selected (start_cycle self) CS true accelCruise false
               false (v_cruise_kph self + 1 * 1 * 1) Hsel).
    + cbn [ButtonType_eqb orb andb]. rewrite andb_false_r. reflexivity.
    + exact Hst.
    + cbn [ButtonType_eqb orb andb]. now rewrite Hstill.
    + cbn [reverse_acc_change start_cycle set_reverse_acc_change].
      rewrite Hrev. apply adjust_speed_short_accel.
  - exists self'. split; [exact Hu|].
    rewrite Hv. cbn [v_cruise_kph set_v_cruise_kph].
    assert (E : v_cruise_kph self + 1 * 1 * 1 == v_cruise_kph self + 1) by ring.
    rewrite E. split; [reflexivity | apply clip_py_round1_commute].
Qed.

Lemma C7_increment_release_adds_one_witness :
  exists self',
    update_v_cruise
      (helper_at 72 [(decelCruise, 0%Z); (accelCruise, 7%Z)]
         [(decelCruise, false); (accelCruise, false)])
      (cruising [mkButtonEvent accelCruise false] false false 20)
      true true (mkSubMaster 0) = Ok self'
    /\ v_cruise_kph self' == clip (py_round1 (72 + 1)) V_CRUISE_MIN V_CRUISE_MAX
    /\ v_cruise_kph self' == py_round1 (clip (72 + 1) V_CRUISE_MIN V_CRUISE_MAX).
Proof.
  apply (C7_increment_release_adds_one
           (helper_at 72 [(decelCruise, 0%Z); (accelCruise, 7%Z)]
              [(decelCruise, false); (accelCruise, false)])
           (cruising [mkButtonEvent accelCruise false] false false 20)
           (mkSubMaster 0) 7%Z); try reflexivity.
  unfold CRUISE_LONG_PRESS. lia.
Defined.

(** ** C6 *)

Lemma adjust_speed_long_accel (v : Q) :
  adjust_speed false true accelCruise v 1 10 =
  Ok (if negb (Qeq_bool (py_mod v (1 * 10)) 0)
      then math_ceil (v / (1 * 10)) * (1 * 10)
      else v + 1 * 10 * 1).
Proof.
  unfold adjust_speed. cbn [andb].
  destruct (negb (Qeq_bool (py_mod v (1 * 10)) 0)); reflexivity.
Qed.

(** A multiple of ten survives the rounding to one decimal. *)
Lemma py_round1_tens (k : Z) : py_round1 (inject_Z k * 10) == inject_Z k * 10.
Proof.
  assert (E : inject_Z k * 10 == inject_Z (k * 100) / 10)
    by (rewrite inject_Z_mult; field).
  rewrite E. apply py_round1_tenths.
Qed.

Lemma aligned_is_multiple (v : Q) :
  py_mod v 10 == 0 -> v == inject_Z (Qfloor (v / 10)) * 10.
Proof. unfold py_mod. intro H. lra. Qed.

(** Off a boundary, the next boundary upward is less than one interval
    away. *)
Lemma ceil_snap_between (v : Q) :
  ~ py_mod v 10 == 0 ->
  v < math_ceil (v / 10) * 10 /\ math_ceil (v / 10) * 10 < v + 10.
Proof.
  intro Hna. unfold math_ceil.
  destruct (ceiling_sandwich (v / 10)) as [H1 H2].
  assert (Hv : v / 10 * 10 == v) by field.
  split; [|lra].
  destruct (Qlt_le_dec v (inject_Z (Qceiling (v / 10)) * 10)) as [Hlt | Hge];
    [exact Hlt|].
  exfalso. apply Hna. unfold py_mod.
  assert (E : v / 10 == inject_Z (Qceiling (v / 10))) by lra.
  rewrite (Qfloor_comp _ _ E), Qfloor_Z. lra.
Qed.

(** C6, amended.  Simple policy, metric units, reverse toggle off,
    longitudinal enabled, and neither the stored standstill flag of the
    increment button nor the current standstill flag set: in a cycle where the
    increment timer stands at a non-zero multiple of [CRUISE_LONG_PRESS]
    and this long-press tick is the button processed (no tracked button
    is released in the cycle, the decrement timer is not at a tick of its
    own), exactly one of two things happens to [v_cruise_kph] before the
    final clamp to [[V_CRUISE_MIN, V_CRUISE_MAX]]: on a multiple of 10 it
    steps by exactly 10; off a multiple of 10 it snaps to the next
    multiple of 10 upward, which is less than 10 away, and does not step
    on top. *)
Theorem C6_long_press_snap_or_step self CS sm td ta :
  simple_policy_runs self CS = true ->
  param_s self "ReverseAccChange"%string = false ->
  standstill (cruiseState CS) = false ->
  dict_get (button_change_states self) accelCruise = Some false ->
  button_timers self = [(decelCruise, td); (accelCruise, ta)] ->
  (ta <> 0)%Z -> (ta mod CRUISE_LONG_PRESS = 0)%Z ->
  (td = 0 \/ td mod CRUISE_LONG_PRESS <> 0)%Z ->
  Forall (fun b => dict_mem (button_timers self) (type b) = true
                   -> pressed b = true) (buttonEvents CS) ->
  exists self',
    update_v_cruise self CS true true sm = Ok self'
    /\ (py_mod (v_cruise_kph self) 10 == 0 ->
        v_cruise_kph self'
        == clip (v_cruise_kph self + 10) V_CRUISE_MIN V_CRUISE_MAX)
    /\ (~ py_mod (v_cruise_kph self) 10 == 0 ->
        v_cruise_kph self'
        == clip (math_ceil (v_cruise_kph self / 10) * 10)
             V_CRUISE_MIN V_CRUISE_MAX
        /\ v_cruise_kph self < math_ceil (v_cruise_kph self / 10) * 10
        /\ math_ceil (v_cruise_kph self / 10) * 10 < v_cruise_kph self + 10).
Proof.
  intros Hd Hrev Hstill Hst Htim Ha Hm Hdec Hev.
  assert (Hsel : select_button (button_timers (start_cycle self))
                   (buttonEvents CS) = Selected accelCruise true).
  { cbn [start_cycle button_timers set_reverse_acc_change
         set_v_cruise_kph_last].
    rewrite (select_button_no_release _ _ Hev), Htim.
    now apply find_long_press_accel. }
  set (v := v_cruise_kph self) in *.
  set (w := if negb (Qeq_bool (py_mod v (1 * 10)) 0)
            then math_ceil (v / (1 * 10)) * (1 * 10)
            else v + 1 * 10 * 1).
  destruct (update_v_cruise_simple_speed self CS true true sm
              (set_v_cruise_kph
                 (clip (py_round1 w) V_CRUISE_MIN V_CRUISE_MAX)
                 (start_cycle self)) Hd)
    as [self' [Hu Hv]].
  - rewrite (non_pcm_selected (start_cycle self) CS true accelCruise true
               false w Hsel).
    + cbn [ButtonType_eqb orb andb]. rewrite andb_false_r. reflexivity.
    + exact Hst.
    + cbn [ButtonType_eqb orb andb]. now rewrite Hstill.
    + cbn [reverse_acc_change start_cycle set_reverse_acc_change].
      rewrite Hrev. apply adjust_speed_long_accel.
  - exists self'. split; [exact Hu|].
    rewrite Hv. cbn [v_cruise_kph set_v_cruise_kph].
    assert (E10 : 1 * 10 == 10) by reflexivity.
    assert (Emod : py_mod v (1 * 10) == py_mod v 10)
      by (apply py_mod_Proper; [reflexivity | exact E10]).
    split.
    + intro Hal. unfold w.
      assert (Eb : Qeq_bool (py_mod v (1 * 10)) 0 = true)
        by (apply Qeq_bool_iff; rewrite Emod; exact Hal).
      rewrite Eb. cbn [negb].
      pose proof (aligned_is_multiple v Hal) as Hk.
      assert (Es : v + 1 * 10 * 1
                   == inject_Z (Qfloor (v / 10) + 1) * 10)
        by (rewrite inject_Z_plus; change (inject_Z 1) with 1; lra).
      rewrite Es, py_round1_tens, <- Es.
      apply clip_Proper; [ring | reflexivity | reflexivity].
    + intro Hna. unfold w.
      assert (Eb : Qeq_bool (py_mod v (1 * 10)) 0 = false)
        by (apply Qeq_bool_false; rewrite Emod; exact Hna).
      rewrite Eb. cbn [negb].
      split; [|now apply ceil_snap_between].
      assert (Ec : math_ceil (v / (1 * 10)) = math_ceil (v / 10))
        by reflexivity.
      rewrite Ec.
      assert (Es : math_ceil (v / 10) * (1 * 10)
                   == inject_Z (Qceiling (v / 10)) * 10)
        by (unfold math_ceil; ring).
      rewrite Es, py_round1_tens. reflexivity.
Qed.

Lemma C6_long_press_snap_or_step_witness :
  exists self',
    update_v_cruise
      (helper_at 72 [(decelCruise, 0%Z); (accelCruise, 50%Z)]
         [(decelCruise, false); (accelCruise, false)])
      (cruising [] false false 20) true true (mkSubMaster 0) = Ok self'
    /\ (py_mod 72 10 == 0 ->
        v_cruise_kph self' == clip (72 + 10) V_CRUISE_MIN V_CRUISE_MAX)
    /\ (~ py_mod 72 10 == 0 ->
        v_cruise_kph self'
        == clip (math_ceil (72 / 10) * 10) V_CRUISE_MIN V_CRUISE_MAX
        /\ 72 < math_ceil (72 / 10) * 10
        /\ math_ceil (72 / 10) * 10 < 72 + 10).
Proof.
  apply (C6_long_press_snap_or_step
           (helper_at 72 [(decelCruise, 0%Z); (accelCruise, 50%Z)]
              [(decelCruise, false); (accelCruise, false)])
           (cruising [] false false 20) (mkSubMaster 0) 0%Z 50%Z);
    try reflexivity.
  - discriminate.
  - left; reflexivity.
  - apply Forall_nil.
Defined.

(** ** Dictionary lemmas *)

Lemma ButtonType_eqb_eq (a b : ButtonType) : ButtonType_eqb a b = true <-> a = b.
Proof. destruct a, b; cbn; split; intro H; try reflexivity; discriminate. Qed.

Lemma ButtonType_eqb_refl (a : ButtonType) : ButtonType_eqb a a = true.
Proof. now apply ButtonType_eqb_eq. Qed.

Lemma dict_get_set {A : Type} (d : list (ButtonType * A)) k v k' :
  dict_get (dict_set d k v) k'
  = if ButtonType_eqb k k' then Some v else dict_get d k'.
Proof.
  induction d as [|[k0 v0] rest IH]; cbn [dict_set dict_get].
  - destruct (ButtonType_eqb k k'); reflexivity.
  - destruct (ButtonType_eqb k0 k) eqn:E0; cbn [dict_get].
    + apply ButtonType_eqb_eq in E0. subst k0.
      destruct (ButtonType_eqb k k'); reflexivity.
    + destruct (ButtonType_eqb k0 k') eqn:E1; [|exact IH].
      apply ButtonType_eqb_eq in E1. subst k0.
      destruct (ButtonType_eqb k k') eqn:E2; [|reflexivity].
      apply ButtonType_eqb_eq in E2. subst k.
      rewrite ButtonType_eqb_refl in E0. discriminate.
Qed.

(** Writing to a key that is there keeps the keys and their order. *)
Lemma dict_set_keys {A : Type} (d : list (ButtonType * A)) k v :
  dict_mem d k = true -> map fst (dict_set d k v) = map fst d.
Proof.
  unfold dict_mem. induction d as [|[k0 v0] rest IH]; cbn [dict_get dict_set].
  - discriminate.
  - destruct (ButtonType_eqb k0 k); [reflexivity|].
    intro H. cbn [map fst]. now rewrite IH.
Qed.

Lemma dict_mem_keys {A B : Type} (d : list (ButtonType * A))
  (d' : list (ButtonType * B)) k :
  map fst d = map fst d' -> dict_mem d k = dict_mem d' k.
Proof.
  unfold dict_mem. revert d'.
  induction d as [|[k0 v0] rest IH]; intros [|[k1 v1] rest'] H;
    try discriminate; [reflexivity|].
  cbn [map fst] in H. injection H as -> Hrest. cbn [dict_get].
  destruct (ButtonType_eqb k1 k); [reflexivity | now apply IH].
Qed.

Lemma tick_timers_keys timers : map fst (tick_timers timers) = map fst timers.
Proof.
  unfold tick_timers. rewrite map_map. apply map_ext.
  intros [k t]. cbn [fst snd]. destruct (t >? 0)%Z; reflexivity.
Qed.

Lemma tick_timers_get timers k :
  dict_get (tick_timers timers) k
  = option_map (fun t => if (t >? 0)%Z then (t + 1)%Z else t)
      (dict_get timers k).
Proof.
  induction timers as [|[k0 t0] rest IH]; [reflexivity|].
  cbn [tick_timers map fst snd]. fold (tick_timers rest).
  destruct (t0 >? 0)%Z eqn:E; cbn [dict_get];
    (destruct (ButtonType_eqb k0 k); [cbn [option_map]; now rewrite E | exact IH]).
Qed.

(** ** Well-formed and reachable states *)

Lemma record_events_well_formed still events self :
  well_formed self ->
  well_formed (fold_left (record_event still) events self).
Proof.
  revert self. induction events as [|b rest IH]; intros self Hwf;
    [exact Hwf|].
  cbn [fold_left]. apply IH. unfold record_event.
  destruct (dict_mem (button_timers self) (type b)) eqn:E; [|exact Hwf].
  destruct Hwf as [Ht Hs]. split;
    cbn [button_timers button_change_states set_button_timers
         set_button_change_states].
  - rewrite dict_set_keys; assumption.
  - rewrite dict_set_keys; [assumption|].
    rewrite <- E. apply dict_mem_keys. now rewrite Ht, Hs.
Qed.

Lemma update_button_timers_well_formed self CS :
  well_formed self -> well_formed (update_button_timers self CS).
Proof.
  intros [Ht Hs]. unfold update_button_timers.
  apply record_events_well_formed. split;
    cbn [button_timers button_change_states set_button_timers].
  - now rewrite tick_timers_keys.
  - exact Hs.
Qed.

(** The button the loop selects is a key of [button_timers]. *)
Lemma find_long_press_key timers k lp :
  find_long_press timers = Selected k lp -> In k (map fst timers).
Proof.
  induction timers as [|[k0 t0] rest IH]; cbn [find_long_press];
    [discriminate|].
  destruct (negb (t0 =? 0)%Z && (t0 mod CRUISE_LONG_PRESS =? 0)%Z).
  - intro H. injection H as -> _. now left.
  - intro H. right. now apply IH.
Qed.

Lemma dict_get_key {A : Type} (d : list (ButtonType * A)) k v :
  dict_get d k = Some v -> In k (map fst d).
Proof.
  induction d as [|[k0 v0] rest IH]; cbn [dict_get]; [discriminate|].
  destruct (ButtonType_eqb k0 k) eqn:E.
  - apply ButtonType_eqb_eq in E. intros _. now left.
  - intro H. right. now apply IH.
Qed.

Lemma select_button_key timers events k lp :
  select_button timers events = Selected k lp -> In k (map fst timers).
Proof.
  induction events as [|b rest IH]; cbn [select_button].
  - apply find_long_press_key.
  - destruct (dict_get timers (type b)) as [t|] eqn:E; [|exact IH].
    destruct (negb (pressed b)); [|exact IH].
    destruct (t >? CRUISE_LONG_PRESS)%Z; [discriminate|].
    intro H. injection H as <- _. now apply dict_get_key in E.
Qed.

Lemma tracked_cases k :
  In k tracked_keys -> k = decelCruise \/ k = accelCruise.
Proof. intros [<- | [<- | []]]; [now left | now right]. Qed.

Lemma dict_get_tracked {A : Type} (d : list (ButtonType * A)) k :
  map fst d = tracked_keys -> In k tracked_keys -> exists v, dict_get d k = Some v.
Proof.
  intros Hk Hin.
  destruct d as [|[k0 v0] [|[k1 v1] [|? ?]]]; try discriminate.
  cbn in Hk. injection Hk as -> ->.
  destruct (tracked_cases k Hin) as [-> | ->]; cbn; eauto.
Qed.

(** On a well-formed state no lookup of the simple policy fails. *)
Lemma non_pcm_total self CS enabled_long is_metric :
  well_formed self ->
  exists s,
    _update_v_cruise_non_pcm self CS enabled_long is_metric = Ok s
    /\ button_timers s = button_timers self
    /\ button_change_states s = button_change_states self.
Proof.
  intros [Ht Hs]. unfold _update_v_cruise_non_pcm.
  destruct (negb enabled_long); [now exists self|].
  destruct (select_button _ _) as [| |k lp] eqn:Hsel;
    try (now exists self).
  apply select_button_key in Hsel. rewrite Ht in Hsel.
  destruct (dict_get_tracked _ k Hs Hsel) as [st Hst].
  unfold dict_lookup at 1. rewrite Hst. cbn [bind].
  destruct (ButtonType_eqb k accelCruise && _); [now exists self|].
  assert (Hadj : exists v,
             adjust_speed (reverse_acc_change self) lp k (v_cruise_kph self)
               (if is_metric then 1 else 1.6) (if is_metric then 10 else 5)
             = Ok v).
  { unfold adjust_speed.
    destruct (tracked_cases k Hsel) as [-> | ->];
      destruct (reverse_acc_change self), lp; cbn [negb andb];
      try (eexists; reflexivity);
      match goal with
      | |- context [negb (Qeq_bool ?a ?b)] =>
          destruct (negb (Qeq_bool a b)); eexists; reflexivity
      end. }
  destruct Hadj as [v ->]. cbn [bind]. eexists. split; [reflexivity|].
  split; reflexivity.
Qed.

Lemma own_set_speed_split self CS :
  own_set_speed self CS = true ->
  available (cruiseState CS) = true
  /\ negb (pcmCruise (CP self)) || negb (pcmCruiseSpeed (CP self)) = true
  /\ enabled (cruiseState CS) = true.
Proof.
  unfold own_set_speed. intro H.
  apply andb_true_iff in H as [H He].
  apply andb_true_iff in H as [Ha Hp]. auto.
Qed.

Lemma update_v_cruise_honda self CS enabled_long is_metric sm :
  honda_policy_runs self CS = true ->
  update_v_cruise self CS enabled_long is_metric sm =
  Ok (honda_branch (start_cycle self) CS enabled_long is_metric
        (inject_Z (frame sm) * DT_CTRL)).
Proof.
  unfold honda_policy_runs, is_honda. intro H.
  apply andb_true_iff in H as [H Hh].
  apply own_set_speed_split in H as [Ha [Hp He]].
  unfold update_v_cruise.
  cbn [CP set_reverse_acc_change set_v_cruise_kph_last].
  rewrite Ha, Hp, He, Hh. reflexivity.
Qed.

(** The ramping branch never touches the two dicts. *)
Lemma honda_latches_dicts cur_time events self :
  button_timers (fold_left (honda_latch cur_time) events self)
  = button_timers self
  /\ button_change_states (fold_left (honda_latch cur_time) events self)
     = button_change_states self.
Proof.
  revert self. induction events as [|b rest IH]; intro self; [now split|].
  cbn [fold_left]. destruct (IH (honda_latch cur_time self b)) as [-> ->].
  unfold honda_latch.
  destruct (pressed b), (ButtonType_eqb (type b) accelCruise),
    (ButtonType_eqb (type b) decelCruise); now split.
Qed.

Lemma honda_branch_dicts self CS enabled_long is_metric cur_time :
  button_timers (honda_branch self CS enabled_long is_metric cur_time)
  = button_timers self
  /\ button_change_states
       (honda_branch self CS enabled_long is_metric cur_time)
     = button_change_states self.
Proof.
  destruct (honda_latches_dicts cur_time (buttonEvents CS) self) as [Ht Hs].
  unfold honda_branch, _update_v_cruise_non_pcm_honda.
  repeat match goal with
         | |- context [if ?c then _ else _] => destruct c
         end;
    cbn [button_timers button_change_states set_v_cruise_kph
         set_v_cruise_cluster_kph set_fastMode set_decel_pressed_last
         set_accel_pressed_last];
    now split.
Qed.

(** On a well-formed state [update_v_cruise] returns, and returns a
    well-formed state. *)
Lemma update_v_cruise_total self CS enabled_long is_metric sm :
  well_formed self ->
  exists self',
    update_v_cruise self CS enabled_long is_metric sm = Ok self'
    /\ well_formed self'.
Proof.
  intro Hwf.
  destruct (own_set_speed self CS) eqn:Hown.
  - destruct (is_honda self) eqn:Hh.
    + rewrite update_v_cruise_honda
        by (unfold honda_policy_runs; now rewrite Hown, Hh).
      eexists. split; [reflexivity|].
      destruct (honda_branch_dicts (start_cycle self) CS enabled_long
                  is_metric (inject_Z (frame sm) * DT_CTRL)) as [Ht Hs].
      unfold well_formed. rewrite Ht, Hs. exact Hwf.
    + rewrite update_v_cruise_simple
        by (unfold simple_policy_runs; now rewrite Hown, Hh).
      destruct (non_pcm_total (start_cycle self) CS enabled_long is_metric)
        as [s [Hs [Ht Hc]]]; [exact Hwf|].
      rewrite Hs. cbn [bind]. eexists. split; [reflexivity|].
      apply update_button_timers_well_formed.
      unfold well_formed.
      cbn [button_timers button_change_states set_v_cruise_cluster_kph].
      rewrite Ht, Hc. exact Hwf.
  - unfold update_v_cruise. unfold own_set_speed in Hown.
    cbn [CP set_reverse_acc_change set_v_cruise_kph_last].
    destruct (available (cruiseState CS));
      [|eexists; split; [reflexivity | exact Hwf]].
    destruct (negb (pcmCruise (CP self)) || negb (pcmCruiseSpeed (CP self)));
      [|eexists; split; [reflexivity | exact Hwf]].
    cbn [andb] in Hown. rewrite Hown.
    eexists; split; [reflexivity | exact Hwf].
Qed.

Lemma initialize_v_cruise_well_formed self CS is_metric :
  well_formed self -> well_formed (initialize_v_cruise self CS is_metric).
Proof.
  intro Hwf. unfold initialize_v_cruise.
  destruct (pcmCruise (CP self) && pcmCruiseSpeed (CP self)); [exact Hwf|].
  destruct (existsb _ _ && _); exact Hwf.
Qed.

(** Every reachable state is well-formed: the lookups of the simple
    policy cannot fail in operation. *)
Lemma reachable_well_formed cp self : reachable cp self -> well_formed self.
Proof.
  induction 1 as [ps | self CS el m sm self' _ IH Hu | self CS m _ IH
                 | self ps _ IH].
  - split; reflexivity.
  - destruct (update_v_cruise_total self CS el m sm IH) as [s [Hs Hwf]].
    rewrite Hs in Hu. injection Hu as <-. exact Hwf.
  - now apply initialize_v_cruise_well_formed.
  - exact IH.
Qed.

(** No method touches the car parameters. *)
Lemma honda_branch_CP self CS enabled_long is_metric cur_time :
  CP (honda_branch self CS enabled_long is_metric cur_time) = CP self.
Proof.
  unfold honda_branch, _update_v_cruise_non_pcm_honda.
  assert (L : forall events s,
             CP (fold_left (honda_latch cur_time) events s) = CP s).
  { induction events as [|b rest IHe]; intro s; [reflexivity|].
    cbn [fold_left]. rewrite IHe. unfold honda_latch.
    destruct (pressed b), (ButtonType_eqb (type b) accelCruise),
      (ButtonType_eqb (type b) decelCruise); reflexivity. }
  repeat match goal with
         | |- context [if ?c then _ else _] => destruct c
         end;
    cbn [CP set_v_cruise_kph set_v_cruise_cluster_kph set_fastMode
         set_decel_pressed_last set_accel_pressed_last];
    rewrite L; reflexivity.
Qed.

Lemma update_button_timers_CP self CS :
  CP (update_button_timers self CS) = CP self.
Proof.
  assert (L : forall events s,
             CP (fold_left (record_event (standstill (cruiseState CS)))
                   events s) = CP s).
  { induction events as [|b rest IHe]; intro s0; [reflexivity|].
    cbn [fold_left]. rewrite IHe. unfold record_event.
    destruct (dict_mem (button_timers s0) (type b)); reflexivity. }
  unfold update_button_timers. rewrite L. reflexivity.
Qed.

(** Outside its own set-speed logic [update_v_cruise] writes the
    sentinel, mirrors the PCM, or leaves the speed. *)
Lemma update_v_cruise_elsewhere self CS enabled_long is_metric sm :
  own_set_speed self CS = false ->
  exists self',
    update_v_cruise self CS enabled_long is_metric sm = Ok self'
    /\ CP self' = CP self
    /\ v_cruise_kph self'
       = if available (cruiseState CS) then
           if negb (pcmCruise (CP self)) || negb (pcmCruiseSpeed (CP self))
           then v_cruise_kph self
           else speed (cruiseState CS) * MS_TO_KPH
         else V_CRUISE_INITIAL.
Proof.
  intro Hown. unfold update_v_cruise. unfold own_set_speed in Hown.
  cbn [CP set_reverse_acc_change set_v_cruise_kph_last].
  destruct (available (cruiseState CS));
    [|eexists; repeat split; reflexivity].
  destruct (negb (pcmCruise (CP self)) || negb (pcmCruiseSpeed (CP self)));
    [|eexists; repeat split; reflexivity].
  cbn [andb] in Hown. rewrite Hown.
  eexists; repeat split; reflexivity.
Qed.

Lemma update_v_cruise_CP self CS enabled_long is_metric sm self' :
  update_v_cruise self CS enabled_long is_metric sm = Ok self' ->
  CP self' = CP self.
Proof.
  intro Hu. destruct (own_set_speed self CS) eqn:Hown.
  - destruct (is_honda self) eqn:Hh.
    + rewrite update_v_cruise_honda in Hu
        by (unfold honda_policy_runs; now rewrite Hown, Hh).
      injection Hu as <-. apply (honda_branch_CP (start_cycle self)).
    + rewrite update_v_cruise_simple in Hu
        by (unfold simple_policy_runs; now rewrite Hown, Hh).
      destruct (_update_v_cruise_non_pcm (start_cycle self) CS enabled_long
                  is_metric) as [s|e] eqn:Hs; cbn [bind] in Hu;
        [|discriminate].
      injection Hu as <-. rewrite update_button_timers_CP.
      destruct (non_pcm_unchanged_or_clamped _ _ _ _ _ Hs)
        as [-> | [v [-> _]]]; reflexivity.
  - destruct (update_v_cruise_elsewhere self CS enabled_long is_metric sm
                Hown) as [s [Hs [Hc _]]].
    rewrite Hs in Hu. injection Hu as <-. exact Hc.
Qed.

Lemma reachable_CP cp self : reachable cp self -> CP self = cp.
Proof.
  induction 1 as [ps | self CS el m sm self' _ IH Hu | self CS m _ IH
                 | self ps _ IH]; try assumption; try reflexivity.
  - rewrite <- IH. exact (update_v_cruise_CP _ _ _ _ _ _ Hu).
  - rewrite <- IH. unfold initialize_v_cruise.
    destruct (pcmCruise (CP self) && pcmCruiseSpeed (CP self)); [reflexivity|].
    destruct (existsb _ _ && _); reflexivity.
Qed.

(** ** C10 *)

(** C10, as stated, fails on a car whose PCM owns cruise and set speed:
    [initialize_v_cruise] returns at once there, and a fresh helper keeps
    the sentinel 255 instead of taking [v_cruise_kph_last = 0], although
    an increment event is present and [v_cruise_kph_last < 250]. *)
Lemma C10_counterexample_pcm_car :
  let self := init pcm_car no_reverse in
  let CS := cruising [mkButtonEvent accelCruise true] false false 20 in
  resume_event_present CS = true
  /\ v_cruise_kph_last self < 250
  /\ ~ v_cruise_kph (initialize_v_cruise self CS true)
       == v_cruise_kph_last self.
Proof.
  cbv zeta. split; [reflexivity|]. split; [reflexivity|].
  intro H. vm_compute in H. discriminate.
Qed.

(** C10, amended.  On a car where the PCM does not own both cruise and
    set speed, [initialize_v_cruise] with an increment or resume event
    among the events and [v_cruise_kph_last] below 250 sets
    [v_cruise_kph] (and the cluster speed) to exactly
    [v_cruise_kph_last], with no clamp: on a freshly constructed helper,
    where [v_cruise_kph_last] is 0, the target speed becomes 0, which is
    below [V_CRUISE_MIN] and is not the sentinel. *)
Theorem C10_initialize_restores_last_unclamped CS is_metric :
  resume_event_present CS = true ->
  (forall self,
      pcmCruise (CP self) && pcmCruiseSpeed (CP self) = false ->
      v_cruise_kph_last self < 250 ->
      v_cruise_kph (initialize_v_cruise self CS is_metric)
      = v_cruise_kph_last self
      /\ v_cruise_cluster_kph (initialize_v_cruise self CS is_metric)
         = v_cruise_kph_last self)
  /\ (forall cp ps,
         pcmCruise cp && pcmCruiseSpeed cp = false ->
         v_cruise_kph (initialize_v_cruise (init cp ps) CS is_metric) = 0
         /\ v_cruise_kph (initialize_v_cruise (init cp ps) CS is_metric)
            < V_CRUISE_MIN
         /\ v_cruise_initialized
              (initialize_v_cruise (init cp ps) CS is_metric) = true).
Proof.
  intro Hev.
  assert (Hgen : forall self,
             pcmCruise (CP self) && pcmCruiseSpeed (CP self) = false ->
             v_cruise_kph_last self < 250 ->
             v_cruise_kph (initialize_v_cruise self CS is_metric)
             = v_cruise_kph_last self
             /\ v_cruise_cluster_kph (initialize_v_cruise self CS is_metric)
                = v_cruise_kph_last self).
  { intros self Hpcm Hlast. unfold initialize_v_cruise.
    rewrite Hpcm. unfold resume_event_present in Hev. rewrite Hev.
    apply Qltb_true in Hlast. rewrite Hlast. cbn [andb].
    split; reflexivity. }
  split; [exact Hgen|].
  intros cp ps Hpcm.
  destruct (Hgen (init cp ps)) as [Hv _]; [exact Hpcm | reflexivity|].
  unfold v_cruise_initialized. rewrite Hv.
  split; [reflexivity|]. split; reflexivity.
Qed.

Lemma C10_initialize_restores_last_unclamped_witness :
  v_cruise_kph
    (initialize_v_cruise (init toyota no_reverse)
       (cruising [mkButtonEvent resumeCruise true] false false 20) true)
  = 0.
Proof.
  destruct (C10_initialize_restores_last_unclamped
              (cruising [mkButtonEvent resumeCruise true] false false 20)
              true eq_refl) as [_ H].
  destruct (H toyota no_reverse eq_refl) as [Hv _]. exact Hv.
Defined.

(** ** C9 *)

Lemma record_events_get still events : forall self k,
  dict_mem (button_timers self) k = true ->
  dict_get (button_timers (fold_left (record_event still) events self)) k
  = match last_event_of k events with
    | Some b => Some (if pressed b then 1%Z else 0%Z)
    | None => dict_get (button_timers self) k
    end
  /\ dict_get
       (button_change_states (fold_left (record_event still) events self)) k
     = match last_event_of k events with
       | Some _ => Some still
       | None => dict_get (button_change_states self) k
       end.
Proof.
  induction events as [|b rest IH]; intros self k Hmem; [now split|].
  cbn [fold_left last_event_of].
  assert (Hstep :
            dict_get (button_timers (record_event still self b)) k
            = (if ButtonType_eqb (type b) k
               then Some (if pressed b then 1%Z else 0%Z)
               else dict_get (button_timers self) k)
            /\ dict_get (button_change_states (record_event still self b)) k
               = (if ButtonType_eqb (type b) k then Some still
                  else dict_get (button_change_states self) k)).
  { unfold record_event.
    destruct (dict_mem (button_timers self) (type b)) eqn:Eb.
    - cbn [button_timers button_change_states set_button_timers
           set_button_change_states].
      rewrite !dict_get_set. now split.
    - destruct (ButtonType_eqb (type b) k) eqn:Ek; [|now split].
      apply ButtonType_eqb_eq in Ek. rewrite Ek in Eb. congruence. }
  destruct Hstep as [Ht Hs].
  destruct (IH (record_event still self b) k) as [IHt IHs].
  - unfold dict_mem. rewrite Ht.
    destruct (ButtonType_eqb (type b) k); [reflexivity | exact Hmem].
  - rewrite IHt, IHs.
    destruct (last_event_of k rest); [now split|].
    rewrite Ht, Hs. destruct (ButtonType_eqb (type b) k); now split.
Qed.

(** [update_button_timers] does the bookkeeping of the spec. *)
Lemma update_button_timers_bookkeeping self CS :
  bookkeeping_done self CS (update_button_timers self CS).
Proof.
  intros k t flag _ Ht Hf. unfold update_button_timers.
  destruct (record_events_get (standstill (cruiseState CS)) (buttonEvents CS)
              (set_button_timers (tick_timers (button_timers self)) self) k)
    as [Et Es].
  - unfold dict_mem. cbn [button_timers set_button_timers].
    rewrite tick_timers_get, Ht. reflexivity.
  - rewrite Et, Es. cbn [button_timers button_change_states set_button_timers].
    rewrite tick_timers_get, Ht, Hf. cbn [option_map].
    destruct (last_event_of k (buttonEvents CS)); now split.
Qed.

(** C9, as stated, fails in the ramping branch: [update_button_timers] is
    called in the other branch only.  On a fresh helper of the ramping
    brand a press of the increment button leaves its hold timer at 0,
    where the bookkeeping sets it to 1. *)
Lemma C9_counterexample_honda :
  let self := init honda no_reverse in
  let CS := cruising [mkButtonEvent accelCruise true] false false 20 in
  own_set_speed self CS = true
  /\ exists self',
       update_v_cruise self CS true true (mkSubMaster 0) = Ok self'
       /\ dict_get (button_timers self') accelCruise = Some 0%Z
       /\ ~ bookkeeping_done self CS self'.
Proof.
  cbv zeta. split; [reflexivity|].
  eexists. split; [reflexivity|]. split; [reflexivity|].
  intro H.
  destruct (H accelCruise 0%Z false) as [Ht _];
    [right; left; reflexivity | reflexivity | reflexivity|].
  vm_compute in Ht. discriminate.
Qed.

(** C9, amended.  On every cycle in which the system synthesizes its own
    set speed (cruise available, not fully PCM-owned, cruise enabled),
    from a well-formed state: when the simple policy ran, the hold-timer
    bookkeeping is performed for the two tracked button kinds (timer set
    to 1 on a press and 0 on a release, counted on while held, standstill
    flag captured on each change), whatever the policy did with the
    speed; when the ramping policy ran, both dicts are left as they
    were. *)
Theorem C9_bookkeeping_only_in_simple_policy
  self CS enabled_long is_metric sm :
  own_set_speed self CS = true ->
  well_formed self ->
  exists self',
    update_v_cruise self CS enabled_long is_metric sm = Ok self'
    /\ (is_honda self = false -> bookkeeping_done self CS self')
    /\ (is_honda self = true ->
        button_timers self' = button_timers self
        /\ button_change_states self' = button_change_states self).
Proof.
  intros Hown Hwf. destruct (is_honda self) eqn:Hh.
  - rewrite update_v_cruise_honda
      by (unfold honda_policy_runs; now rewrite Hown, Hh).
    eexists. split; [reflexivity|]. split; [discriminate|]. intros _.
    apply (honda_branch_dicts (start_cycle self)).
  - rewrite update_v_cruise_simple
      by (unfold simple_policy_runs; now rewrite Hown, Hh).
    destruct (non_pcm_total (start_cycle self) CS enabled_long is_metric)
      as [s [Hs [Ht Hc]]]; [exact Hwf|].
    rewrite Hs. cbn [bind]. eexists. split; [reflexivity|].
    split; [|discriminate]. intros _ k t flag Hk Hkt Hkf.
    apply update_button_timers_bookkeeping; [exact Hk| |];
      cbn [button_timers button_change_states set_v_cruise_cluster_kph].
    + rewrite Ht. exact Hkt.
    + rewrite Hc. exact Hkf.
Qed.

Lemma C9_bookkeeping_only_in_simple_policy_witness :
  exists self',
    update_v_cruise (init toyota no_reverse)
      (cruising [mkButtonEvent accelCruise true] true false 0)
      true true (mkSubMaster 0) = Ok self'
    /\ dict_get (button_timers self') accelCruise = Some 1%Z
    /\ dict_get (button_change_states self') accelCruise = Some true.
Proof.
  destruct (C9_bookkeeping_only_in_simple_policy
              (init toyota no_reverse)
              (cruising [mkButtonEvent accelCruise true] true false 0)
              true true (mkSubMaster 0) eq_refl (conj eq_refl eq_refl))
    as [self' [Hu [Hb _]]].
  exists self'. split; [exact Hu|].
  apply (Hb eq_refl accelCruise 0%Z false);
    [right; left; reflexivity | reflexivity | reflexivity].
Defined.

(** ** The ramping branch, step by step *)

Lemma honda_latches_speed cur_time events self :
  v_cruise_kph (fold_left (honda_latch cur_time) events self)
  = v_cruise_kph self.
Proof.
  revert self. induction events as [|b rest IH]; intro self; [reflexivity|].
  cbn [fold_left]. rewrite IH. unfold honda_latch.
  destruct (pressed b), (ButtonType_eqb (type b) accelCruise),
    (ButtonType_eqb (type b) decelCruise); reflexivity.
Qed.

(** The speed the ramping branch leaves: the result of
    [_update_v_cruise_non_pcm_honda], converted back in imperial units
    (line 97); the fast-mode bookkeeping does not touch it. *)
Lemma honda_branch_speed self CS enabled_long (is_metric : bool) cur_time :
  v_cruise_kph (honda_branch self CS enabled_long is_metric cur_time)
  = let v :=
      v_cruise_kph
        (_update_v_cruise_non_pcm_honda
           (fold_left (honda_latch cur_time) (buttonEvents CS) self)
           CS enabled_long is_metric cur_time) in
    if is_metric then v
    else inject_Z (py_round ((inject_Z (py_round v) - 0.0995) / 0.6233)).
Proof.
  unfold honda_branch. cbv zeta.
  repeat match goal with
         | |- context [if accel_pressed ?s || decel_pressed ?s then _ else _] =>
             destruct (accel_pressed s || decel_pressed s)
         | |- context [if negb (Qeq_bool ?a ?b) then _ else _] =>
             destruct (negb (Qeq_bool a b))
         end; reflexivity.
Qed.

(** ** C1 *)

(** C1, as stated, fails on two paths that are there by design.  A fresh
    helper fed a cycle with cruise available but not enabled keeps the
    sentinel 255 although cruise is available; and on a car whose PCM
    owns the set speed the reported speed is mirrored without a clamp:
    50 m/s come out as 180 kph. *)
Lemma C1_counterexample :
  (let self := init toyota no_reverse in
   let CS := mkCarState (mkCruiseState true false false 0 0) [] false 0 in
   reachable toyota self
   /\ exists self',
        update_v_cruise self CS true true (mkSubMaster 0) = Ok self'
        /\ v_cruise_kph self' == 255
        /\ ~ in_range_or_unavailable self' CS)
  /\ (let self := init pcm_car no_reverse in
      let CS := mkCarState (mkCruiseState true true false 50 50) [] false 50 in
      reachable pcm_car self
      /\ exists self',
           update_v_cruise self CS true true (mkSubMaster 0) = Ok self'
           /\ v_cruise_kph self' == 180
           /\ ~ in_range_or_unavailable self' CS).
Proof.
  split; cbv zeta; (split; [apply reach_init|]);
    (eexists; split; [reflexivity|]); (split; [reflexivity|]);
    unfold in_range_or_unavailable;
    intros [[_ H] | [H1 H2]];
    try discriminate H2; vm_compute in H; apply H; reflexivity.
Qed.

(** C1, amended.  After a call of [update_v_cruise] that returns,
    [v_cruise_kph] is: the sentinel 255 when cruise is unavailable; the
    speed the PCM reports, in kph and unclamped, when the PCM owns cruise
    and set speed; unchanged when cruise is available but not enabled; in
    the simple policy either unchanged or within
    [[V_CRUISE_MIN, V_CRUISE_MAX]]; in the ramping policy with metric
    units within [[V_CRUISE_MIN_HONDA, V_CRUISE_MAX]] when longitudinal
    control is enabled and unchanged when it is not. *)
Theorem C1_update_v_cruise_speed_by_path
  self CS enabled_long is_metric sm self' :
  update_v_cruise self CS enabled_long is_metric sm = Ok self' ->
  (available (cruiseState CS) = false ->
   v_cruise_kph self' = V_CRUISE_INITIAL)
  /\ (available (cruiseState CS) = true ->
      pcmCruise (CP self) && pcmCruiseSpeed (CP self) = true ->
      v_cruise_kph self' = speed (cruiseState CS) * MS_TO_KPH)
  /\ (available (cruiseState CS) = true ->
      pcmCruise (CP self) && pcmCruiseSpeed (CP self) = false ->
      enabled (cruiseState CS) = false ->
      v_cruise_kph self' = v_cruise_kph self)
  /\ (simple_policy_runs self CS = true ->
      v_cruise_kph self' = v_cruise_kph self
      \/ (V_CRUISE_MIN <= v_cruise_kph self'
          /\ v_cruise_kph self' <= V_CRUISE_MAX))
  /\ (honda_policy_runs self CS = true -> is_metric = true ->
      (enabled_long = true ->
       V_CRUISE_MIN_HONDA <= v_cruise_kph self'
       /\ v_cruise_kph self' <= V_CRUISE_MAX)
      /\ (enabled_long = false ->
          v_cruise_kph self' = v_cruise_kph self)).
Proof.
  intro Hu. repeat split.
  - intro Ha. unfold update_v_cruise in Hu. rewrite Ha in Hu.
    injection Hu as <-. reflexivity.
  - intros Ha Hp. unfold update_v_cruise in Hu.
    cbn [CP set_reverse_acc_change set_v_cruise_kph_last] in Hu.
    apply andb_true_iff in Hp as [Hp1 Hp2].
    rewrite Ha, Hp1, Hp2 in Hu. cbn [negb orb] in Hu.
    injection Hu as <-. reflexivity.
  - intros Ha Hp He. unfold update_v_cruise in Hu.
    cbn [CP set_reverse_acc_change set_v_cruise_kph_last] in Hu.
    assert (Hp' : negb (pcmCruise (CP self))
                  || negb (pcmCruiseSpeed (CP self)) = true)
      by (rewrite <- negb_andb, Hp; reflexivity).
    rewrite Ha, Hp', He in Hu. injection Hu as <-. reflexivity.
  - intro Hd. rewrite (update_v_cruise_simple _ _ _ _ _ Hd) in Hu.
    destruct (_update_v_cruise_non_pcm (start_cycle self) CS enabled_long
                is_metric) as [s|e] eqn:Hs; cbn [bind] in Hu;
      [|discriminate].
    injection Hu as <-. rewrite update_button_timers_v_cruise_kph.
    cbn [v_cruise_kph set_v_cruise_cluster_kph].
    destruct (non_pcm_unchanged_or_clamped _ _ _ _ _ Hs)
      as [-> | [v [-> Hb]]]; [left; reflexivity | right; exact Hb].
  - rewrite (update_v_cruise_honda _ _ _ _ _ H) in Hu.
    injection Hu as <-. subst. rewrite honda_branch_speed. cbv zeta.
    unfold _update_v_cruise_non_pcm_honda.
    cbn [v_cruise_kph set_v_cruise_kph].
    apply clip_bounds. unfold V_CRUISE_MIN_HONDA, V_CRUISE_MAX. lra.
  - rewrite (update_v_cruise_honda _ _ _ _ _ H) in Hu.
    injection Hu as <-. subst. rewrite honda_branch_speed. cbv zeta.
    unfold _update_v_cruise_non_pcm_honda.
    cbn [v_cruise_kph set_v_cruise_kph].
    apply clip_bounds. unfold V_CRUISE_MIN_HONDA, V_CRUISE_MAX. lra.
  - intro Hel. rewrite (update_v_cruise_honda _ _ _ _ _ H) in Hu.
    injection Hu as <-. subst. rewrite honda_branch_speed. cbv zeta.
    unfold _update_v_cruise_non_pcm_honda.
    cbn [v_cruise_kph set_v_cruise_kph].
    now rewrite honda_latches_speed.
Qed.

Lemma C1_update_v_cruise_speed_by_path_witness :
  exists self',
    update_v_cruise
      (helper_at 144.5 [(decelCruise, 0%Z); (accelCruise, 7%Z)]
         [(decelCruise, false); (accelCruise, false)])
      (cruising [mkButtonEvent accelCruise false] false false 20)
      true true (mkSubMaster 0) = Ok self'
    /\ (v_cruise_kph self' = 144.5
        \/ (V_CRUISE_MIN <= v_cruise_kph self'
            /\ v_cruise_kph self' <= V_CRUISE_MAX)).
Proof.
  eexists. split; [reflexivity|].
  apply (C1_update_v_cruise_speed_by_path
           (helper_at 144.5 [(decelCruise, 0%Z); (accelCruise, 7%Z)]
              [(decelCruise, false); (accelCruise, false)])
           (cruising [mkButtonEvent accelCruise false] false false 20)
           true true (mkSubMaster 0) _ eq_refl); reflexivity.
Defined.

(** ** Interpolation *)

Lemma list_at_In xs i y : list_at xs i = Ok y -> In y xs.
Proof.
  unfold list_at. destruct (nth_error xs i) eqn:E; [|discriminate].
  intro H. injection H as <-. exact (nth_error_In _ _ E).
Qed.

Lemma list_at_lt xs i :
  (i < List.length xs)%nat -> exists y, list_at xs i = Ok y.
Proof.
  intro H. unfold list_at.
  destruct (nth_error xs i) eqn:E; [eauto|].
  apply nth_error_None in E. lia.
Qed.

Lemma last_In (l : list Q) (d : Q) : l <> [] -> In (last l d) l.
Proof.
  induction l as [|a l' IH]; intro Hne; [contradiction|].
  destruct l' as [|b l'']; [now left|].
  right. apply IH. discriminate.
Qed.

Lemma list_last_In xs y : list_last xs = Ok y -> In y xs.
Proof.
  destruct xs as [|x rest]; cbn [list_last]; [discriminate|].
  intro H. injection H as <-.
  destruct rest as [|x' rest']; [now left|].
  right. apply last_In. discriminate.
Qed.

Lemma interp_hi_le xv xp : (interp_hi xv xp <= List.length xp)%nat.
Proof.
  induction xp as [|x rest IH]; cbn [interp_hi List.length]; [lia|].
  destruct (Qltb x xv); lia.
Qed.

(** The grid point below the index the loop stops at lies under [xv]. *)
Lemma interp_hi_below xv xp low :
  interp_hi xv xp = S low ->
  exists a, list_at xp low = Ok a /\ a < xv.
Proof.
  revert low. induction xp as [|x rest IH]; intro low; cbn [interp_hi];
    [discriminate|].
  destruct (Qltb_cases x xv) as [[-> Hx] | [-> Hx]]; [|discriminate].
  intro H. injection H as H.
  destruct low as [|low'].
  - exists x. split; [reflexivity | exact Hx].
  - destruct (IH low' H) as [a [Ha Hlt]]. exists a. split; [exact Ha | exact Hlt].
Qed.

(** The grid point the loop stops at, if there is one, does not. *)
Lemma interp_hi_at xv xp :
  (interp_hi xv xp < List.length xp)%nat ->
  exists b, list_at xp (interp_hi xv xp) = Ok b /\ xv <= b.
Proof.
  induction xp as [|x rest IH]; cbn [interp_hi List.length]; [lia|].
  destruct (Qltb_cases x xv) as [[-> Hx] | [-> Hx]]; intro H.
  - destruct IH as [b [Hb Hle]]; [lia|].
    exists b. split; [exact Hb | exact Hle].
  - exists x. split; [reflexivity | exact Hx].
Qed.

(** On a non-empty grid with at least as many samples as grid points,
    [interp] returns; on samples that are all zero it returns zero. *)
Lemma interp_ok xv xp fp :
  xp <> [] -> (List.length xp <= List.length fp)%nat ->
  exists q, interp xv xp fp = Ok q
            /\ (Forall (fun y => y == 0) fp -> q == 0).
Proof.
  intros Hne Hlen. unfold interp.
  assert (Hpos : (0 < List.length xp)%nat)
    by (destruct xp; [contradiction | cbn; lia]).
  pose proof (interp_hi_le xv xp) as Hhi.
  destruct (interp_hi xv xp) as [|low] eqn:Ehi.
  - assert (E : (0 =? List.length xp)%nat = false)
      by (apply Nat.eqb_neq; lia).
    rewrite E.
    destruct (list_at_lt fp 0) as [y Hy]; [lia|].
    exists y. split; [exact Hy|]. intro Hz.
    rewrite Forall_forall in Hz. apply Hz. exact (list_at_In _ _ _ Hy).
  - destruct (interp_hi_below xv xp low Ehi) as [a [Ha Hlt]].
    rewrite Ha. cbn [bind].
    destruct (Nat.eqb_spec (S low) (List.length xp)) as [Eq | Neq].
    + apply Qltb_true in Hlt. rewrite Hlt.
      destruct fp as [|y0 rest]; [cbn in Hlen; lia|].
      eexists. split; [reflexivity|]. intro Hz.
      rewrite Forall_forall in Hz. apply Hz.
      apply list_last_In. reflexivity.
    + destruct (interp_hi_at xv xp) as [b [Hb Hle]]; [lia|].
      rewrite Ehi in Hb.
      destruct (list_at_lt fp (S low)) as [fh Hfh]; [lia|].
      destruct (list_at_lt fp low) as [fl Hfl]; [lia|].
      rewrite Hfh, Hfl, Hb. cbn [bind].
      unfold py_div.
      assert (Ez : Qeq_bool (b - a) 0 = false)
        by (apply Qeq_bool_false; lra).
      rewrite Ez. cbn [bind]. eexists. split; [reflexivity|].
      intro Hz. rewrite Forall_forall in Hz.
      pose proof (Hz _ (list_at_In _ _ _ Hfh)) as Zh.
      pose proof (Hz _ (list_at_In _ _ _ Hfl)) as Zl.
      cbv beta in Zh, Zl. rewrite Zh, Zl.
      unfold Qdiv. ring.
Qed.

(** ** The lag compensator *)

Lemma floored_speed_pos (v_ego : Q) : 1 <= py_max MIN_SPEED v_ego.
Proof.
  pose proof (py_max_ge_l MIN_SPEED v_ego) as H.
  unfold MIN_SPEED in *. lra.
Qed.

Lemma max_rate_defined (v_ego : Q) :
  py_div MAX_LATERAL_JERK (py_max MIN_SPEED v_ego ^ 2)
  = Ok (MAX_LATERAL_JERK / py_max MIN_SPEED v_ego ^ 2)
  /\ 0 <= MAX_LATERAL_JERK / py_max MIN_SPEED v_ego ^ 2.
Proof.
  pose proof (floored_speed_pos v_ego) as Hv.
  set (w := py_max MIN_SPEED v_ego) in *.
  assert (Hsq : 0 < w ^ 2).
  { change (w ^ 2) with (w * w). apply Qmult_lt_0_compat; lra. }
  split.
  - unfold py_div.
    assert (E : Qeq_bool (w ^ 2) 0 = false) by (apply Qeq_bool_false; lra).
    now rewrite E.
  - apply Qle_shift_div_l; [exact Hsq|]. unfold MAX_LATERAL_JERK. lra.
Qed.

Lemma delayed_speed_nonzero (CP : CarParams) (v_ego : Q) :
  0 <= steerActuatorDelay CP ->
  Qeq_bool (py_max MIN_SPEED v_ego * (steerActuatorDelay CP + 0.2)) 0 = false.
Proof.
  intro Hd. apply Qeq_bool_false.
  pose proof (floored_speed_pos v_ego) as Hv.
  assert (H : 0 < py_max MIN_SPEED v_ego * (steerActuatorDelay CP + 0.2))
    by (apply Qmult_lt_0_compat; lra).
  lra.
Qed.

Lemma zero_trajectory_zero : Forall (fun y => y == 0) zero_trajectory.
Proof. unfold zero_trajectory. apply Forall_forall. intros y Hy.
  apply repeat_spec in Hy. subst y. reflexivity.
Qed.

Lemma grid_prefix_ok (T_IDXS psis : list Q) :
  T_IDXS <> [] -> List.length psis = CONTROL_N ->
  firstn CONTROL_N T_IDXS <> []
  /\ (List.length (firstn CONTROL_N T_IDXS) <= List.length psis)%nat.
Proof.
  intros Hne Hlen. split.
  - destruct T_IDXS; [contradiction | discriminate].
  - rewrite Hlen. apply firstn_le_length.
Qed.

(** The trajectories the body works on, after the guard of lines
    250-253. *)
Lemma guard_outcome (T_IDXS : list Q) CP v_ego psis curvatures curvature_rates :
  List.length psis <> CONTROL_N ->
  get_lag_adjusted_curvature T_IDXS CP v_ego psis curvatures curvature_rates
  = get_lag_adjusted_curvature T_IDXS CP v_ego
      zero_trajectory zero_trajectory zero_trajectory.
Proof.
  intro Hlen. unfold get_lag_adjusted_curvature.
  apply Nat.eqb_neq in Hlen. rewrite Hlen. reflexivity.
Qed.

(** On three zero trajectories the compensator commands zero. *)
Lemma zero_trajectories_zero_command (T_IDXS : list Q) CP v_ego :
  T_IDXS <> [] -> 0 <= steerActuatorDelay CP ->
  exists c r,
    get_lag_adjusted_curvature T_IDXS CP v_ego
      zero_trajectory zero_trajectory zero_trajectory = Ok (c, r)
    /\ c == 0 /\ r == 0.
Proof.
  intros Hne Hd. unfold get_lag_adjusted_curvature.
  change (negb (List.length zero_trajectory =? CONTROL_N)%nat) with false.
  cbv iota. change (list_at zero_trajectory 0) with (Ok 0.0). cbn [bind].
  destruct (grid_prefix_ok T_IDXS zero_trajectory Hne eq_refl) as [Hg Hl].
  destruct (interp_ok (steerActuatorDelay CP + 0.2)
              (firstn CONTROL_N T_IDXS) zero_trajectory Hg Hl)
    as [psi [-> Hpsi]].
  specialize (Hpsi zero_trajectory_zero). cbn [bind].
  unfold py_div at 1. rewrite (delayed_speed_nonzero CP v_ego Hd).
  cbn [bind].
  destruct (max_rate_defined v_ego) as [-> Hm]. cbn [bind].
  set (m := MAX_LATERAL_JERK / py_max MIN_SPEED v_ego ^ 2) in *.
  do 2 eexists. split; [reflexivity|]. split.
  - assert (E : 2 * (psi / (py_max MIN_SPEED v_ego
                             * (steerActuatorDelay CP + 0.2))) - 0.0 == 0)
      by (rewrite Hpsi; unfold Qdiv; ring).
    rewrite E. apply clip_inside; unfold DT_MDL; lra.
  - rewrite clip_inside by lra. reflexivity.
Qed.

(** ** C2 *)

(** C2, as stated, fails: the guard looks at the heading trajectory
    only.  With 17 headings, one curvature and one curvature rate the
    other two lengths differ from [CONTROL_N], nothing is replaced, and
    the call returns the clamped data, not (0, 0). *)
Lemma C2_counterexample_short_curvatures :
  let psis := repeat 0 17 in
  let curvatures := [1] in
  let curvature_rates := [1] in
  List.length curvatures <> CONTROL_N
  /\ List.length curvature_rates <> CONTROL_N
  /\ exists c r,
       get_lag_adjusted_curvature T_IDXS_model toyota 20
         psis curvatures curvature_rates = Ok (c, r)
       /\ c == 0.999375 /\ r == 0.0125
       /\ ~ (c == 0 /\ r == 0).
Proof.
  cbv zeta. split; [discriminate|]. split; [discriminate|].
  do 2 eexists. split; [vm_compute; reflexivity|].
  split; [reflexivity|]. split; [reflexivity|].
  intros [H _]. vm_compute in H. discriminate.
Qed.

(** C2, amended.  For every call of [get_lag_adjusted_curvature] in
    which the heading trajectory [psis] has a length different from
    [CONTROL_N] (on a non-empty time grid, with a non-negative actuator
    delay), all three trajectories are replaced by zero-filled ones of
    length [CONTROL_N] - the call is the call on three zero trajectories
    - and the function returns the pair (0, 0). *)
Theorem C2_heading_length_mismatch_returns_zero
  (T_IDXS : list Q) CP v_ego psis curvatures curvature_rates :
  T_IDXS <> [] ->
  0 <= steerActuatorDelay CP ->
  List.length psis <> CONTROL_N ->
  get_lag_adjusted_curvature T_IDXS CP v_ego psis curvatures curvature_rates
  = get_lag_adjusted_curvature T_IDXS CP v_ego
      zero_trajectory zero_trajectory zero_trajectory
  /\ List.length zero_trajectory = CONTROL_N
  /\ exists c r,
       get_lag_adjusted_curvature T_IDXS CP v_ego
         psis curvatures curvature_rates = Ok (c, r)
       /\ c == 0 /\ r == 0.
Proof.
  intros Hne Hd Hlen.
  pose proof (guard_outcome T_IDXS CP v_ego psis curvatures curvature_rates
                Hlen) as Hg.
  split; [exact Hg|]. split; [reflexivity|].
  rewrite Hg. now apply zero_trajectories_zero_command.
Qed.

Lemma C2_heading_length_mismatch_returns_zero_witness :
  exists c r,
    get_lag_adjusted_curvature T_IDXS_model toyota 20 [1; 2; 3] [1] [] = Ok (c, r)
    /\ c == 0 /\ r == 0.
Proof.
  apply (C2_heading_length_mismatch_returns_zero
           T_IDXS_model toyota 20 [1; 2; 3] [1] []).
  - discriminate.
  - vm_compute. discriminate.
  - discriminate.
Defined.

(** ** C3 *)

(** C3.  The guard of [get_lag_adjusted_curvature] inspects the length of
    [psis] only: with [psis] of length [CONTROL_N] nothing is replaced,
    and an empty curvature trajectory makes [curvatures[0]] raise
    [IndexError]; an empty curvature-rate trajectory makes the call fail
    as well, with [IndexError] at [curvature_rates[0]] whenever the
    statements before it pass (non-empty time grid, non-negative delay,
    a curvature sample present).  No fail-soft value is returned. *)
Theorem C3_guard_checks_headings_only
  (T_IDXS : list Q) CP v_ego psis curvatures curvature_rates :
  List.length psis = CONTROL_N ->
  (curvatures = [] ->
   get_lag_adjusted_curvature T_IDXS CP v_ego psis curvatures curvature_rates
   = Raise IndexError)
  /\ (curvature_rates = [] ->
      exists e,
        get_lag_adjusted_curvature T_IDXS CP v_ego
          psis curvatures curvature_rates = Raise e)
  /\ (curvature_rates = [] -> T_IDXS <> [] -> 0 <= steerActuatorDelay CP ->
      get_lag_adjusted_curvature T_IDXS CP v_ego psis curvatures curvature_rates
      = Raise IndexError).
Proof.
  intro Hlen. unfold get_lag_adjusted_curvature.
  assert (E : negb (List.length psis =? CONTROL_N)%nat = false)
    by (rewrite Hlen; reflexivity).
  rewrite E. cbv iota. split; [|split].
  - intros ->. reflexivity.
  - intros ->.
    destruct (list_at curvatures 0) as [c0|e]; cbn [bind]; [|eauto].
    destruct (interp _ _ _) as [psi|e]; cbn [bind]; [|eauto].
    destruct (py_div psi _) as [a|e]; cbn [bind]; [|eauto].
    eexists. reflexivity.
  - intros -> Hne Hd.
    destruct (list_at curvatures 0) as [c0|e] eqn:Ec; cbn [bind].
    + destruct (grid_prefix_ok T_IDXS psis Hne Hlen) as [Hg Hl].
      destruct (interp_ok (steerActuatorDelay CP + 0.2)
                  (firstn CONTROL_N T_IDXS) psis Hg Hl) as [psi [-> _]].
      cbn [bind]. unfold py_div at 1.
      rewrite (delayed_speed_nonzero CP v_ego Hd). reflexivity.
    + unfold list_at in Ec. destruct (nth_error curvatures 0);
        [discriminate | injection Ec as <-; reflexivity].
Qed.

Lemma C3_guard_checks_headings_only_witness :
  get_lag_adjusted_curvature T_IDXS_model toyota 20 (repeat 0 17) [] [1]
  = Raise IndexError
  /\ get_lag_adjusted_curvature T_IDXS_model toyota 20 (repeat 0 17) [1] []
     = Raise IndexError.
Proof.
  split.
  - destruct (C3_guard_checks_headings_only
                T_IDXS_model toyota 20 (repeat 0 17) [] [1] eq_refl)
      as [H _].
    exact (H eq_refl).
  - destruct (C3_guard_checks_headings_only
                T_IDXS_model toyota 20 (repeat 0 17) [1] [] eq_refl)
      as [_ [_ H]].
    apply (H eq_refl).
    + discriminate.
    + vm_compute. discriminate.
Defined.

(** ** C4 *)

(** C4.  Whatever the inputs of [get_lag_adjusted_curvature] - any speed,
    below 1.0 as well, any delay - the curvature-rate component of a
    returned pair is at most [MAX_LATERAL_JERK] over the square of the
    speed used, in magnitude, the speed used being the input floored at
    [MIN_SPEED]; and a pair is returned whenever the time grid is not
    empty, the actuator delay is non-negative and the trajectories read
    have a first sample. *)
Theorem C4_curvature_rate_bounded
  (T_IDXS : list Q) CP v_ego psis curvatures curvature_rates :
  (forall c r,
      get_lag_adjusted_curvature T_IDXS CP v_ego
        psis curvatures curvature_rates = Ok (c, r) ->
      Qabs r <= MAX_LATERAL_JERK / py_max MIN_SPEED v_ego ^ 2)
  /\ (T_IDXS <> [] -> 0 <= steerActuatorDelay CP ->
      List.length psis <> CONTROL_N
      \/ (curvatures <> [] /\ curvature_rates <> []) ->
      exists c r,
        get_lag_adjusted_curvature T_IDXS CP v_ego
          psis curvatures curvature_rates = Ok (c, r)).
Proof.
  split.
  - intros c r. unfold get_lag_adjusted_curvature.
    destruct (list_at _ 0) as [c0|e]; cbn [bind]; [|discriminate].
    destruct (interp _ _ _) as [psi|e]; cbn [bind]; [|discriminate].
    destruct (py_div psi _) as [a|e]; cbn [bind]; [|discriminate].
    destruct (list_at _ 0) as [r0|e]; cbn [bind]; [|discriminate].
    destruct (max_rate_defined v_ego) as [-> Hm]. cbn [bind].
    set (m := MAX_LATERAL_JERK / py_max MIN_SPEED v_ego ^ 2) in *.
    intro H. injection H as _ <-.
    apply Qabs_Qle_condition. apply clip_bounds. lra.
  - intros Hne Hd [Hlen | [Hc Hr]].
    + rewrite (guard_outcome _ _ _ _ _ _ Hlen).
      destruct (zero_trajectories_zero_command T_IDXS CP v_ego Hne Hd)
        as [c [r [H _]]]. eauto.
    + destruct (Nat.eq_dec (List.length psis) CONTROL_N) as [Hlen | Hlen].
      * unfold get_lag_adjusted_curvature.
        assert (E : negb (List.length psis =? CONTROL_N)%nat = false)
          by (rewrite Hlen; reflexivity).
        rewrite E. cbv iota.
        destruct curvatures as [|c0 ?]; [contradiction|].
        destruct curvature_rates as [|r0 ?]; [contradiction|].
        cbn [list_at nth_error bind].
        destruct (grid_prefix_ok T_IDXS psis Hne Hlen) as [Hg Hl].
        destruct (interp_ok (steerActuatorDelay CP + 0.2)
                    (firstn CONTROL_N T_IDXS) psis Hg Hl) as [psi [-> _]].
        cbn [bind]. unfold py_div at 1.
        rewrite (delayed_speed_nonzero CP v_ego Hd). cbn [bind].
        destruct (max_rate_defined v_ego) as [-> _]. cbn [bind].
        eauto.
      * rewrite (guard_outcome _ _ _ _ _ _ Hlen).
        destruct (zero_trajectories_zero_command T_IDXS CP v_ego Hne Hd)
          as [c [r [H _]]]. eauto.
Qed.

Lemma C4_curvature_rate_bounded_witness :
  exists c r,
    get_lag_adjusted_curvature T_IDXS_model toyota (1 # 2)
      (repeat 0.01 17) [0.008] [9] = Ok (c, r)
    /\ Qabs r <= MAX_LATERAL_JERK / py_max MIN_SPEED (1 # 2) ^ 2.
Proof.
  destruct (C4_curvature_rate_bounded T_IDXS_model toyota (1 # 2)
              (repeat 0.01 17) [0.008] [9]) as [Hb Ht].
  destruct Ht as [c [r H]].
  - discriminate.
  - vm_compute. discriminate.
  - right. split; discriminate.
  - exists c, r. split; [exact H | exact (Hb c r H)].
Defined.

(** ** The ramping policy on a cycle without button events *)

Lemma honda_branch_idle_speed self CS enabled_long is_metric cur_time :
  buttonEvents CS = [] ->
  v_cruise_kph (honda_branch self CS enabled_long is_metric cur_time)
  = honda_idle_speed (accel_pressed self) (decel_pressed self)
      (accel_pressed_last self) (decel_pressed_last self)
      (fastMode self) (reverse_acc_change self) enabled_long is_metric
      cur_time (v_cruise_kph self).
Proof.
  intro Hev. rewrite honda_branch_speed. cbv zeta. rewrite Hev.
  cbn [fold_left]. unfold _update_v_cruise_non_pcm_honda.
  rewrite Hev. cbn [fold_left].
  unfold honda_idle_speed, honda_from_display, honda_to_display, honda_ramp,
    honda_hold_due.
  destruct enabled_long; reflexivity.
Qed.

(** What the latches and the fast-mode bookkeeping look like after such a
    cycle. *)
Lemma honda_branch_idle_fields self CS enabled_long is_metric cur_time :
  buttonEvents CS = [] ->
  let self' := honda_branch self CS enabled_long is_metric cur_time in
  accel_pressed self' = accel_pressed self
  /\ decel_pressed self' = decel_pressed self
  /\ param_s self' = param_s self
  /\ CP self' = CP self
  /\ ((accel_pressed self || decel_pressed self = true
       /\ ~ v_cruise_kph_last self == v_cruise_kph self'
       /\ accel_pressed_last self' = cur_time
       /\ decel_pressed_last self' = cur_time)
      \/ (accel_pressed self || decel_pressed self = true
          /\ v_cruise_kph_last self == v_cruise_kph self'
          /\ accel_pressed_last self' = accel_pressed_last self
          /\ decel_pressed_last self' = decel_pressed_last self
          /\ fastMode self' = fastMode self)
      \/ accel_pressed self || decel_pressed self = false).
Proof.
  intro Hev. cbv zeta. unfold honda_branch. rewrite Hev. cbn [fold_left].
  set (s1 := _update_v_cruise_non_pcm_honda self CS enabled_long is_metric
               cur_time).
  assert (F : accel_pressed s1 = accel_pressed self
              /\ decel_pressed s1 = decel_pressed self
              /\ param_s s1 = param_s self /\ CP s1 = CP self
              /\ v_cruise_kph_last s1 = v_cruise_kph_last self
              /\ accel_pressed_last s1 = accel_pressed_last self
              /\ decel_pressed_last s1 = decel_pressed_last self
              /\ fastMode s1 = fastMode self).
  { unfold s1, _update_v_cruise_non_pcm_honda.
    destruct enabled_long; cbn; repeat split; reflexivity. }
  destruct F as [Fa [Fd [Fp [Fc [Fl [Fal [Fdl Ff]]]]]]].
  cbn [accel_pressed decel_pressed v_cruise_kph_last v_cruise_kph
       set_v_cruise_cluster_kph set_v_cruise_kph].
  rewrite Fa, Fd, Fl.
  destruct (accel_pressed self || decel_pressed self) eqn:Ep.
  - match goal with
    | |- context [negb (Qeq_bool ?a ?b)] => destruct (Qeq_bool a b) eqn:Eq
    end; cbn [negb].
    + apply Qeq_bool_eq in Eq.
      cbn [accel_pressed decel_pressed param_s CP v_cruise_kph
           accel_pressed_last decel_pressed_last fastMode
           set_v_cruise_cluster_kph set_v_cruise_kph].
      repeat (split; [assumption|]). right. left.
      repeat (split; [first [assumption | reflexivity]|]). assumption.
    + apply Qeq_bool_neq in Eq.
      cbn [accel_pressed decel_pressed param_s CP v_cruise_kph
           accel_pressed_last decel_pressed_last fastMode
           set_v_cruise_cluster_kph set_v_cruise_kph set_fastMode
           set_decel_pressed_last set_accel_pressed_last].
      repeat (split; [assumption|]). left.
      repeat (split; [first [assumption | reflexivity]|]). reflexivity.
  - cbn [accel_pressed decel_pressed param_s CP set_fastMode
         set_v_cruise_cluster_kph set_v_cruise_kph].
    repeat (split; [assumption|]). right. right. reflexivity.
Qed.

(** A whole number of display units survives the trip to kph and back. *)
Lemma honda_display_roundtrip (n : Z) :
  py_round
    (inject_Z (py_round ((inject_Z n - 0.0995) / 0.6233)) * 0.6233 + 0.0995)
  = n.
Proof.
  set (x := (inject_Z n - 0.0995) / 0.6233).
  assert (Hx : x * 0.6233 == inject_Z n - 0.0995) by (unfold x; field).
  destruct (py_round_near x) as [H1 H2].
  apply py_round_unique; lra.
Qed.

#[global] Instance honda_to_display_Proper (is_metric : bool) :
  Proper (Qeq ==> Qeq) (honda_to_display is_metric).
Proof.
  intros v v' Hv. unfold honda_to_display.
  destruct is_metric; [exact Hv|].
  assert (E : py_round (v * 0.6233 + 0.0995) = py_round (v' * 0.6233 + 0.0995))
    by (apply py_round_Proper; now rewrite Hv).
  now rewrite E.
Qed.

#[global] Instance honda_from_display_Proper (is_metric : bool) :
  Proper (Qeq ==> Qeq) (honda_from_display is_metric).
Proof.
  intros v v' Hv. unfold honda_from_display.
  destruct is_metric; [exact Hv|].
  now rewrite (py_round_Proper _ _ Hv).
Qed.

#[global] Instance honda_ramp_Proper accel decel accel_last decel_last
  fast reverse cur_time :
  Proper (Qeq ==> Qeq)
    (honda_ramp accel decel accel_last decel_last fast reverse cur_time).
Proof.
  intros v v' Hv. unfold honda_ramp.
  destruct accel;
    [destruct (honda_hold_due accel_last cur_time fast);
       [destruct reverse|]
    |destruct decel;
       [destruct (honda_hold_due decel_last cur_time fast);
          [destruct reverse|]|]];
    now rewrite Hv.
Qed.

#[global] Instance honda_idle_speed_Proper accel decel accel_last decel_last
  fast reverse enabled_long is_metric cur_time :
  Proper (Qeq ==> Qeq)
    (honda_idle_speed accel decel accel_last decel_last fast reverse
       enabled_long is_metric cur_time).
Proof.
  intros v v' Hv. unfold honda_idle_speed. cbv zeta.
  apply honda_from_display_Proper.
  pose proof (honda_to_display_Proper is_metric v v' Hv) as H0.
  destruct enabled_long; [|exact H0].
  apply clip_Proper; [|reflexivity|reflexivity].
  now apply honda_ramp_Proper.
Qed.

(** No hold fires in the cycle in which the latch time was just set. *)
Lemma honda_hold_not_due_now (cur_time : Q) (fast : bool) :
  honda_hold_due cur_time cur_time fast = false.
Proof.
  unfold honda_hold_due.
  assert (E1 : Qle_bool 1 (cur_time - cur_time) = false).
  { destruct (Qle_bool 1 (cur_time - cur_time)) eqn:E; [|reflexivity].
    apply Qle_bool_iff in E. lra. }
  assert (E2 : Qle_bool 0.5 (cur_time - cur_time) = false).
  { destruct (Qle_bool 0.5 (cur_time - cur_time)) eqn:E; [|reflexivity].
    apply Qle_bool_iff in E. lra. }
  rewrite E1, E2. now destruct fast.
Qed.

Lemma honda_ramp_rest accel decel fast reverse cur_time v :
  honda_ramp accel decel cur_time cur_time fast reverse cur_time v = v.
Proof.
  unfold honda_ramp. rewrite honda_hold_not_due_now.
  now destruct accel, decel.
Qed.

Lemma honda_ramp_released accel_last decel_last fast reverse cur_time v :
  honda_ramp false false accel_last decel_last fast reverse cur_time v = v.
Proof. reflexivity. Qed.

(** Once clamped and converted, a speed on which no hold fires is a
    fixed point of the cycle. *)
Lemma honda_settled (enabled_long is_metric : bool) (y : Q) :
  let z :=
    honda_from_display is_metric
      (if enabled_long then clip y V_CRUISE_MIN_HONDA V_CRUISE_MAX else y) in
  honda_from_display is_metric
    (if enabled_long
     then clip (honda_to_display is_metric z) V_CRUISE_MIN_HONDA V_CRUISE_MAX
     else honda_to_display is_metric z)
  == z.
Proof.
  cbv zeta. unfold honda_from_display, honda_to_display.
  destruct is_metric.
  - destruct enabled_long; [|reflexivity].
    apply clip_inside;
      apply (clip_bounds y V_CRUISE_MIN_HONDA V_CRUISE_MAX);
      unfold V_CRUISE_MIN_HONDA, V_CRUISE_MAX; lra.
  - set (w := if enabled_long then clip y V_CRUISE_MIN_HONDA V_CRUISE_MAX
              else y).
    rewrite honda_display_roundtrip.
    destruct enabled_long.
    + assert (Hb : (5 <= py_round w)%Z /\ (py_round w <= 145)%Z).
      { destruct (clip_bounds y V_CRUISE_MIN_HONDA V_CRUISE_MAX) as [L U];
          [unfold V_CRUISE_MIN_HONDA, V_CRUISE_MAX; lra|].
        fold w in L, U. unfold V_CRUISE_MIN_HONDA, V_CRUISE_MAX in L, U.
        split; [apply py_round_ge | apply py_round_le]; assumption. }
      destruct Hb as [L U]. rewrite Zle_Qle in L, U.
      assert (E : py_round
                    (clip (inject_Z (py_round w)) V_CRUISE_MIN_HONDA
                       V_CRUISE_MAX) = py_round w).
      { rewrite <- (py_round_inject_Z (py_round w)) at 2.
        apply py_round_Proper. apply clip_inside; assumption. }
      now rewrite E.
    + now rewrite py_round_inject_Z.
Qed.

(** Idempotence of the ramping branch on cycles without events: a second
    cycle with the same inputs leaves the speed of the first. *)
Lemma honda_branch_idle_twice self CS enabled_long is_metric cur_time :
  buttonEvents CS = [] ->
  let s1 := honda_branch (start_cycle self) CS enabled_long is_metric cur_time in
  v_cruise_kph
    (honda_branch (start_cycle s1) CS enabled_long is_metric cur_time)
  == v_cruise_kph s1.
Proof.
  intro Hev. cbv zeta.
  set (s1 := honda_branch (start_cycle self) CS enabled_long is_metric cur_time).
  destruct (honda_branch_idle_fields (start_cycle self) CS enabled_long
              is_metric cur_time Hev) as [Fa [Fd [Fp [_ Fcase]]]].
  fold s1 in Fa, Fd, Fp, Fcase.
  pose proof (honda_branch_idle_speed (start_cycle self) CS enabled_long
                is_metric cur_time Hev) as V1.
  fold s1 in V1.
  rewrite (honda_branch_idle_speed (start_cycle s1) CS enabled_long
             is_metric cur_time Hev).
  cbn [accel_pressed decel_pressed accel_pressed_last decel_pressed_last
       fastMode reverse_acc_change v_cruise_kph param_s start_cycle
       set_reverse_acc_change set_v_cruise_kph_last] in *.
  rewrite Fa, Fd, Fp.
  destruct Fcase as [[_ [_ [Hal Hdl]]] | [[_ [Heq [Hal [Hdl Hf]]]] | Hrel]].
  - rewrite Hal, Hdl.
    unfold honda_idle_speed at 1. cbv zeta. rewrite honda_ramp_rest.
    rewrite V1. unfold honda_idle_speed. cbv zeta.
    destruct enabled_long.
    + apply (honda_settled true is_metric).
    + apply (honda_settled false is_metric).
  - rewrite Hal, Hdl, Hf. rewrite V1 at 2.
    apply honda_idle_speed_Proper. symmetry. exact Heq.
  - apply orb_false_iff in Hrel as [Ha Hd]. rewrite Ha, Hd in *.
    unfold honda_idle_speed at 1. cbv zeta. rewrite honda_ramp_released.
    rewrite V1. unfold honda_idle_speed. cbv zeta.
    rewrite honda_ramp_released.
    destruct enabled_long.
    + apply (honda_settled true is_metric).
    + apply (honda_settled false is_metric).
Qed.

(** ** C5 *)

Lemma run_reachable cp msgs : forall self s,
  reachable cp self -> run msgs self = Ok s -> reachable cp s.
Proof.
  induction msgs as [|CS rest IH]; intros self s Hr; cbn [run].
  - intro H. injection H as <-. exact Hr.
  - destruct (update_v_cruise self CS true true (mkSubMaster 0))
      as [s'|e] eqn:Hu; cbn [bind]; [|discriminate].
    apply IH. exact (reach_update cp _ _ _ _ _ _ Hr Hu).
Qed.

Lemma held_49_reachable : reachable toyota held_49.
Proof.
  apply (run_reachable toyota press_and_hold engaged).
  - apply reach_initialize, reach_init.
  - vm_compute. reflexivity.
Qed.

(** C5, as stated, fails in the simple policy: the hold timer is state,
    not input.  Engage at 72 kph, press the increment button and hold it
    for 48 more cycles; the next two cycles get identical inputs with no
    button event, the first leaves 72 kph (timer 49), the second sees the
    timer at 50 and snaps to 80 kph. *)
Lemma C5_counterexample_long_press_tick :
  let idle := cruising [] false false 20 in
  let sm := mkSubMaster 0 in
  reachable toyota held_49
  /\ dict_get (button_timers held_49) accelCruise = Some 49%Z
  /\ exists s1 s2 : VCruiseHelper,
       update_v_cruise held_49 idle true true sm = Ok s1
       /\ update_v_cruise s1 idle true true sm = Ok s2
       /\ v_cruise_kph s1 == 72
       /\ v_cruise_kph s2 == 80
       /\ ~ v_cruise_kph s2 == v_cruise_kph s1.
Proof.
  cbv zeta. split; [exact held_49_reachable|]. split; [reflexivity|].
  eexists. eexists.
  split; [vm_compute; reflexivity|]. split; [vm_compute; reflexivity|].
  split; [reflexivity|]. split; [reflexivity|].
  intro H. vm_compute in H. discriminate.
Qed.

(** C5, amended.  Two calls of [update_v_cruise] with identical inputs
    whose button-event list is empty: the second leaves [v_cruise_kph] as
    the first left it - in the ramping policy always, in metric and in
    imperial units, and on the paths outside the own set-speed logic; in
    the simple policy provided no hold timer stands at a non-zero
    multiple of [CRUISE_LONG_PRESS] when the second call starts (such a
    long-press tick steps or snaps the speed, by design). *)
Theorem C5_second_idle_cycle_keeps_speed
  self CS enabled_long is_metric sm s1 s2 :
  buttonEvents CS = [] ->
  update_v_cruise self CS enabled_long is_metric sm = Ok s1 ->
  update_v_cruise s1 CS enabled_long is_metric sm = Ok s2 ->
  (simple_policy_runs self CS = true -> enabled_long = true ->
   find_long_press (button_timers s1) = NoButton) ->
  v_cruise_kph s2 == v_cruise_kph s1.
Proof.
  intros Hev Hu1 Hu2 Htick.
  pose proof (update_v_cruise_CP _ _ _ _ _ _ Hu1) as Hcp.
  assert (Hown1 : own_set_speed s1 CS = own_set_speed self CS)
    by (unfold own_set_speed; now rewrite Hcp).
  assert (Hh1 : is_honda s1 = is_honda self)
    by (unfold is_honda; now rewrite Hcp).
  destruct (own_set_speed self CS) eqn:Hown.
  - destruct (is_honda self) eqn:Hh.
    + rewrite update_v_cruise_honda in Hu1
        by (unfold honda_policy_runs; now rewrite Hown, Hh).
      rewrite update_v_cruise_honda in Hu2
        by (unfold honda_policy_runs; now rewrite Hown1, Hh1).
      injection Hu1 as <-. injection Hu2 as <-.
      now apply honda_branch_idle_twice.
    + rewrite update_v_cruise_simple in Hu2
        by (unfold simple_policy_runs; now rewrite Hown1, Hh1).
      assert (Hs : _update_v_cruise_non_pcm (start_cycle s1) CS enabled_long
                     is_metric = Ok (start_cycle s1)).
      { unfold _update_v_cruise_non_pcm.
        destruct enabled_long; [|reflexivity]. cbn [negb].
        rewrite Hev. cbn [select_button].
        cbn [button_timers start_cycle set_reverse_acc_change
             set_v_cruise_kph_last].
        rewrite Htick; [reflexivity | | reflexivity].
        unfold simple_policy_runs. now rewrite Hown, Hh. }
      rewrite Hs in Hu2. cbn [bind] in Hu2. injection Hu2 as <-.
      rewrite update_button_timers_v_cruise_kph. reflexivity.
  - destruct (update_v_cruise_elsewhere self CS enabled_long is_metric sm
                Hown) as [t1 [Ht1 [_ Hv1]]].
    destruct (update_v_cruise_elsewhere s1 CS enabled_long is_metric sm)
      as [t2 [Ht2 [_ Hv2]]]; [now rewrite Hown1|].
    rewrite Ht1 in Hu1. injection Hu1 as <-.
    rewrite Ht2 in Hu2. injection Hu2 as <-.
    rewrite Hv2, Hv1. rewrite Hcp.
    destruct (available (cruiseState CS)); [|reflexivity].
    destruct (negb (pcmCruise (CP self)) || negb (pcmCruiseSpeed (CP self)));
      reflexivity.
Qed.

Lemma C5_second_idle_cycle_keeps_speed_witness :
  exists s1 s2,
    update_v_cruise
      (mkVCruiseHelper honda 72 72 72
         [(decelCruise, 0%Z); (accelCruise, 0%Z)]
         [(decelCruise, false); (accelCruise, false)]
         no_reverse true false 0 0 false false)
      (cruising [] false false 20) true false (mkSubMaster 150) = Ok s1
    /\ update_v_cruise s1 (cruising [] false false 20) true false
         (mkSubMaster 150) = Ok s2
    /\ v_cruise_kph s1 == 80
    /\ v_cruise_kph s2 == v_cruise_kph s1.
Proof.
  eexists. eexists.
  split; [vm_compute; reflexivity|]. split; [vm_compute; reflexivity|].
  split; [reflexivity|].
  apply (C5_second_idle_cycle_keeps_speed
           (mkVCruiseHelper honda 72 72 72
              [(decelCruise, 0%Z); (accelCruise, 0%Z)]
              [(decelCruise, false); (accelCruise, false)]
              no_reverse true false 0 0 false false)
           (cruising [] false false 20) true false (mkSubMaster 150)).
  - reflexivity.
  - vm_compute. reflexivity.
  - vm_compute. reflexivity.
  - intro H. vm_compute in H. discriminate.
Defined.

(** ** C6 and C7 as stated *)

Lemma held_from_standstill_50_reachable :
  reachable toyota held_from_standstill_50.
Proof.
  apply (run_reachable toyota press_at_standstill_and_hold engaged).
  - apply reach_initialize, reach_init.
  - vm_compute. reflexivity.
Qed.

Lemma both_held_50_reachable : reachable toyota both_held_50.
Proof.
  apply (run_reachable toyota press_both_and_hold engaged).
  - apply reach_initialize, reach_init.
  - vm_compute. reflexivity.
Qed.

Lemma pressed_at_standstill_reachable :
  reachable toyota pressed_at_standstill.
Proof.
  apply (run_reachable toyota
           [cruising [mkButtonEvent accelCruise true] true false 0] engaged).
  - apply reach_initialize, reach_init.
  - vm_compute. reflexivity.
Qed.

(** C6, as stated, fails on two reachable states that meet its
    conditions (simple policy, metric, reverse toggle off, cruise and
    longitudinal control enabled, vehicle not at standstill, increment
    timer at 50 with the button still held, speed 72 kph, off a multiple
    of 10).  When the press began at standstill the stored flag
    suppresses the tick and the speed stays 72; when the decrement button
    is held as long, its timer is scanned first and the speed snaps down
    to 70.  In neither case does the speed snap to 80 or step to 82. *)
Lemma C6_counterexample_suppressed_or_preempted :
  let idle := cruising [] false false 20 in
  let sm := mkSubMaster 0 in
  (reachable toyota held_from_standstill_50
   /\ simple_policy_runs held_from_standstill_50 idle = true
   /\ param_s held_from_standstill_50 "ReverseAccChange"%string = false
   /\ standstill (cruiseState idle) = false
   /\ dict_get (button_timers held_from_standstill_50) accelCruise
      = Some 50%Z
   /\ v_cruise_kph held_from_standstill_50 == 72
   /\ exists self',
        update_v_cruise held_from_standstill_50 idle true true sm = Ok self'
        /\ v_cruise_kph self' == 72
        /\ ~ v_cruise_kph self'
             == clip (math_ceil (72 / 10) * 10) V_CRUISE_MIN V_CRUISE_MAX
        /\ ~ v_cruise_kph self'
             == clip (72 + 10) V_CRUISE_MIN V_CRUISE_MAX)
  /\ (reachable toyota both_held_50
      /\ simple_policy_runs both_held_50 idle = true
      /\ param_s both_held_50 "ReverseAccChange"%string = false
      /\ dict_get (button_change_states both_held_50) accelCruise
         = Some false
      /\ dict_get (button_timers both_held_50) accelCruise = Some 50%Z
      /\ v_cruise_kph both_held_50 == 72
      /\ exists self',
           update_v_cruise both_held_50 idle true true sm = Ok self'
           /\ v_cruise_kph self' == 70
           /\ ~ v_cruise_kph self'
                == clip (math_ceil (72 / 10) * 10) V_CRUISE_MIN V_CRUISE_MAX
           /\ ~ v_cruise_kph self'
                == clip (72 + 10) V_CRUISE_MIN V_CRUISE_MAX).
Proof.
  cbv zeta. split.
  - split; [exact held_from_standstill_50_reachable|].
    repeat (split; [reflexivity|]).
    eexists. split; [vm_compute; reflexivity|].
    split; [reflexivity|].
    split; intro H; vm_compute in H; discriminate.
  - split; [exact both_held_50_reachable|].
    repeat (split; [reflexivity|]).
    eexists. split; [vm_compute; reflexivity|].
    split; [reflexivity|].
    split; intro H; vm_compute in H; discriminate.
Qed.

(** C7, as stated, fails on a reachable state that meets its conditions:
    the increment button was pressed while the car stood, and is released
    one cycle later with the car moving, the accelerator released and a
    hold timer of 1.  The stored standstill flag suppresses the release
    and the speed stays 72 kph, where the claim says 73. *)
Lemma C7_counterexample_press_began_at_standstill :
  let CS := cruising [mkButtonEvent accelCruise false] false false 20 in
  reachable toyota pressed_at_standstill
  /\ simple_policy_runs pressed_at_standstill CS = true
  /\ param_s pressed_at_standstill "ReverseAccChange"%string = false
  /\ standstill (cruiseState CS) = false
  /\ gasPressed CS = false
  /\ dict_get (button_timers pressed_at_standstill) accelCruise = Some 1%Z
  /\ v_cruise_kph pressed_at_standstill == 72
  /\ exists self',
       update_v_cruise pressed_at_standstill CS true true (mkSubMaster 0)
       = Ok self'
       /\ v_cruise_kph self' == 72
       /\ ~ v_cruise_kph self'
            == clip (py_round1 (72 + 1)) V_CRUISE_MIN V_CRUISE_MAX.
Proof.
  cbv zeta. split; [exact pressed_at_standstill_reachable|].
  repeat (split; [reflexivity|]).
  eexists. split; [vm_compute; reflexivity|].
  split; [reflexivity|].
  intro H. vm_compute in H. discriminate.
Qed.

(** * Further properties of the code *)

(** ** [apply_deadzone] and [rate_limit] *)

Ltac deadzone_cases e d :=
  unfold apply_deadzone;
  destruct (Qltb_cases d e) as [[-> ?] | [-> ?]];
  [|destruct (Qltb_cases e (- d)) as [[-> ?] | [-> ?]]].

(** With a non-negative deadzone, [apply_deadzone] is odd in the error. *)
Theorem apply_deadzone_odd (error deadzone : Q) :
  0 <= deadzone ->
  apply_deadzone (- error) deadzone == - apply_deadzone error deadzone.
Proof.
  intro Hd. deadzone_cases error deadzone;
    unfold apply_deadzone;
    destruct (Qltb_cases deadzone (- error)) as [[-> ?] | [-> ?]];
    try destruct (Qltb_cases (- error) (- deadzone)) as [[-> ?] | [-> ?]];
    lra.
Qed.

Lemma apply_deadzone_odd_witness :
  apply_deadzone (- 7) 5 == - apply_deadzone 7 5.
Proof. apply (apply_deadzone_odd 7 5). lra. Defined.

(** With a non-negative deadzone, the result is zero inside the band,
    and outside it keeps the sign of the error and loses exactly the
    deadzone in magnitude. *)
Theorem apply_deadzone_shrinks (error deadzone : Q) :
  0 <= deadzone ->
  (Qabs error <= deadzone -> apply_deadzone error deadzone == 0)
  /\ (deadzone < Qabs error ->
      Qabs (apply_deadzone error deadzone) == Qabs error - deadzone)
  /\ (0 <= error -> 0 <= apply_deadzone error deadzone)
  /\ (error <= 0 -> apply_deadzone error deadzone <= 0).
Proof.
  intro Hd. repeat split.
  - intro H. apply Qabs_Qle_condition in H. deadzone_cases error deadzone; lra.
  - revert Hd. apply (Qabs_case error); intros He Hd H;
      deadzone_cases error deadzone; try lra.
    + rewrite Qabs_pos; lra.
    + rewrite Qabs_neg; lra.
  - intro He. deadzone_cases error deadzone; lra.
  - intro He. deadzone_cases error deadzone; lra.
Qed.

Lemma apply_deadzone_shrinks_witness :
  Qabs (apply_deadzone (- 7) 5) == Qabs (- 7) - 5.
Proof.
  destruct (apply_deadzone_shrinks (- 7) 5) as [_ [H _]]; [lra|].
  apply H. reflexivity.
Defined.

(** With a non-negative deadzone, [apply_deadzone] is monotone in the
    error and never stretches a difference of errors. *)
Theorem apply_deadzone_monotone (e1 e2 deadzone : Q) :
  0 <= deadzone -> e1 <= e2 ->
  apply_deadzone e1 deadzone <= apply_deadzone e2 deadzone
  /\ apply_deadzone e2 deadzone - apply_deadzone e1 deadzone <= e2 - e1.
Proof.
  intros Hd He. unfold apply_deadzone.
  destruct (Qltb_cases deadzone e1) as [[-> ?] | [-> ?]];
    destruct (Qltb_cases deadzone e2) as [[-> ?] | [-> ?]];
    try destruct (Qltb_cases e1 (- deadzone)) as [[-> ?] | [-> ?]];
    try destruct (Qltb_cases e2 (- deadzone)) as [[-> ?] | [-> ?]];
    split; lra.
Qed.

Lemma apply_deadzone_monotone_witness :
  apply_deadzone 3 5 <= apply_deadzone 7 5
  /\ apply_deadzone 7 5 - apply_deadzone 3 5 <= 7 - 3.
Proof. apply (apply_deadzone_monotone 3 7 5); lra. Defined.

(** With the steps in order, [rate_limit] lands in the window around the
    last value and leaves a new value of the window alone. *)
Theorem rate_limit_window (new_value last_value dw_step up_step : Q) :
  dw_step <= up_step ->
  last_value + dw_step <= rate_limit new_value last_value dw_step up_step
  /\ rate_limit new_value last_value dw_step up_step <= last_value + up_step
  /\ (last_value + dw_step <= new_value ->
      new_value <= last_value + up_step ->
      rate_limit new_value last_value dw_step up_step == new_value).
Proof.
  intro H. unfold rate_limit.
  destruct (clip_bounds new_value (last_value + dw_step)
              (last_value + up_step)) as [L U]; [lra|].
  split; [exact L|]. split; [exact U|].
  intros H1 H2. now apply clip_inside.
Qed.

Lemma rate_limit_window_witness :
  5 + -1 <= rate_limit 10 5 (-1) 2 /\ rate_limit 10 5 (-1) 2 <= 5 + 2
  /\ (5 + -1 <= 10 -> 10 <= 5 + 2 -> rate_limit 10 5 (-1) 2 == 10).
Proof. apply (rate_limit_window 10 5 (-1) 2). lra. Defined.

(** With the steps out of order the lower bound wins: the result is
    [last_value + dw_step] whatever the new value. *)
Theorem rate_limit_crossed_steps (new_value last_value dw_step up_step : Q) :
  up_step < dw_step ->
  rate_limit new_value last_value dw_step up_step == last_value + dw_step.
Proof.
  intro H. unfold rate_limit, clip, py_max, py_min.
  destruct (Qltb_cases new_value (last_value + up_step)) as [[-> H1] | [-> H1]].
  - destruct (Qltb_cases (last_value + dw_step) new_value)
      as [[-> H2] | [-> H2]]; lra.
  - destruct (Qltb_cases (last_value + dw_step) (last_value + up_step))
      as [[-> H2] | [-> H2]]; lra.
Qed.

Lemma rate_limit_crossed_steps_witness :
  rate_limit 10 5 2 (-1) == 5 + 2.
Proof. apply (rate_limit_crossed_steps 10 5 2 (-1)). lra. Defined.

(** ** The state machine never fails in operation *)

(** On every reachable state [update_v_cruise] returns: the dict lookups
    of the simple policy never raise [KeyError], and the state it returns
    is reachable again. *)
Theorem update_v_cruise_never_raises cp self CS enabled_long is_metric sm :
  reachable cp self ->
  exists self',
    update_v_cruise self CS enabled_long is_metric sm = Ok self'
    /\ reachable cp self'.
Proof.
  intro Hr.
  destruct (update_v_cruise_total self CS enabled_long is_metric sm
              (reachable_well_formed cp self Hr)) as [self' [Hu _]].
  exists self'. split; [exact Hu|].
  exact (reach_update cp _ _ _ _ _ _ Hr Hu).
Qed.

Lemma update_v_cruise_never_raises_witness :
  exists self',
    update_v_cruise held_49 (cruising [] false false 20) true true
      (mkSubMaster 0) = Ok self'
    /\ reachable toyota self'.
Proof.
  apply (update_v_cruise_never_raises toyota held_49).
  exact held_49_reachable.
Defined.

(** ** Frame of the cycle *)

Lemma record_events_frame still events : forall self,
  let self' := fold_left (record_event still) events self in
  v_cruise_cluster_kph self' = v_cruise_cluster_kph self
  /\ v_cruise_kph_last self' = v_cruise_kph_last self
  /\ reverse_acc_change self' = reverse_acc_change self.
Proof.
  induction events as [|b rest IH]; intro self; cbv zeta; [now repeat split|].
  cbn [fold_left].
  destruct (IH (record_event still self b)) as [-> [-> ->]].
  unfold record_event.
  destruct (dict_mem (button_timers self) (type b)); now repeat split.
Qed.

Lemma honda_latches_frame cur_time events : forall self,
  let self' := fold_left (honda_latch cur_time) events self in
  v_cruise_kph_last self' = v_cruise_kph_last self
  /\ reverse_acc_change self' = reverse_acc_change self.
Proof.
  induction events as [|b rest IH]; intro self; cbv zeta; [now split|].
  cbn [fold_left].
  destruct (IH (honda_latch cur_time self b)) as [-> ->].
  unfold honda_latch.
  destruct (pressed b), (ButtonType_eqb (type b) accelCruise),
    (ButtonType_eqb (type b) decelCruise); now split.
Qed.

Lemma honda_branch_frame self CS enabled_long is_metric cur_time :
  let self' := honda_branch self CS enabled_long is_metric cur_time in
  v_cruise_kph_last self' = v_cruise_kph_last self
  /\ reverse_acc_change self' = reverse_acc_change self
  /\ v_cruise_cluster_kph self' = v_cruise_kph self'.
Proof.
  destruct (honda_latches_frame cur_time (buttonEvents CS) self) as [Hl Hr].
  cbv zeta. unfold honda_branch, _update_v_cruise_non_pcm_honda.
  repeat match goal with
         | |- context [if ?c then _ else _] => destruct c eqn:?
         end;
    cbn [v_cruise_kph_last reverse_acc_change v_cruise_cluster_kph
         v_cruise_kph set_v_cruise_kph set_v_cruise_cluster_kph set_fastMode
         set_decel_pressed_last set_accel_pressed_last];
    repeat split; first [assumption | reflexivity | congruence].
Qed.

(** Every returning call of [update_v_cruise] leaves in
    [v_cruise_kph_last] the speed it found, and in [reverse_acc_change]
    the store's value, on every path. *)
Theorem update_v_cruise_snapshot self CS enabled_long is_metric sm self' :
  update_v_cruise self CS enabled_long is_metric sm = Ok self' ->
  v_cruise_kph_last self' = v_cruise_kph self
  /\ reverse_acc_change self' = param_s self "ReverseAccChange"%string.
Proof.
  intro Hu. destruct (own_set_speed self CS) eqn:Hown.
  - destruct (is_honda self) eqn:Hh.
    + rewrite update_v_cruise_honda in Hu
        by (unfold honda_policy_runs; now rewrite Hown, Hh).
      injection Hu as <-.
      destruct (honda_branch_frame (start_cycle self) CS enabled_long
                  is_metric (inject_Z (frame sm) * DT_CTRL)) as [-> [-> _]].
      split; reflexivity.
    + rewrite update_v_cruise_simple in Hu
        by (unfold simple_policy_runs; now rewrite Hown, Hh).
      destruct (_update_v_cruise_non_pcm (start_cycle self) CS enabled_long
                  is_metric) as [s|e] eqn:Hs; cbn [bind] in Hu;
        [|discriminate].
      injection Hu as <-. unfold update_button_timers.
      destruct (record_events_frame (standstill (cruiseState CS))
                  (buttonEvents CS)
                  (set_button_timers
                     (tick_timers
                        (button_timers
                           (set_v_cruise_cluster_kph (v_cruise_kph s) s)))
                     (set_v_cruise_cluster_kph (v_cruise_kph s) s)))
        as [_ [-> ->]].
      destruct (non_pcm_unchanged_or_clamped _ _ _ _ _ Hs)
        as [-> | [v [-> _]]]; split; reflexivity.
  - unfold update_v_cruise in Hu. unfold own_set_speed in Hown.
    cbn [CP set_reverse_acc_change set_v_cruise_kph_last] in Hu.
    destruct (available (cruiseState CS));
      [|injection Hu as <-; split; reflexivity].
    destruct (negb (pcmCruise (CP self)) || negb (pcmCruiseSpeed (CP self)));
      [|injection Hu as <-; split; reflexivity].
    cbn [andb] in Hown. rewrite Hown in Hu.
    injection Hu as <-; split; reflexivity.
Qed.

Lemma update_v_cruise_snapshot_witness :
  exists self',
    update_v_cruise held_49 (cruising [] false false 20) true true
      (mkSubMaster 0) = Ok self'
    /\ v_cruise_kph_last self' = v_cruise_kph held_49.
Proof.
  eexists. split; [vm_compute; reflexivity|].
  apply (update_v_cruise_snapshot held_49 (cruising [] false false 20)
           true true (mkSubMaster 0)).
  vm_compute. reflexivity.
Defined.

(** The cluster speed after a returning call: equal to the target speed
    whenever the own set-speed logic ran, in either policy; the cluster
    speed the PCM reports, in kph, when the PCM owns the set speed; the
    sentinel when cruise is unavailable. *)
Theorem update_v_cruise_cluster_speed
  self CS enabled_long is_metric sm self' :
  update_v_cruise self CS enabled_long is_metric sm = Ok self' ->
  (own_set_speed self CS = true ->
   v_cruise_cluster_kph self' = v_cruise_kph self')
  /\ (available (cruiseState CS) = true ->
      pcmCruise (CP self) && pcmCruiseSpeed (CP self) = true ->
      v_cruise_cluster_kph self' = speedCluster (cruiseState CS) * MS_TO_KPH)
  /\ (available (cruiseState CS) = false ->
      v_cruise_cluster_kph self' = V_CRUISE_INITIAL
      /\ v_cruise_initialized self' = false).
Proof.
  intro Hu. split; [|split].
  - intro Hown. destruct (is_honda self) eqn:Hh.
    + rewrite update_v_cruise_honda in Hu
        by (unfold honda_policy_runs; now rewrite Hown, Hh).
      injection Hu as <-.
      apply (honda_branch_frame (start_cycle self)).
    + rewrite update_v_cruise_simple in Hu
        by (unfold simple_policy_runs; now rewrite Hown, Hh).
      destruct (_update_v_cruise_non_pcm (start_cycle self) CS enabled_long
                  is_metric) as [s|e] eqn:Hs; cbn [bind] in Hu;
        [|discriminate].
      injection Hu as <-. rewrite update_button_timers_v_cruise_kph.
      unfold update_button_timers.
      destruct (record_events_frame (standstill (cruiseState CS))
                  (buttonEvents CS)
                  (set_button_timers
                     (tick_timers
                        (button_timers
                           (set_v_cruise_cluster_kph (v_cruise_kph s) s)))
                     (set_v_cruise_cluster_kph (v_cruise_kph s) s)))
        as [-> _].
      reflexivity.
  - intros Ha Hp. unfold update_v_cruise in Hu.
    cbn [CP set_reverse_acc_change set_v_cruise_kph_last] in Hu.
    apply andb_true_iff in Hp as [Hp1 Hp2].
    rewrite Ha, Hp1, Hp2 in Hu. cbn [negb orb] in Hu.
    injection Hu as <-. reflexivity.
  - intro Ha. unfold update_v_cruise in Hu. rewrite Ha in Hu.
    injection Hu as <-. split; reflexivity.
Qed.

Lemma update_v_cruise_cluster_speed_witness :
  exists self',
    update_v_cruise held_49 (cruising [] false false 20) true true
      (mkSubMaster 0) = Ok self'
    /\ v_cruise_cluster_kph self' = v_cruise_kph self'.
Proof.
  eexists. split; [vm_compute; reflexivity|].
  apply (update_v_cruise_cluster_speed held_49 (cruising [] false false 20)
           true true (mkSubMaster 0)).
  - vm_compute. reflexivity.
  - reflexivity.
Defined.

(** ** Hold timers are never negative *)

Lemma dict_set_Forall {A : Type} (P : ButtonType * A -> Prop)
  (d : list (ButtonType * A)) k v :
  Forall P d -> (forall k', P (k', v)) -> Forall P (dict_set d k v).
Proof.
  intros Hd Hv. induction d as [|[k0 v0] rest IH]; cbn [dict_set].
  - constructor; [apply Hv | constructor].
  - inversion Hd as [|? ? H0 Hrest]; subst.
    destruct (ButtonType_eqb k0 k); constructor; auto.
Qed.

Lemma record_events_timers_nonneg still events : forall self,
  timers_nonneg self ->
  timers_nonneg (fold_left (record_event still) events self).
Proof.
  induction events as [|b rest IH]; intros self H; [exact H|].
  cbn [fold_left]. apply IH. unfold record_event.
  destruct (dict_mem (button_timers self) (type b)); [|exact H].
  unfold timers_nonneg.
  cbn [button_timers set_button_timers set_button_change_states].
  apply dict_set_Forall; [exact H|].
  intro k'. cbn [snd]. destruct (pressed b); lia.
Qed.

Lemma update_button_timers_nonneg self CS :
  timers_nonneg self -> timers_nonneg (update_button_timers self CS).
Proof.
  intro H. unfold update_button_timers.
  apply record_events_timers_nonneg. unfold timers_nonneg in *.
  cbn [button_timers set_button_timers]. unfold tick_timers.
  rewrite Forall_map. rewrite Forall_forall in *.
  intros [k t] Hin. specialize (H _ Hin). cbn [fst snd] in *.
  destruct (t >? 0)%Z; cbn [snd]; lia.
Qed.

Lemma update_v_cruise_timers_nonneg self CS enabled_long is_metric sm self' :
  update_v_cruise self CS enabled_long is_metric sm = Ok self' ->
  timers_nonneg self -> timers_nonneg self'.
Proof.
  intros Hu H. destruct (own_set_speed self CS) eqn:Hown.
  - destruct (is_honda self) eqn:Hh.
    + rewrite update_v_cruise_honda in Hu
        by (unfold honda_policy_runs; now rewrite Hown, Hh).
      injection Hu as <-. unfold timers_nonneg.
      destruct (honda_branch_dicts (start_cycle self) CS enabled_long
                  is_metric (inject_Z (frame sm) * DT_CTRL)) as [-> _].
      exact H.
    + rewrite update_v_cruise_simple in Hu
        by (unfold simple_policy_runs; now rewrite Hown, Hh).
      destruct (_update_v_cruise_non_pcm (start_cycle self) CS enabled_long
                  is_metric) as [s|e] eqn:Hs; cbn [bind] in Hu;
        [|discriminate].
      injection Hu as <-. apply update_button_timers_nonneg.
      destruct (non_pcm_unchanged_or_clamped _ _ _ _ _ Hs)
        as [-> | [v [-> _]]]; exact H.
  - unfold update_v_cruise in Hu. unfold own_set_speed in Hown.
    cbn [CP set_reverse_acc_change set_v_cruise_kph_last] in Hu.
    destruct (available (cruiseState CS));
      [|injection Hu as <-; exact H].
    destruct (negb (pcmCruise (CP self)) || negb (pcmCruiseSpeed (CP self)));
      [|injection Hu as <-; exact H].
    cbn [andb] in Hown. rewrite Hown in Hu.
    injection Hu as <-; exact H.
Qed.

(** In every reachable state the two hold timers are there, and neither
    is negative. *)
Theorem reachable_timers_nonneg cp self k :
  reachable cp self -> In k tracked_keys ->
  exists t, dict_get (button_timers self) k = Some t /\ (0 <= t)%Z.
Proof.
  intros Hr Hk.
  assert (Hn : timers_nonneg self).
  { clear Hk. induction Hr as [ps | self CS el m sm self' _ IH Hu
                              | self CS m _ IH | self ps _ IH].
    - repeat constructor; cbn; lia.
    - exact (update_v_cruise_timers_nonneg _ _ _ _ _ _ Hu IH).
    - unfold initialize_v_cruise.
      destruct (pcmCruise (CP self) && pcmCruiseSpeed (CP self)); [exact IH|].
      destruct (existsb _ _ && _); exact IH.
    - exact IH. }
  destruct (reachable_well_formed cp self Hr) as [Hkeys _].
  destruct (dict_get_tracked _ k Hkeys Hk) as [t Ht].
  exists t. split; [exact Ht|].
  unfold timers_nonneg in Hn. rewrite Forall_forall in Hn.
  assert (Hin : In (k, t) (button_timers self)).
  { clear Hn Hkeys. revert Ht.
    induction (button_timers self) as [|[k0 t0] rest IH]; cbn [dict_get];
      [discriminate|].
    destruct (ButtonType_eqb k0 k) eqn:E.
    - apply ButtonType_eqb_eq in E. subst k0.
      intro H. injection H as ->. now left.
    - intro H. right. now apply IH. }
  exact (Hn _ Hin).
Qed.

Lemma reachable_timers_nonneg_witness :
  exists t, dict_get (button_timers held_49) accelCruise = Some t /\ (0 <= t)%Z.
Proof.
  apply (reachable_timers_nonneg toyota held_49 accelCruise).
  - exact held_49_reachable.
  - right. left. reflexivity.
Defined.

(** ** Which button the simple policy processes *)

Lemma select_button_app timers pre rest :
  Forall (passed_over timers) pre ->
  select_button timers (pre ++ rest) = select_button timers rest.
Proof.
  induction 1 as [|b pre' Hb _ IH]; [reflexivity|].
  cbn [app select_button]. unfold passed_over, dict_mem in Hb.
  destruct (dict_get timers (type b)) as [t|]; [|exact IH].
  rewrite (Hb eq_refl). exact IH.
Qed.

(** Nothing the simple policy does with the speed depends on the events
    beyond the button they select. *)
Lemma non_pcm_events_through_selection self CS enabled_long is_metric ev1 ev2 :
  select_button (button_timers self) ev1
  = select_button (button_timers self) ev2 ->
  _update_v_cruise_non_pcm self (with_events CS ev1) enabled_long is_metric
  = _update_v_cruise_non_pcm self (with_events CS ev2) enabled_long is_metric.
Proof.
  intro H. unfold _update_v_cruise_non_pcm.
  cbn [buttonEvents cruiseState gasPressed vEgo with_events].
  now rewrite H.
Qed.

(** End of a long press.  In the simple policy, when the first release
    of a tracked button among the events comes with a hold timer above
    [CRUISE_LONG_PRESS], the cycle leaves the speed alone, whatever
    events follow and whatever the other timer says. *)
Theorem long_press_release_keeps_speed
  self CS enabled_long is_metric sm pre b rest t :
  simple_policy_runs self CS = true ->
  buttonEvents CS = pre ++ b :: rest ->
  Forall (passed_over (button_timers self)) pre ->
  pressed b = false ->
  dict_get (button_timers self) (type b) = Some t ->
  (CRUISE_LONG_PRESS < t)%Z ->
  exists self',
    update_v_cruise self CS enabled_long is_metric sm = Ok self'
    /\ v_cruise_kph self' = v_cruise_kph self.
Proof.
  intros Hd Hev Hpre Hp Ht Hlt.
  destruct (update_v_cruise_simple_speed self CS enabled_long is_metric sm
              (start_cycle self) Hd) as [self' [Hu Hv]].
  - unfold _update_v_cruise_non_pcm.
    destruct enabled_long; [|reflexivity]. cbn [negb].
    cbn [button_timers start_cycle set_reverse_acc_change
         set_v_cruise_kph_last].
    rewrite Hev, (select_button_app _ _ _ Hpre). cbn [select_button].
    rewrite Ht, Hp. cbn [negb].
    assert (E : (t >? CRUISE_LONG_PRESS)%Z = true)
      by (rewrite Z.gtb_ltb; apply Z.ltb_lt; exact Hlt).
    now rewrite E.
  - exists self'. split; [exact Hu | exact Hv].
Qed.

Lemma long_press_release_keeps_speed_witness :
  exists self',
    update_v_cruise
      (helper_at 72 [(decelCruise, 0%Z); (accelCruise, 51%Z)]
         [(decelCruise, false); (accelCruise, false)])
      (cruising [mkButtonEvent cancel true; mkButtonEvent accelCruise false;
                 mkButtonEvent decelCruise false] false false 20)
      true true (mkSubMaster 0) = Ok self'
    /\ v_cruise_kph self' = 72.
Proof.
  apply (long_press_release_keeps_speed
           (helper_at 72 [(decelCruise, 0%Z); (accelCruise, 51%Z)]
              [(decelCruise, false); (accelCruise, false)])
           (cruising [mkButtonEvent cancel true; mkButtonEvent accelCruise false;
                      mkButtonEvent decelCruise false] false false 20)
           true true (mkSubMaster 0)
           [mkButtonEvent cancel true] (mkButtonEvent accelCruise false)
           [mkButtonEvent decelCruise false] 51%Z); try reflexivity.
  constructor; [|constructor]. intro H. discriminate H.
Defined.

(** One button per cycle.  In the simple policy the first released
    tracked button among the events (hold timer at most
    [CRUISE_LONG_PRESS]) decides the speed alone: the events before it
    that the loop passes over and all the events after it change nothing
    in the speed the cycle leaves. *)
Theorem first_release_decides_speed
  self CS enabled_long is_metric sm pre b rest t s1 s2 :
  simple_policy_runs self CS = true ->
  Forall (passed_over (button_timers self)) pre ->
  pressed b = false ->
  dict_get (button_timers self) (type b) = Some t ->
  (t <= CRUISE_LONG_PRESS)%Z ->
  update_v_cruise self (with_events CS (pre ++ b :: rest))
    enabled_long is_metric sm = Ok s1 ->
  update_v_cruise self (with_events CS [b]) enabled_long is_metric sm
  = Ok s2 ->
  v_cruise_kph s1 = v_cruise_kph s2.
Proof.
  intros Hd Hpre Hp Ht Hle Hu1 Hu2.
  assert (Hsel : select_button (button_timers (start_cycle self))
                   (pre ++ b :: rest)
                 = select_button (button_timers (start_cycle self)) [b]).
  { cbn [button_timers start_cycle set_reverse_acc_change
         set_v_cruise_kph_last].
    rewrite (select_button_app _ _ _ Hpre). cbn [select_button].
    rewrite Ht, Hp. cbn [negb].
    assert (E : (t >? CRUISE_LONG_PRESS)%Z = false)
      by (rewrite Z.gtb_ltb; apply Z.ltb_ge; exact Hle).
    now rewrite E. }
  rewrite update_v_cruise_simple in Hu1 by exact Hd.
  rewrite update_v_cruise_simple in Hu2 by exact Hd.
  rewrite (non_pcm_events_through_selection _ CS _ _ _ _ Hsel) in Hu1.
  destruct (_update_v_cruise_non_pcm (start_cycle self) (with_events CS [b])
              enabled_long is_metric) as [s|e]; cbn [bind] in Hu1, Hu2;
    [|discriminate].
  injection Hu1 as <-. injection Hu2 as <-.
  now rewrite !update_button_timers_v_cruise_kph.
Qed.

Lemma first_release_decides_speed_witness :
  exists s1 s2,
    update_v_cruise
      (helper_at 72 [(decelCruise, 3%Z); (accelCruise, 7%Z)]
         [(decelCruise, false); (accelCruise, false)])
      (with_events (cruising [] false false 20)
         ([mkButtonEvent cancel true]
          ++ mkButtonEvent accelCruise false
             :: [mkButtonEvent decelCruise false]))
      true true (mkSubMaster 0) = Ok s1
    /\ update_v_cruise
         (helper_at 72 [(decelCruise, 3%Z); (accelCruise, 7%Z)]
            [(decelCruise, false); (accelCruise, false)])
         (with_events (cruising [] false false 20)
            [mkButtonEvent accelCruise false])
         true true (mkSubMaster 0) = Ok s2
    /\ v_cruise_kph s1 = v_cruise_kph s2.
Proof.
  eexists. eexists.
  split; [vm_compute; reflexivity|]. split; [vm_compute; reflexivity|].
  apply (first_release_decides_speed
           (helper_at 72 [(decelCruise, 3%Z); (accelCruise, 7%Z)]
              [(decelCruise, false); (accelCruise, false)])
           (cruising [] false false 20) true true (mkSubMaster 0)
           [mkButtonEvent cancel true] (mkButtonEvent accelCruise false)
           [mkButtonEvent decelCruise false] 7%Z); try reflexivity.
  - constructor; [|constructor]. intro H. discriminate H.
  - unfold CRUISE_LONG_PRESS. lia.
Defined.

(** In the simple policy a cycle whose events are all presses or buttons
    without a timer, with no hold timer at a non-zero multiple of
    [CRUISE_LONG_PRESS], leaves the speed alone: speed changes come with
    release edges and long-press ticks only. *)
Theorem no_edge_no_tick_keeps_speed self CS enabled_long is_metric sm :
  simple_policy_runs self CS = true ->
  Forall (passed_over (button_timers self)) (buttonEvents CS) ->
  find_long_press (button_timers self) = NoButton ->
  exists self',
    update_v_cruise self CS enabled_long is_metric sm = Ok self'
    /\ v_cruise_kph self' = v_cruise_kph self.
Proof.
  intros Hd Hev Hno.
  destruct (update_v_cruise_simple_speed self CS enabled_long is_metric sm
              (start_cycle self) Hd) as [self' [Hu Hv]].
  - unfold _update_v_cruise_non_pcm.
    destruct enabled_long; [|reflexivity]. cbn [negb].
    cbn [button_timers start_cycle set_reverse_acc_change
         set_v_cruise_kph_last].
    rewrite (select_button_no_release _ _ Hev), Hno. reflexivity.
  - exists self'. split; [exact Hu | exact Hv].
Qed.

Lemma no_edge_no_tick_keeps_speed_witness :
  exists self',
    update_v_cruise
      (helper_at 72 [(decelCruise, 0%Z); (accelCruise, 49%Z)]
         [(decelCruise, false); (accelCruise, false)])
      (cruising [mkButtonEvent decelCruise true; mkButtonEvent setCruise false]
         false false 20)
      true true (mkSubMaster 0) = Ok self'
    /\ v_cruise_kph self' = 72.
Proof.
  apply (no_edge_no_tick_keeps_speed
           (helper_at 72 [(decelCruise, 0%Z); (accelCruise, 49%Z)]
              [(decelCruise, false); (accelCruise, false)])
           (cruising [mkButtonEvent decelCruise true;
                      mkButtonEvent setCruise false] false false 20)
           true true (mkSubMaster 0)); try reflexivity.
  constructor; [intro; reflexivity|].
  constructor; [intro H; discriminate H | constructor].
Defined.

(** ** More of the simple policy *)




(** The simple policy on a selected button that is not suppressed, seen
    from [update_v_cruise]. *)
Lemma simple_policy_adjusts self CS (is_metric : bool) sm k lp st w :
  simple_policy_runs self CS = true ->
  select_button (button_timers self) (buttonEvents CS) = Selected k lp ->
  dict_get (button_change_states self) k = Some st ->
  ButtonType_eqb k accelCruise && (st || standstill (cruiseState CS)) = false ->
  adjust_speed (param_s self "ReverseAccChange"%string) lp k
    (v_cruise_kph self) (if is_metric then 1 else 1.6)
    (if is_metric then 10 else 5) = Ok w ->
  exists self',
    update_v_cruise self CS true is_metric sm = Ok self'
    /\ v_cruise_kph self'
       = clip
           (py_round1
              (if gasPressed CS
                  && (ButtonType_eqb k decelCruise
                      || ButtonType_eqb k setCruise)
               then py_max w (vEgo CS * MS_TO_KPH) else w))
           V_CRUISE_MIN V_CRUISE_MAX.
Proof.
  intros Hd Hsel Hst Hstill Hadj.
  destruct (update_v_cruise_simple_speed self CS true is_metric sm
              (set_v_cruise_kph
                 (clip
                    (py_round1
                       (if gasPressed CS
                           && (ButtonType_eqb k decelCruise
                               || ButtonType_eqb k setCruise)
                        then py_max w (vEgo CS * MS_TO_KPH) else w))
                    V_CRUISE_MIN V_CRUISE_MAX) (start_cycle self)) Hd)
    as [self' [Hu Hv]].
  - apply (non_pcm_selected (start_cycle self) CS is_metric k lp st w);
      assumption.
  - exists self'. split; [exact Hu | exact Hv].
Qed.

Lemma select_single_release timers k t :
  dict_get timers k = Some t -> (t <= CRUISE_LONG_PRESS)%Z ->
  select_button timers [mkButtonEvent k false] = Selected k false.
Proof.
  intros Ht Hle. cbn [select_button type pressed]. rewrite Ht. cbn [negb].
  assert (E : (t >? CRUISE_LONG_PRESS)%Z = false)
    by (rewrite Z.gtb_ltb; apply Z.ltb_ge; exact Hle).
  now rewrite E.
Qed.

(** Reverse toggle on, metric units, longitudinal enabled, neither the
    stored standstill flag of the increment button nor the current
    standstill flag set: the roles of the short and the long press are
    swapped.  A cycle whose only event is a release of the increment
    button (hold timer at most [CRUISE_LONG_PRESS]) steps by 10 on a
    multiple of 10 and otherwise snaps to the next multiple of 10
    upward, less than 10 away; the result is then clamped. *)
Theorem reverse_short_press_snaps_or_steps self CS sm t :
  simple_policy_runs self CS = true ->
  param_s self "ReverseAccChange"%string = true ->
  standstill (cruiseState CS) = false ->
  dict_get (button_change_states self) accelCruise = Some false ->
  buttonEvents CS = [mkButtonEvent accelCruise false] ->
  dict_get (button_timers self) accelCruise = Some t ->
  (t <= CRUISE_LONG_PRESS)%Z ->
  exists self',
    update_v_cruise self CS true true sm = Ok self'
    /\ (py_mod (v_cruise_kph self) 10 == 0 ->
        v_cruise_kph self'
        == clip (v_cruise_kph self + 10) V_CRUISE_MIN V_CRUISE_MAX)
    /\ (~ py_mod (v_cruise_kph self) 10 == 0 ->
        v_cruise_kph self'
        == clip (math_ceil (v_cruise_kph self / 10) * 10)
             V_CRUISE_MIN V_CRUISE_MAX
        /\ v_cruise_kph self < math_ceil (v_cruise_kph self / 10) * 10
        /\ math_ceil (v_cruise_kph self / 10) * 10 < v_cruise_kph self + 10).
Proof.
  intros Hd Hrev Hstill Hst Hev Ht Hle.
  set (v := v_cruise_kph self).
  set (w := if negb (Qeq_bool (py_mod v (1 * 10)) 0)
            then math_ceil (v / (1 * 10)) * (1 * 10)
            else v + 1 * 10 * 1).
  destruct (simple_policy_adjusts self CS true sm accelCruise false false w Hd)
    as [self' [Hu Hv]].
  - rewrite Hev. exact (select_single_release _ _ _ Ht Hle).
  - exact Hst.
  - cbn [ButtonType_eqb orb andb]. now rewrite Hstill.
  - rewrite Hrev. unfold adjust_speed, w. fold v. cbn [negb andb].
    destruct (negb (Qeq_bool (py_mod v (1 * 10)) 0)); reflexivity.
  - exists self'. split; [exact Hu|]. rewrite Hv.
    cbn [ButtonType_eqb orb andb]. rewrite andb_false_r. split.
    + intro Hal. unfold w.
      assert (Eb : Qeq_bool (py_mod v (1 * 10)) 0 = true)
        by (apply Qeq_bool_iff; exact Hal).
      rewrite Eb. cbn [negb].
      pose proof (aligned_is_multiple v Hal) as Hk.
      assert (Es : v + 1 * 10 * 1 == inject_Z (Qfloor (v / 10) + 1) * 10)
        by (rewrite inject_Z_plus; change (inject_Z 1) with 1; lra).
      rewrite Es, py_round1_tens, <- Es.
      apply clip_Proper; [ring | reflexivity | reflexivity].
    + intro Hna. unfold w.
      assert (Eb : Qeq_bool (py_mod v (1 * 10)) 0 = false)
        by (apply Qeq_bool_false; exact Hna).
      rewrite Eb. cbn [negb].
      split; [|now apply ceil_snap_between].
      assert (Es : math_ceil (v / (1 * 10)) * (1 * 10)
                   == inject_Z (Qceiling (v / 10)) * 10)
        by (unfold math_ceil; change (1 * 10) with 10; ring).
      rewrite Es, py_round1_tens. reflexivity.
Qed.

Lemma reverse_short_press_snaps_or_steps_witness :
  exists self',
    update_v_cruise
      (mkVCruiseHelper toyota 72 72 72
         [(decelCruise, 0%Z); (accelCruise, 7%Z)]
         [(decelCruise, false); (accelCruise, false)]
         (fun _ => true) false false 0 0 false true)
      (cruising [mkButtonEvent accelCruise false] false false 20)
      true true (mkSubMaster 0) = Ok self'
    /\ v_cruise_kph self' == 80.
Proof.
  destruct (reverse_short_press_snaps_or_steps
              (mkVCruiseHelper toyota 72 72 72
                 [(decelCruise, 0%Z); (accelCruise, 7%Z)]
                 [(decelCruise, false); (accelCruise, false)]
                 (fun _ => true) false false 0 0 false true)
              (cruising [mkButtonEvent accelCruise false] false false 20)
              (mkSubMaster 0) 7%Z)
    as [self' [Hu [_ Hs]]]; try reflexivity.
  - unfold CRUISE_LONG_PRESS. lia.
  - exists self'. split; [exact Hu|].
    destruct Hs as [Hs _]; [intro H; vm_compute in H; discriminate|].
    rewrite Hs. reflexivity.
Defined.

(** Reverse toggle on, metric units, longitudinal enabled, neither the
    stored standstill flag of the increment button nor the current
    standstill flag set: a long-press tick of the increment button that
    is the button processed (no tracked button released in the cycle,
    decrement timer not at a tick of its own) steps by 1 kph, then
    rounded and clamped. *)
Theorem reverse_long_press_adds_one self CS sm td ta :
  simple_policy_runs self CS = true ->
  param_s self "ReverseAccChange"%string = true ->
  standstill (cruiseState CS) = false ->
  dict_get (button_change_states self) accelCruise = Some false ->
  button_timers self = [(decelCruise, td); (accelCruise, ta)] ->
  (ta <> 0)%Z -> (ta mod CRUISE_LONG_PRESS = 0)%Z ->
  (td = 0 \/ td mod CRUISE_LONG_PRESS <> 0)%Z ->
  Forall (passed_over (button_timers self)) (buttonEvents CS) ->
  exists self',
    update_v_cruise self CS true true sm = Ok self'
    /\ v_cruise_kph self'
       == clip (py_round1 (v_cruise_kph self + 1)) V_CRUISE_MIN V_CRUISE_MAX.
Proof.
  intros Hd Hrev Hstill Hst Htim Ha Hm Hdec Hev.
  destruct (simple_policy_adjusts self CS true sm accelCruise true false
              (v_cruise_kph self + 1 * 1 * 1) Hd)
    as [self' [Hu Hv]].
  - rewrite (select_button_no_release _ _ Hev), Htim.
    now apply find_long_press_accel.
  - exact Hst.
  - cbn [ButtonType_eqb orb andb]. now rewrite Hstill.
  - rewrite Hrev. reflexivity.
  - exists self'. split; [exact Hu|]. rewrite Hv.
    cbn [ButtonType_eqb orb andb]. rewrite andb_false_r.
    apply clip_Proper; [|reflexivity|reflexivity].
    apply py_round1_Proper. ring.
Qed.

Lemma reverse_long_press_adds_one_witness :
  exists self',
    update_v_cruise
      (mkVCruiseHelper toyota 72 72 72
         [(decelCruise, 0%Z); (accelCruise, 50%Z)]
         [(decelCruise, false); (accelCruise, false)]
         (fun _ => true) false false 0 0 false true)
      (cruising [] false false 20) true true (mkSubMaster 0) = Ok self'
    /\ v_cruise_kph self'
       == clip (py_round1 (72 + 1)) V_CRUISE_MIN V_CRUISE_MAX.
Proof.
  apply (reverse_long_press_adds_one
           (mkVCruiseHelper toyota 72 72 72
              [(decelCruise, 0%Z); (accelCruise, 50%Z)]
              [(decelCruise, false); (accelCruise, false)]
              (fun _ => true) false false 0 0 false true)
           (cruising [] false false 20) (mkSubMaster 0) 0%Z 50%Z);
    try reflexivity.
  - discriminate.
  - left; reflexivity.
  - apply Forall_nil.
Defined.




(** Imperial units, reverse toggle off, longitudinal enabled, neither the
    stored standstill flag of the increment button nor the current
    standstill flag set: a cycle whose only event is a release of the
    increment button (hold timer at most [CRUISE_LONG_PRESS]) adds 1.6
    kph - the interval the code uses for one mph - before rounding to
    one decimal and clamp. *)
Theorem imperial_increment_release_adds_1_6 self CS sm t :
  simple_policy_runs self CS = true ->
  param_s self "ReverseAccChange"%string = false ->
  standstill (cruiseState CS) = false ->
  dict_get (button_change_states self) accelCruise = Some false ->
  buttonEvents CS = [mkButtonEvent accelCruise false] ->
  dict_get (button_timers self) accelCruise = Some t ->
  (t <= CRUISE_LONG_PRESS)%Z ->
  exists self',
    update_v_cruise self CS true false sm = Ok self'
    /\ v_cruise_kph self'
       == clip (py_round1 (v_cruise_kph self + 1.6)) V_CRUISE_MIN V_CRUISE_MAX.
Proof.
  intros Hd Hrev Hstill Hst Hev Ht Hle.
  destruct (simple_policy_adjusts self CS false sm accelCruise false false
              (v_cruise_kph self + 1.6 * 1 * 1) Hd)
    as [self' [Hu Hv]].
  - rewrite Hev. exact (select_single_release _ _ _ Ht Hle).
  - exact Hst.
  - cbn [ButtonType_eqb orb andb]. now rewrite Hstill.
  - rewrite Hrev. reflexivity.
  - exists self'. split; [exact Hu|]. rewrite Hv.
    cbn [ButtonType_eqb orb andb]. rewrite andb_false_r.
    apply clip_Proper; [|reflexivity|reflexivity].
    apply py_round1_Proper. ring.
Qed.

Lemma imperial_increment_release_adds_1_6_witness :
  exists self',
    update_v_cruise
      (helper_at 72 [(decelCruise, 0%Z); (accelCruise, 7%Z)]
         [(decelCruise, false); (accelCruise, false)])
      (cruising [mkButtonEvent accelCruise false] false false 20)
      true false (mkSubMaster 0) = Ok self'
    /\ v_cruise_kph self'
       == clip (py_round1 (72 + 1.6)) V_CRUISE_MIN V_CRUISE_MAX.
Proof.
  apply (imperial_increment_release_adds_1_6
           (helper_at 72 [(decelCruise, 0%Z); (accelCruise, 7%Z)]
              [(decelCruise, false); (accelCruise, false)])
           (cruising [mkButtonEvent accelCruise false] false false 20)
           (mkSubMaster 0) 7%Z); try reflexivity.
  unfold CRUISE_LONG_PRESS. lia.
Defined.

(** Below a boundary, the next boundary downward is less than one
    interval away. *)
Lemma floor_snap_between (v : Q) :
  ~ py_mod v 10 == 0 ->
  v - 10 < math_floor (v / 10) * 10 /\ math_floor (v / 10) * 10 < v.
Proof.
  intro Hna. unfold math_floor.
  destruct (floor_sandwich (v / 10)) as [H1 H2].
  assert (Hv : v / 10 * 10 == v) by field.
  split; [lra|].
  destruct (Qlt_le_dec (inject_Z (Qfloor (v / 10)) * 10) v) as [Hlt | Hge];
    [exact Hlt|].
  exfalso. apply Hna. unfold py_mod. lra.
Qed.

(** A long-press tick of the decrement button (metric units, reverse
    toggle off, accelerator released), at standstill or not: on a
    multiple of 10 the speed steps down by 10, otherwise it snaps to the
    next multiple of 10 downward, less than 10 away; the result is then
    clamped.  The decrement timer is scanned first, so the tick is taken
    whatever the increment timer says. *)
Theorem long_press_decrement_snap_or_step self CS sm td ta st :
  simple_policy_runs self CS = true ->
  param_s self "ReverseAccChange"%string = false ->
  gasPressed CS = false ->
  dict_get (button_change_states self) decelCruise = Some st ->
  button_timers self = [(decelCruise, td); (accelCruise, ta)] ->
  (td <> 0)%Z -> (td mod CRUISE_LONG_PRESS = 0)%Z ->
  Forall (passed_over (button_timers self)) (buttonEvents CS) ->
  exists self',
    update_v_cruise self CS true true sm = Ok self'
    /\ (py_mod (v_cruise_kph self) 10 == 0 ->
        v_cruise_kph self'
        == clip (v_cruise_kph self - 10) V_CRUISE_MIN V_CRUISE_MAX)
    /\ (~ py_mod (v_cruise_kph self) 10 == 0 ->
        v_cruise_kph self'
        == clip (math_floor (v_cruise_kph self / 10) * 10)
             V_CRUISE_MIN V_CRUISE_MAX
        /\ v_cruise_kph self - 10 < math_floor (v_cruise_kph self / 10) * 10
        /\ math_floor (v_cruise_kph self / 10) * 10 < v_cruise_kph self).
Proof.
  intros Hd Hrev Hgas Hst Htim Hnz Hm Hev.
  set (v := v_cruise_kph self).
  set (w := if negb (Qeq_bool (py_mod v (1 * 10)) 0)
            then math_floor (v / (1 * 10)) * (1 * 10)
            else v + 1 * 10 * -1).
  destruct (simple_policy_adjusts self CS true sm decelCruise true st w Hd)
    as [self' [Hu Hv]].
  - rewrite (select_button_no_release _ _ Hev), Htim.
    cbn [find_long_press].
    apply Z.eqb_neq in Hnz. apply Z.eqb_eq in Hm. now rewrite Hnz, Hm.
  - exact Hst.
  - reflexivity.
  - rewrite Hrev. unfold adjust_speed, w. fold v. cbn [andb].
    destruct (negb (Qeq_bool (py_mod v (1 * 10)) 0)); reflexivity.
  - exists self'. split; [exact Hu|]. rewrite Hv, Hgas. cbn [andb]. split.
    + intro Hal. unfold w.
      assert (Eb : Qeq_bool (py_mod v (1 * 10)) 0 = true)
        by (apply Qeq_bool_iff; exact Hal).
      rewrite Eb. cbn [negb].
      pose proof (aligned_is_multiple v Hal) as Hk.
      assert (Es : v + 1 * 10 * -1 == inject_Z (Qfloor (v / 10) + -1) * 10)
        by (rewrite inject_Z_plus; change (inject_Z (-1)) with (-1); lra).
      rewrite Es, py_round1_tens, <- Es.
      apply clip_Proper; [ring | reflexivity | reflexivity].
    + intro Hna. unfold w.
      assert (Eb : Qeq_bool (py_mod v (1 * 10)) 0 = false)
        by (apply Qeq_bool_false; exact Hna).
      rewrite Eb. cbn [negb].
      split; [|now apply floor_snap_between].
      assert (Es : math_floor (v / (1 * 10)) * (1 * 10)
                   == inject_Z (Qfloor (v / 10)) * 10)
        by (unfold math_floor; change (1 * 10) with 10; ring).
      rewrite Es, py_round1_tens. reflexivity.
Qed.

Lemma long_press_decrement_snap_or_step_witness :
  exists self',
    update_v_cruise
      (helper_at 72 [(decelCruise, 100%Z); (accelCruise, 50%Z)]
         [(decelCruise, false); (accelCruise, false)])
      (cruising [] true false 20) true true (mkSubMaster 0) = Ok self'
    /\ v_cruise_kph self' == 70.
Proof.
  destruct (long_press_decrement_snap_or_step
              (helper_at 72 [(decelCruise, 100%Z); (accelCruise, 50%Z)]
                 [(decelCruise, false); (accelCruise, false)])
              (cruising [] true false 20) (mkSubMaster 0) 100%Z 50%Z false)
    as [self' [Hu [_ Hs]]]; try reflexivity.
  - discriminate.
  - apply Forall_nil.
  - exists self'. split; [exact Hu|].
    destruct Hs as [Hs _]; [intro H; vm_compute in H; discriminate|].
    rewrite Hs. reflexivity.
Defined.

(** ** More of the ramping policy *)

Lemma py_mod_range (x d : Q) : 0 < d -> 0 <= py_mod x d /\ py_mod x d < d.
Proof.
  intro Hd. unfold py_mod.
  destruct (floor_sandwich (x / d)) as [H1 H2].
  set (f := inject_Z (Qfloor (x / d))) in *.
  assert (Hx : x == d * (x / d)) by (field; lra).
  assert (L : d * f <= d * (x / d)) by (apply Qmult_le_l; assumption).
  assert (U : d * (x / d) < d * (f + 1)) by (apply Qmult_lt_l; assumption).
  split; lra.
Qed.

Lemma py_mod_of_multiple (k : Z) (d : Q) :
  0 < d -> py_mod (d * inject_Z k) d == 0.
Proof.
  intro Hd. unfold py_mod.
  assert (E : d * inject_Z k / d == inject_Z k) by (field; lra).
  rewrite (Qfloor_comp _ _ E), Qfloor_Z. ring.
Qed.

(** The two ramp targets of the ramping policy: the next multiple of 5
    strictly above, and the next one strictly below. *)
Lemma honda_ramp_up_target (v : Q) :
  let target := v + (V_CRUISE_DELTA_HONDA - py_mod v V_CRUISE_DELTA_HONDA) in
  py_mod target V_CRUISE_DELTA_HONDA == 0 /\ v < target /\ target <= v + 5.
Proof.
  cbv zeta. unfold V_CRUISE_DELTA_HONDA.
  destruct (py_mod_range v 5) as [L U]; [lra|].
  split; [|split; lra].
  assert (E : v + (5 - py_mod v 5) == 5 * inject_Z (Qfloor (v / 5) + 1)).
  { unfold py_mod. rewrite inject_Z_plus. change (inject_Z 1) with 1. ring. }
  rewrite (py_mod_Proper _ _ E 5 5 (Qeq_refl 5)).
  apply py_mod_of_multiple. lra.
Qed.

Lemma honda_ramp_down_target (v : Q) :
  let target :=
    v - (V_CRUISE_DELTA_HONDA
         - py_mod (V_CRUISE_DELTA_HONDA - v) V_CRUISE_DELTA_HONDA) in
  py_mod target V_CRUISE_DELTA_HONDA == 0 /\ v - 5 <= target /\ target < v.
Proof.
  cbv zeta. unfold V_CRUISE_DELTA_HONDA.
  destruct (py_mod_range (5 - v) 5) as [L U]; [lra|].
  split; [|split; lra].
  assert (E : v - (5 - py_mod (5 - v) 5)
              == 5 * inject_Z (- Qfloor ((5 - v) / 5))).
  { unfold py_mod. rewrite inject_Z_opp. ring. }
  rewrite (py_mod_Proper _ _ E 5 5 (Qeq_refl 5)).
  apply py_mod_of_multiple. lra.
Qed.

Lemma honda_hold_due_iff (pressed_last cur_time : Q) (fast : bool) :
  honda_hold_due pressed_last cur_time fast = true
  <-> 1 <= cur_time - pressed_last
      \/ (fast = true /\ 0.5 <= cur_time - pressed_last).
Proof.
  unfold honda_hold_due. rewrite orb_true_iff, andb_true_iff.
  rewrite !Qle_bool_iff. reflexivity.
Qed.

(** Ramping policy, metric units, reverse toggle off, longitudinal
    enabled, no button event in the cycle.  With the increment latch set
    and the hold overdue (more than one second since the latch time, or
    more than half a second in fast mode; a hold that falls due in this
    very cycle is left out) the speed goes to the next multiple of 5 strictly
    above it, at most 5 away, then clamped to
    [[V_CRUISE_MIN_HONDA, V_CRUISE_MAX]]; with only the decrement latch
    set it goes to the next multiple of 5 strictly below it. *)
Theorem honda_hold_ramps_to_multiple_of_five self CS sm :
  honda_policy_runs self CS = true ->
  buttonEvents CS = [] ->
  param_s self "ReverseAccChange"%string = false ->
  let cur_time := inject_Z (frame sm) * DT_CTRL in
  let v := v_cruise_kph self in
  let up := v + (V_CRUISE_DELTA_HONDA - py_mod v V_CRUISE_DELTA_HONDA) in
  let down :=
    v - (V_CRUISE_DELTA_HONDA
         - py_mod (V_CRUISE_DELTA_HONDA - v) V_CRUISE_DELTA_HONDA) in
  exists self',
    update_v_cruise self CS true true sm = Ok self'
    /\ (accel_pressed self = true ->
        1 < cur_time - accel_pressed_last self
        \/ (fastMode self = true /\ 0.5 < cur_time - accel_pressed_last self) ->
        v_cruise_kph self' = clip up V_CRUISE_MIN_HONDA V_CRUISE_MAX
        /\ py_mod up V_CRUISE_DELTA_HONDA == 0 /\ v < up /\ up <= v + 5)
    /\ (accel_pressed self = false -> decel_pressed self = true ->
        1 < cur_time - decel_pressed_last self
        \/ (fastMode self = true /\ 0.5 < cur_time - decel_pressed_last self) ->
        v_cruise_kph self' = clip down V_CRUISE_MIN_HONDA V_CRUISE_MAX
        /\ py_mod down V_CRUISE_DELTA_HONDA == 0 /\ v - 5 <= down /\ down < v).
Proof.
  intros Hd Hev Hrev. cbv zeta.
  rewrite (update_v_cruise_honda _ _ _ _ _ Hd).
  eexists. split; [reflexivity|].
  rewrite (honda_branch_idle_speed (start_cycle self) CS true true _ Hev).
  cbn [accel_pressed decel_pressed accel_pressed_last decel_pressed_last
       fastMode reverse_acc_change v_cruise_kph start_cycle
       set_reverse_acc_change set_v_cruise_kph_last].
  rewrite Hrev.
  unfold honda_idle_speed, honda_from_display, honda_to_display, honda_ramp.
  cbv zeta. split.
  - intros Ha Hdue.
    assert (Hdue' : honda_hold_due (accel_pressed_last self)
                      (inject_Z (frame sm) * DT_CTRL) (fastMode self) = true)
      by (apply honda_hold_due_iff;
          destruct Hdue as [H | [Hf H]];
          [left; apply Qlt_le_weak, H
          |right; split; [exact Hf | apply Qlt_le_weak, H]]).
    rewrite Ha, Hdue'.
    split; [reflexivity | apply honda_ramp_up_target].
  - intros Ha Hdc Hdue.
    assert (Hdue' : honda_hold_due (decel_pressed_last self)
                      (inject_Z (frame sm) * DT_CTRL) (fastMode self) = true)
      by (apply honda_hold_due_iff;
          destruct Hdue as [H | [Hf H]];
          [left; apply Qlt_le_weak, H
          |right; split; [exact Hf | apply Qlt_le_weak, H]]).
    rewrite Ha, Hdc, Hdue'.
    split; [reflexivity | apply honda_ramp_down_target].
Qed.

Lemma honda_hold_ramps_to_multiple_of_five_witness :
  exists self',
    update_v_cruise
      (mkVCruiseHelper honda 72 72 72
         [(decelCruise, 0%Z); (accelCruise, 0%Z)]
         [(decelCruise, false); (accelCruise, false)]
         no_reverse true false 0 0 false false)
      (cruising [] false false 20) true true (mkSubMaster 150) = Ok self'
    /\ v_cruise_kph self' == 75.
Proof.
  destruct (honda_hold_ramps_to_multiple_of_five
              (mkVCruiseHelper honda 72 72 72
                 [(decelCruise, 0%Z); (accelCruise, 0%Z)]
                 [(decelCruise, false); (accelCruise, false)]
                 no_reverse true false 0 0 false false)
              (cruising [] false false 20) (mkSubMaster 150)
              eq_refl eq_refl eq_refl) as [self' [Hu [Hup _]]].
  exists self'. split; [exact Hu|].
  destruct (Hup eq_refl (or_introl eq_refl)) as [Hv _].
  rewrite Hv. reflexivity.
Defined.

Lemma honda_hold_not_due (pressed_last cur_time : Q) (fast : bool) :
  cur_time - pressed_last < 0.5
  \/ (fast = false /\ cur_time - pressed_last < 1) ->
  honda_hold_due pressed_last cur_time fast = false.
Proof.
  intro H. destruct (honda_hold_due pressed_last cur_time fast) eqn:E;
    [|reflexivity].
  apply honda_hold_due_iff in E.
  destruct E as [E | [Ef E]]; destruct H as [H | [Hf H]];
    try lra; congruence.
Qed.

(** Ramping policy, metric units, longitudinal enabled, no button event:
    while a hold is not due - less than half a second since the latch
    time, or less than a second outside fast mode - a latched button
    changes nothing but for the clamp. *)
Theorem honda_hold_waits self CS sm :
  honda_policy_runs self CS = true ->
  buttonEvents CS = [] ->
  let cur_time := inject_Z (frame sm) * DT_CTRL in
  (cur_time - accel_pressed_last self < 0.5
   \/ (fastMode self = false /\ cur_time - accel_pressed_last self < 1)) ->
  (cur_time - decel_pressed_last self < 0.5
   \/ (fastMode self = false /\ cur_time - decel_pressed_last self < 1)) ->
  exists self',
    update_v_cruise self CS true true sm = Ok self'
    /\ v_cruise_kph self'
       = clip (v_cruise_kph self) V_CRUISE_MIN_HONDA V_CRUISE_MAX.
Proof.
  intros Hd Hev. cbv zeta. intros Ha Hdc.
  rewrite (update_v_cruise_honda _ _ _ _ _ Hd).
  eexists. split; [reflexivity|].
  rewrite (honda_branch_idle_speed (start_cycle self) CS true true _ Hev).
  cbn [accel_pressed decel_pressed accel_pressed_last decel_pressed_last
       fastMode reverse_acc_change v_cruise_kph start_cycle
       set_reverse_acc_change set_v_cruise_kph_last].
  unfold honda_idle_speed, honda_from_display, honda_to_display, honda_ramp.
  cbv zeta.
  rewrite (honda_hold_not_due _ _ _ Ha), (honda_hold_not_due _ _ _ Hdc).
  destruct (accel_pressed self), (decel_pressed self); reflexivity.
Qed.

Lemma honda_hold_waits_witness :
  exists self',
    update_v_cruise
      (mkVCruiseHelper honda 72 72 72
         [(decelCruise, 0%Z); (accelCruise, 0%Z)]
         [(decelCruise, false); (accelCruise, false)]
         no_reverse true false 1 1 false false)
      (cruising [] false false 20) true true (mkSubMaster 150) = Ok self'
    /\ v_cruise_kph self' = clip 72 V_CRUISE_MIN_HONDA V_CRUISE_MAX.
Proof.
  apply (honda_hold_waits
           (mkVCruiseHelper honda 72 72 72
              [(decelCruise, 0%Z); (accelCruise, 0%Z)]
              [(decelCruise, false); (accelCruise, false)]
              no_reverse true false 1 1 false false)
           (cruising [] false false 20) (mkSubMaster 150) eq_refl eq_refl);
    right; split; reflexivity.
Defined.

(** Lines 172 and 97 are inverse to each other on whole display units:
    a whole number of mph, converted to kph and back, is the same number
    of mph. *)
Theorem honda_display_unit_roundtrip (n : Z) :
  honda_to_display false (honda_from_display false (inject_Z n)) = inject_Z n.
Proof.
  unfold honda_to_display, honda_from_display.
  now rewrite py_round_inject_Z, honda_display_roundtrip.
Qed.

Lemma honda_latches_pressed cur_time events : forall self,
  let self' := fold_left (honda_latch cur_time) events self in
  accel_pressed self'
  = match last_event_of accelCruise events with
    | Some b => pressed b
    | None => accel_pressed self
    end
  /\ decel_pressed self'
     = match last_event_of decelCruise events with
       | Some b => pressed b
       | None => decel_pressed self
       end
  /\ fastMode self' = fastMode self.
Proof.
  induction events as [|b rest IH]; intro self; cbv zeta;
    [now repeat split|].
  cbn [fold_left last_event_of].
  destruct (IH (honda_latch cur_time self b)) as [-> [-> ->]].
  destruct (last_event_of accelCruise rest), (last_event_of decelCruise rest);
    unfold honda_latch;
    destruct (pressed b) eqn:Ep, (type b); cbn; rewrite ?Ep;
    repeat split; reflexivity.
Qed.

(** After a cycle of the ramping policy each press latch says whether the
    last event of its button in the cycle was a press, and is as before
    without such an event; and fast mode is never left on with both
    latches clear. *)
Theorem honda_latches_follow_last_event
  self CS enabled_long is_metric sm self' :
  honda_policy_runs self CS = true ->
  update_v_cruise self CS enabled_long is_metric sm = Ok self' ->
  accel_pressed self'
  = match last_event_of accelCruise (buttonEvents CS) with
    | Some b => pressed b
    | None => accel_pressed self
    end
  /\ decel_pressed self'
     = match last_event_of decelCruise (buttonEvents CS) with
       | Some b => pressed b
       | None => decel_pressed self
       end
  /\ (fastMode self' = true ->
      accel_pressed self' || decel_pressed self' = true).
Proof.
  intros Hd Hu. rewrite (update_v_cruise_honda _ _ _ _ _ Hd) in Hu.
  injection Hu as <-.
  destruct (honda_latches_pressed (inject_Z (frame sm) * DT_CTRL)
              (buttonEvents CS) (start_cycle self)) as [Ha [Hdc _]].
  cbn [accel_pressed decel_pressed start_cycle set_reverse_acc_change
       set_v_cruise_kph_last] in Ha, Hdc.
  rewrite <- Ha, <- Hdc. clear Ha Hdc.
  unfold honda_branch.
  set (s0 := fold_left _ (buttonEvents CS) (start_cycle self)).
  assert (F : accel_pressed
                (_update_v_cruise_non_pcm_honda s0 CS enabled_long is_metric
                   (inject_Z (frame sm) * DT_CTRL)) = accel_pressed s0
              /\ decel_pressed
                   (_update_v_cruise_non_pcm_honda s0 CS enabled_long is_metric
                      (inject_Z (frame sm) * DT_CTRL)) = decel_pressed s0).
  { unfold _update_v_cruise_non_pcm_honda.
    destruct enabled_long; split; reflexivity. }
  destruct F as [Fa Fd].
  cbn [accel_pressed decel_pressed set_v_cruise_cluster_kph set_v_cruise_kph].
  rewrite Fa, Fd.
  destruct (accel_pressed s0 || decel_pressed s0) eqn:Ep.
  - match goal with
    | |- context [if ?c then _ else _] => destruct c
    end;
      cbn [accel_pressed decel_pressed fastMode set_fastMode
           set_decel_pressed_last set_accel_pressed_last
           set_v_cruise_cluster_kph set_v_cruise_kph];
      rewrite ?Fa, ?Fd; repeat split; auto.
  - cbn [accel_pressed decel_pressed fastMode set_fastMode
         set_v_cruise_cluster_kph set_v_cruise_kph].
    rewrite ?Fa, ?Fd. repeat split; try reflexivity. discriminate.
Qed.

Lemma honda_latches_follow_last_event_witness :
  exists self',
    update_v_cruise (init honda no_reverse)
      (cruising [mkButtonEvent accelCruise true; mkButtonEvent decelCruise true;
                 mkButtonEvent accelCruise false] false false 20)
      true true (mkSubMaster 0) = Ok self'
    /\ accel_pressed self' = false /\ decel_pressed self' = true.
Proof.
  eexists. split; [vm_compute; reflexivity|].
  destruct (honda_latches_follow_last_event
              (init honda no_reverse)
              (cruising [mkButtonEvent accelCruise true;
                         mkButtonEvent decelCruise true;
                         mkButtonEvent accelCruise false] false false 20)
              true true (mkSubMaster 0) _ eq_refl eq_refl) as [Ha [Hd _]].
  split; [exact Ha | exact Hd].
Defined.

(** Ramping policy, metric units, reverse toggle off, longitudinal
    enabled, decrement latch clear: a cycle whose only event is a release
    of the increment button adds 1 kph outside fast mode and nothing in
    fast mode (the hold has already moved the speed), then clamps; it
    leaves the increment latch clear and fast mode off. *)
Theorem honda_release_edge self CS sm :
  honda_policy_runs self CS = true ->
  buttonEvents CS = [mkButtonEvent accelCruise false] ->
  param_s self "ReverseAccChange"%string = false ->
  decel_pressed self = false ->
  exists self',
    update_v_cruise self CS true true sm = Ok self'
    /\ v_cruise_kph self'
       = clip (if fastMode self then v_cruise_kph self
               else v_cruise_kph self + 1)
           V_CRUISE_MIN_HONDA V_CRUISE_MAX
    /\ accel_pressed self' = false
    /\ fastMode self' = false.
Proof.
  intros Hd Hev Hrev Hdc.
  rewrite (update_v_cruise_honda _ _ _ _ _ Hd).
  eexists. split; [reflexivity|].
  unfold honda_branch, _update_v_cruise_non_pcm_honda. rewrite Hev.
  cbn [fold_left honda_latch pressed type ButtonType_eqb accel_pressed
       decel_pressed set_accel_pressed start_cycle set_reverse_acc_change
       set_v_cruise_kph_last fastMode reverse_acc_change v_cruise_kph
       set_v_cruise_kph set_v_cruise_cluster_kph].
  rewrite Hdc, Hrev.
  cbn [orb fastMode accel_pressed set_fastMode v_cruise_kph honda_release
       pressed type negb ButtonType_eqb andb set_v_cruise_kph
       set_v_cruise_cluster_kph].
  unfold honda_release.
  cbn [pressed type negb ButtonType_eqb orb]. rewrite andb_false_r.
  destruct (fastMode self); cbn [negb]; repeat split; reflexivity.
Qed.

Lemma honda_release_edge_witness :
  exists self',
    update_v_cruise
      (mkVCruiseHelper honda 72 72 72
         [(decelCruise, 0%Z); (accelCruise, 0%Z)]
         [(decelCruise, false); (accelCruise, false)]
         no_reverse true false 0 0 false false)
      (cruising [mkButtonEvent accelCruise false] false false 20)
      true true (mkSubMaster 20) = Ok self'
    /\ v_cruise_kph self' = clip (72 + 1) V_CRUISE_MIN_HONDA V_CRUISE_MAX
    /\ accel_pressed self' = false
    /\ fastMode self' = false.
Proof.
  apply (honda_release_edge
           (mkVCruiseHelper honda 72 72 72
              [(decelCruise, 0%Z); (accelCruise, 0%Z)]
              [(decelCruise, false); (accelCruise, false)]
              no_reverse true false 0 0 false false)
           (cruising [mkButtonEvent accelCruise false] false false 20)
           (mkSubMaster 20)); reflexivity.
Defined.

(** ** More of [initialize_v_cruise] *)

(** On a car whose PCM does not own both cruise and set speed,
    [initialize_v_cruise] always leaves an initialized helper whose
    cluster speed is its target speed; and when it engages from the
    vehicle speed (no increment or resume event, or a last speed of 250
    or more) the target is a whole number of kph between the enable
    minimum of the unit system and [V_CRUISE_MAX].  On a car whose PCM
    owns both, the call changes nothing. *)
Theorem initialize_v_cruise_result self CS (is_metric : bool) :
  let self' := initialize_v_cruise self CS is_metric in
  (pcmCruise (CP self) && pcmCruiseSpeed (CP self) = true -> self' = self)
  /\ (pcmCruise (CP self) && pcmCruiseSpeed (CP self) = false ->
      v_cruise_initialized self' = true
      /\ v_cruise_cluster_kph self' = v_cruise_kph self'
      /\ (resume_event_present CS = false \/ 250 <= v_cruise_kph_last self ->
          exists k : Z,
            v_cruise_kph self' = inject_Z k
            /\ ((if is_metric then 30 else 32) <= k <= 145)%Z)).
Proof.
  cbv zeta. unfold initialize_v_cruise. split.
  - intros ->. reflexivity.
  - intros ->. fold (resume_event_present CS).
    set (lo := if is_metric then V_CRUISE_ENABLE_MIN_KPH
               else V_CRUISE_ENABLE_MIN_MPH).
    assert (Hk : ((if is_metric then 30 else 32)
                  <= py_round (clip (vEgo CS * MS_TO_KPH) lo V_CRUISE_MAX)
                  <= 145)%Z).
    { destruct (clip_bounds (vEgo CS * MS_TO_KPH) lo V_CRUISE_MAX) as [L U].
      - unfold lo, V_CRUISE_ENABLE_MIN_KPH, V_CRUISE_ENABLE_MIN_MPH,
          V_CRUISE_MAX. destruct is_metric; lra.
      - split; [apply py_round_ge | apply py_round_le].
        + unfold lo, V_CRUISE_ENABLE_MIN_KPH, V_CRUISE_ENABLE_MIN_MPH in L.
          destruct is_metric; exact L.
        + exact U. }
    destruct (resume_event_present CS && Qltb (v_cruise_kph_last self) 250)
      eqn:Eb.
    + apply andb_true_iff in Eb as [Ee El]. apply Qltb_true in El.
      cbn [v_cruise_kph v_cruise_cluster_kph set_v_cruise_kph
           set_v_cruise_cluster_kph].
      split; [|split; [reflexivity|]].
      * unfold v_cruise_initialized.
        cbn [v_cruise_kph set_v_cruise_kph set_v_cruise_cluster_kph].
        apply negb_true_iff, Qeq_bool_false.
        unfold V_CRUISE_INITIAL. lra.
      * intros [H | H]; [congruence | lra].
    + cbn [v_cruise_kph v_cruise_cluster_kph set_v_cruise_kph
           set_v_cruise_cluster_kph].
      split; [|split; [reflexivity|]].
      * unfold v_cruise_initialized.
        cbn [v_cruise_kph set_v_cruise_kph set_v_cruise_cluster_kph].
        apply negb_true_iff, Qeq_bool_false.
        destruct Hk as [_ Hk]. rewrite Zle_Qle in Hk.
        unfold V_CRUISE_INITIAL. change (inject_Z 145) with 145 in Hk. lra.
      * intros _. eexists. split; [reflexivity | exact Hk].
Qed.

Lemma initialize_v_cruise_result_witness :
  exists k : Z,
    v_cruise_kph
      (initialize_v_cruise (init toyota no_reverse)
         (cruising [] false false 3) true) = inject_Z k
    /\ (30 <= k <= 145)%Z.
Proof.
  destruct (initialize_v_cruise_result (init toyota no_reverse)
              (cruising [] false false 3) true) as [_ H].
  destruct (H eq_refl) as [_ [_ Hk]].
  apply Hk. left. reflexivity.
Defined.

(** ** More of the lag compensator *)

Lemma lag_body_inversion (T_IDXS : list Q) CP v_ego psis c0 cs r0 rs c r :
  List.length psis = CONTROL_N ->
  get_lag_adjusted_curvature T_IDXS CP v_ego psis (c0 :: cs) (r0 :: rs)
  = Ok (c, r) ->
  let m := MAX_LATERAL_JERK / py_max MIN_SPEED v_ego ^ 2 in
  0 <= m
  /\ r = clip r0 (- m) m
  /\ exists d, c = clip d (c0 - m * DT_MDL) (c0 + m * DT_MDL).
Proof.
  intros Hlen. unfold get_lag_adjusted_curvature.
  assert (E : negb (List.length psis =? CONTROL_N)%nat = false)
    by (rewrite Hlen; reflexivity).
  rewrite E. cbv iota. cbn [list_at nth_error bind].
  destruct (interp _ _ _) as [psi|e]; cbn [bind]; [|discriminate].
  destruct (py_div psi _) as [a|e]; cbn [bind]; [|discriminate].
  destruct (max_rate_defined v_ego) as [-> Hm]. cbn [bind].
  intro H. injection H as <- <-. cbv zeta.
  split; [exact Hm|]. split; [reflexivity|]. eexists. reflexivity.
Qed.

Lemma empty_rates_raise (T_IDXS : list Q) CP v_ego psis curvatures :
  List.length psis = CONTROL_N ->
  exists e,
    get_lag_adjusted_curvature T_IDXS CP v_ego psis curvatures [] = Raise e.
Proof.
  intro Hlen. unfold get_lag_adjusted_curvature.
  assert (E : negb (List.length psis =? CONTROL_N)%nat = false)
    by (rewrite Hlen; reflexivity).
  rewrite E. cbv iota.
  destruct (list_at curvatures 0) as [c0|e]; cbn [bind]; [|eauto].
  destruct (interp _ _ _) as [psi|e]; cbn [bind]; [|eauto].
  destruct (py_div psi _) as [a|e]; cbn [bind]; [|eauto].
  eexists. reflexivity.
Qed.

(** The commanded curvature never moves further from the first planned
    curvature sample than the rate bound allows in one model step. *)
Theorem lag_curvature_step_bounded
  (T_IDXS : list Q) CP v_ego psis c0 cs curvature_rates c r :
  List.length psis = CONTROL_N ->
  get_lag_adjusted_curvature T_IDXS CP v_ego psis (c0 :: cs) curvature_rates
  = Ok (c, r) ->
  Qabs (c - c0)
  <= MAX_LATERAL_JERK / py_max MIN_SPEED v_ego ^ 2 * DT_MDL.
Proof.
  intros Hlen H.
  destruct curvature_rates as [|r0 rs].
  - destruct (empty_rates_raise T_IDXS CP v_ego psis (c0 :: cs) Hlen) as [e He].
    rewrite He in H. discriminate.
  - destruct (lag_body_inversion _ _ _ _ _ _ _ _ _ _ Hlen H)
      as [Hm [_ [d ->]]].
    set (m := MAX_LATERAL_JERK / py_max MIN_SPEED v_ego ^ 2) in *.
    destruct (clip_bounds d (c0 - m * DT_MDL) (c0 + m * DT_MDL)) as [L U];
      [unfold DT_MDL; lra|].
    apply Qabs_Qle_condition. split; lra.
Qed.

Lemma lag_curvature_step_bounded_witness :
  exists c r,
    get_lag_adjusted_curvature T_IDXS_model toyota 20
      (repeat 0.08 17) [0.008] [9] = Ok (c, r)
    /\ Qabs (c - 0.008) <= MAX_LATERAL_JERK / py_max MIN_SPEED 20 ^ 2 * DT_MDL.
Proof.
  destruct (get_lag_adjusted_curvature T_IDXS_model toyota 20
              (repeat 0.08 17) [0.008] [9]) as [[c r]|e] eqn:H;
    [|vm_compute in H; discriminate].
  exists c, r. split; [reflexivity|].
  exact (lag_curvature_step_bounded T_IDXS_model toyota 20
           (repeat 0.08 17) 0.008 [] [9] c r eq_refl H).
Defined.

(** The first curvature-rate sample passes through when it is within the
    rate bound, and saturates at the bound of its sign otherwise. *)
Theorem lag_rate_passes_or_saturates
  (T_IDXS : list Q) CP v_ego psis curvatures r0 rs c r :
  List.length psis = CONTROL_N ->
  get_lag_adjusted_curvature T_IDXS CP v_ego psis curvatures (r0 :: rs)
  = Ok (c, r) ->
  let m := MAX_LATERAL_JERK / py_max MIN_SPEED v_ego ^ 2 in
  (Qabs r0 <= m -> r == r0)
  /\ (m <= r0 -> r == m)
  /\ (r0 <= - m -> r == - m).
Proof.
  intros Hlen H. cbv zeta.
  destruct curvatures as [|c0 cs].
  - exfalso. revert H. unfold get_lag_adjusted_curvature.
    assert (E : negb (List.length psis =? CONTROL_N)%nat = false)
      by (rewrite Hlen; reflexivity).
    rewrite E. cbv iota. discriminate.
  - destruct (lag_body_inversion _ _ _ _ _ _ _ _ _ _ Hlen H)
      as [Hm [-> _]].
    set (m := MAX_LATERAL_JERK / py_max MIN_SPEED v_ego ^ 2) in *.
    split; [|split].
    + intro Ha. apply Qabs_Qle_condition in Ha. apply clip_inside; lra.
    + intro Hr. apply clip_above; lra.
    + intro Hr. apply clip_below; lra.
Qed.

Lemma lag_rate_passes_or_saturates_witness :
  exists c r,
    get_lag_adjusted_curvature T_IDXS_model toyota 20
      (repeat 0.08 17) [0.008] [9] = Ok (c, r)
    /\ r == MAX_LATERAL_JERK / py_max MIN_SPEED 20 ^ 2.
Proof.
  destruct (get_lag_adjusted_curvature T_IDXS_model toyota 20
              (repeat 0.08 17) [0.008] [9]) as [[c r]|e] eqn:H;
    [|vm_compute in H; discriminate].
  exists c, r. split; [reflexivity|].
  destruct (lag_rate_passes_or_saturates T_IDXS_model toyota 20
              (repeat 0.08 17) [0.008] 9 [] c r eq_refl H) as [_ [Hs _]].
  apply Hs. vm_compute. discriminate.
Defined.

(** Below [MIN_SPEED] the command does not depend on the speed: the call
    is the call at [MIN_SPEED]. *)
Theorem lag_speed_floor
  (T_IDXS : list Q) CP v_ego psis curvatures curvature_rates :
  v_ego <= MIN_SPEED ->
  get_lag_adjusted_curvature T_IDXS CP v_ego psis curvatures curvature_rates
  = get_lag_adjusted_curvature T_IDXS CP MIN_SPEED
      psis curvatures curvature_rates.
Proof.
  intro H.
  assert (E1 : py_max MIN_SPEED v_ego = MIN_SPEED)
    by (unfold py_max; apply Qltb_false in H; now rewrite H).
  assert (E2 : py_max MIN_SPEED MIN_SPEED = MIN_SPEED) by reflexivity.
  unfold get_lag_adjusted_curvature. now rewrite E1, E2.
Qed.

Lemma lag_speed_floor_witness :
  get_lag_adjusted_curvature T_IDXS_model toyota (- 3)
    (repeat 0.08 17) [0.008] [9]
  = get_lag_adjusted_curvature T_IDXS_model toyota MIN_SPEED
      (repeat 0.08 17) [0.008] [9].
Proof.
  apply (lag_speed_floor T_IDXS_model toyota (- 3)).
  vm_compute. discriminate.
Defined.

